(** * RA/Dec coordinate conversion: a shallow embedding of the two parsers

    The repository holds two implementations of [ra_dec_converter]:

    - [src/coordinate_parser.py], driven by an ordered list of regular
      expressions: module [Regex] below;
    - [src/python/coordinate_parser.py], which splits the input into an RA
      and a Dec token and tokenises each: module [Split] below.

    Python values are modelled as follows.  A [str] is a [string] whose
    characters are code points below 256 (the only non ASCII character the
    sources mention is the degree sign, code point 176).  A Python [float] is
    a binary64 number, here a primitive [float]; the conversions between text
    and floats ([float(s)], [round], the [f] format) are computed exactly over
    [Z] through [SpecFloat].  A Python [int] is a [Z].  Every exception is a
    value of [exn]; a function that may raise returns a [result].

    The proofs that need to know that a float within a range is finite use
    the specification of the comparisons of primitive floats, [leb_spec] and
    [ltb_spec] of the library. *)

From Stdlib Require Import ZArith Lia Bool String Ascii List.
From Stdlib Require Import PrimFloat SpecFloat FloatOps FloatAxioms.
Import ListNotations.

Open Scope string_scope.

(** ** Exceptions *)

(** One constructor per [raise] statement (or raising builtin) of the two
    sources; the comment gives the message of the Python exception. *)
Inductive exn : Type :=
  (* raised by both implementations *)
  | HoursOutOfRange (hh : float)      (* ValueError "Hours ... [0..24)" *)
  | MinutesOutOfRange (mm : float)    (* ValueError "Minutes ... [0..60)" *)
  | SecondsOutOfRange (ss : float)    (* ValueError "Seconds ... [0..60)" *)
  | RaOutOfRange (ra : float)         (* ValueError "RA must be ..." *)
  | DecOutOfRange (dec : float)       (* ValueError "Dec must be ..." *)
  (* src/python/coordinate_parser.py *)
  | CasaTokenCount (parts : list string) (* "Expected 2 tokens for CASA input" *)
  | CannotSplitHmsdms (s : string)    (* "Cannot split hmsdms input" *)
  | CannotSplitDegrees (s : string)   (* "Cannot split degrees input" *)
  | CannotParseDecimal (s : string)   (* "Cannot parse ... as decimal degrees." *)
  | CasaRaFields (s : string)         (* "CASA RA must have exactly 3 colon fields" *)
  | InvalidCasaDec (s : string)       (* "Invalid CASA dec" *)
  (* src/coordinate_parser.py *)
  | BadInputFormat                    (* "input_format must be either ..." *)
  | BadOutputFormat                   (* "Invalid output format specified." *)
  | LooksDecimal                      (* "Input appears to be in decimal degrees but input_format='hmsdms' specified" *)
  | LooksDMS                          (* "Input appears to be in DMS format but input_format='hmsdms' specified" *)
  | LooksHMS                          (* "Input appears to be in HMS format but input_format='degrees' specified" *)
  | CasaNeedsHmsdms                   (* "CASA format is only valid with input_format='hmsdms'" *)
  | ExpectedHourMarker (s : string)   (* "Expected HMS format for RA ..." *)
  | ExpectedDegreeMarker (s : string) (* "Expected degree format for RA ..." *)
  | NotRecognized                     (* "Input string format not recognized." *)
  (* raised by builtins *)
  | FloatOfString (s : string)        (* ValueError: could not convert string to float *)
  | IntOfFloat (x : float)            (* int(nan): ValueError, int(inf): OverflowError *)
  | RoundOverflow (x : float)         (* OverflowError: rounded value too large to represent *)
  | BadFormatSpec (p : Z)             (* ValueError: a negative precision in a format spec *)
  | UnpackError                       (* ValueError: wrong number of values to unpack *)
  | IndexError.                       (* list index out of range *)

Inductive result (A : Type) : Type :=
  | Ok (a : A)
  | Raise (e : exn).
Arguments Ok {A} a.
Arguments Raise {A} e.

Definition bind {A B : Type} (r : result A) (f : A -> result B) : result B :=
  match r with
  | Ok a => f a
  | Raise e => Raise e
  end.

Notation "'do' x <- r ; k" := (bind r (fun x => k))
  (at level 10, x pattern, r at level 100, k at level 200).

(** The errors that report a value outside its astronomical domain. *)
Definition is_range_error (e : exn) : bool :=
  match e with
  | HoursOutOfRange _ | MinutesOutOfRange _ | SecondsOutOfRange _
  | RaOutOfRange _ | DecOutOfRange _ => true
  | _ => false
  end.

(** ** Characters and strings *)

Module Str.

Definition code (c : ascii) : N := N_of_ascii c.

Definition between (lo hi : N) (c : ascii) : bool :=
  ((lo <=? code c) && (code c <=? hi))%N.

Definition is_digit (c : ascii) : bool := between 48 57 c.

(** [str.isspace] on code points below 256; also the class [\s]. *)
Definition is_space (c : ascii) : bool :=
  between 9 13 c || between 28 32 c || (code c =? 133)%N || (code c =? 160)%N.

(** The class [\w] on code points below 256: letters, digits (also the
    superscript digits and the vulgar fractions) and the underscore. *)
Definition is_word (c : ascii) : bool :=
  is_digit c || between 65 90 c || between 97 122 c || (code c =? 95)%N
  || (code c =? 170)%N || between 178 179 c || (code c =? 181)%N
  || between 185 186 c || between 188 190 c
  || between 192 214 c || between 216 246 c || between 248 255 c.

Definition chr (n : nat) : ascii := ascii_of_nat n.

(** The degree sign, U+00B0. *)
Definition degree_sign : ascii := chr 176.

Fixpoint mem (c : ascii) (cs : string) : bool :=
  match cs with
  | EmptyString => false
  | String d cs' => Ascii.eqb c d || mem c cs'
  end.

Definition one_of (cs : string) (c : ascii) : bool := mem c cs.

Fixpoint lstrip (s : string) : string :=
  match s with
  | String c s' => if is_space c then lstrip s' else s
  | EmptyString => EmptyString
  end.

(** [rstrip] as a fold from the right: a character is dropped when it is
    white space and everything after it was dropped. *)
Fixpoint rstrip (s : string) : string :=
  match s with
  | EmptyString => EmptyString
  | String c s' =>
      match rstrip s' with
      | EmptyString => if is_space c then EmptyString else String c EmptyString
      | t => String c t
      end
  end.

(** [s.strip()] *)
Definition strip (s : string) : string := rstrip (lstrip s).

(** [s.startswith(c)] for a one character prefix. *)
Definition startswith (c : ascii) (s : string) : bool :=
  match s with
  | String d _ => Ascii.eqb c d
  | EmptyString => false
  end.

(** [s[1:]] *)
Definition tail (s : string) : string :=
  match s with
  | String _ s' => s'
  | EmptyString => EmptyString
  end.

(** [s.split(sep)] for a one character separator: empty pieces are kept. *)
Fixpoint split_on (sep : ascii) (s : string) : list string :=
  match s with
  | EmptyString => [EmptyString]
  | String c s' =>
      if Ascii.eqb c sep then EmptyString :: split_on sep s'
      else match split_on sep s' with
           | piece :: pieces => String c piece :: pieces
           | [] => [String c EmptyString]
           end
  end.

(** [s.split()]: pieces between runs of white space, none of them empty. *)
Fixpoint split_ws (s : string) : list string :=
  match s with
  | EmptyString => []
  | String c s' =>
      if is_space c then split_ws s'
      else match s' with
           | EmptyString => [String c EmptyString]
           | String d _ =>
               if is_space d then String c EmptyString :: split_ws s'
               else match split_ws s' with
                    | piece :: pieces => String c piece :: pieces
                    | [] => [String c EmptyString]
                    end
           end
  end.

(** [s.replace(a, b)] for single characters. *)
Fixpoint replace_char (a b : ascii) (s : string) : string :=
  match s with
  | EmptyString => EmptyString
  | String c s' => String (if Ascii.eqb c a then b else c) (replace_char a b s')
  end.

(** [sep.join(pieces)] *)
Fixpoint join (sep : string) (pieces : list string) : string :=
  match pieces with
  | [] => EmptyString
  | [p] => p
  | p :: ps => p ++ sep ++ join sep ps
  end.

Fixpoint repeat_char (c : ascii) (n : nat) : string :=
  match n with
  | O => EmptyString
  | S n' => String c (repeat_char c n')
  end.

(** Pad on the left with ['0'] up to [width] characters. *)
Definition zfill (width : nat) (s : string) : string :=
  repeat_char "0" (width - String.length s) ++ s.

End Str.

(** ** Regular expressions

    The subset of Python's [re] that the sources use, with its backtracking
    semantics: alternatives and repetitions are tried in priority order and
    the first complete match wins. *)

Module Re.

Inductive regex : Type :=
  | Eps
  | Cls (f : ascii -> bool)                        (* one character of a class *)
  | Cat (r1 r2 : regex)
  | Alt (r1 r2 : regex)
  | Rep (greedy : bool) (lo : nat) (hi : option nat) (r : regex)  (* r{lo,hi} *)
  | Grp (i : nat) (r : regex)                      (* capturing group number i *)
  | Bol                                            (* ^ *)
  | Eol                                            (* $ *)
  | WordB.                                         (* \b *)

(** Captures: the most recent binding of a group comes first. *)
Definition caps : Type := list (nat * string).

Fixpoint group (cs : caps) (i : nat) : option string :=
  match cs with
  | [] => None
  | (j, s) :: cs' => if Nat.eqb i j then Some s else group cs' i
  end.

(** The text between two positions of the same string, the second one
    given by what is left of the input there. *)
Definition consumed (s s' : string) : string :=
  substring 0 (String.length s - String.length s') s.

Section Matcher.

Variable A : Type.

(** A continuation receives the character before the current position, the
    rest of the input and the captures. *)
Definition cont : Type := option ascii -> string -> caps -> option A.

Definition matcher : Type := option ascii -> string -> caps -> cont -> option A.

(** [n] more iterations are allowed and [lo] of them are required.  Once the
    required ones are done, an iteration that consumes nothing is refused. *)
Fixpoint rep_loop (step : matcher) (greedy : bool) (lo n : nat) : matcher :=
  fun prev s cs k =>
    match n with
    | O => match lo with O => k prev s cs | S _ => None end
    | S n' =>
        let more :=
          step prev s cs (fun prev' s' cs' =>
            if Nat.eqb lo 0 && Nat.eqb (String.length s') (String.length s)
            then None
            else rep_loop step greedy (Nat.pred lo) n' prev' s' cs' k) in
        match lo with
        | S _ => more
        | O =>
            if greedy
            then match more with Some a => Some a | None => k prev s cs end
            else match k prev s cs with Some a => Some a | None => more end
        end
    end.

Definition word_before (prev : option ascii) : bool :=
  match prev with Some c => Str.is_word c | None => false end.

Definition word_after (s : string) : bool :=
  match s with String c _ => Str.is_word c | EmptyString => false end.

(** [$] matches at the end and before a newline that ends the input. *)
Definition at_end (s : string) : bool :=
  match s with
  | EmptyString => true
  | String c EmptyString => Ascii.eqb c (Str.chr 10)
  | _ => false
  end.

Fixpoint run (r : regex) : matcher :=
  match r with
  | Eps => fun prev s cs k => k prev s cs
  | Cls f => fun prev s cs k =>
      match s with
      | String c s' => if f c then k (Some c) s' cs else None
      | EmptyString => None
      end
  | Cat r1 r2 => fun prev s cs k =>
      run r1 prev s cs (fun prev' s' cs' => run r2 prev' s' cs' k)
  | Alt r1 r2 => fun prev s cs k =>
      match run r1 prev s cs k with
      | Some a => Some a
      | None => run r2 prev s cs k
      end
  | Rep greedy lo hi r1 => fun prev s cs k =>
      let n := match hi with Some h => h | None => lo + String.length s end in
      rep_loop (run r1) greedy lo n prev s cs k
  | Grp i r1 => fun prev s cs k =>
      run r1 prev s cs (fun prev' s' cs' => k prev' s' ((i, consumed s s') :: cs'))
  | Bol => fun prev s cs k =>
      match prev with None => k prev s cs | Some _ => None end
  | Eol => fun prev s cs k => if at_end s then k prev s cs else None
  | WordB => fun prev s cs k =>
      if xorb (word_before prev) (word_after s) then k prev s cs else None
  end.

End Matcher.

(** [re.match(r, s)]: a match that starts at the beginning of [s]. *)
Definition re_match (r : regex) (s : string) : option caps :=
  run caps r None s [] (fun _ _ cs => Some cs).

(** A match that starts at the current position: the character before the
    end of the match and the rest of the input after it. *)
Definition match_here (r : regex) (prev : option ascii) (s : string)
  : option (option ascii * string) :=
  run _ r prev s [] (fun prev' s' _ => Some (prev', s')).

(** [re.sub(r, repl, s)]: the leftmost matches, none overlapping another, are
    replaced.  No pattern given to it here matches the empty string; such a
    match is passed over. *)
Fixpoint sub_loop (r : regex) (repl : string) (fuel : nat)
    (prev : option ascii) (s : string) : string :=
  match fuel with
  | O => s
  | S fuel' =>
      let skip :=
        match s with
        | EmptyString => EmptyString
        | String c s' => String c (sub_loop r repl fuel' (Some c) s')
        end in
      match match_here r prev s with
      | Some (prev', s') =>
          if Nat.ltb (String.length s') (String.length s)
          then repl ++ sub_loop r repl fuel' prev' s'
          else skip
      | None => skip
      end
  end.

Definition re_sub (r : regex) (repl : string) (s : string) : string :=
  sub_loop r repl (S (String.length s)) None s.

(** [re.split(r, s)] for a pattern without groups that matches no empty
    string: [cur] is the piece read so far. *)
Fixpoint split_loop (r : regex) (fuel : nat) (prev : option ascii)
    (s : string) (cur : string) : list string :=
  match fuel with
  | O => [cur ++ s]
  | S fuel' =>
      let skip :=
        match s with
        | EmptyString => [cur]
        | String c s' =>
            split_loop r fuel' (Some c) s' (cur ++ String c EmptyString)
        end in
      match match_here r prev s with
      | Some (prev', s') =>
          if Nat.ltb (String.length s') (String.length s)
          then cur :: split_loop r fuel' prev' s' EmptyString
          else skip
      | None => skip
      end
  end.

Definition re_split (r : regex) (s : string) : list string :=
  split_loop r (S (String.length s)) None s EmptyString.

(** Pattern syntax. *)
Fixpoint cat (rs : list regex) : regex :=
  match rs with
  | [] => Eps
  | [r] => r
  | r :: rs' => Cat r (cat rs')
  end.

Definition star (r : regex) : regex := Rep true 0 None r.          (* r* *)
Definition lazy_star (r : regex) : regex := Rep false 0 None r.    (* r*? *)
Definition plus (r : regex) : regex := Rep true 1 None r.          (* r+ *)
Definition opt (r : regex) : regex := Rep true 0 (Some 1) r.       (* r? *)
Definition times (lo hi : nat) (r : regex) : regex := Rep true lo (Some hi) r.
Definition lit (c : ascii) : regex := Cls (Ascii.eqb c).
Definition set (cs : string) : regex := Cls (Str.one_of cs).
Definition digit : regex := Cls Str.is_digit.                      (* \d *)
Definition space : regex := Cls Str.is_space.                      (* \s *)
(** [.] without DOTALL: any character but the newline. *)
Definition dot : regex := Cls (fun c => negb (Ascii.eqb c (Str.chr 10))).
Definition sign : regex := set "+-".                               (* [+-] *)

End Re.

(** ** Python's numbers *)

Module Py.

Definition prec : Z := 53.
Definition emax : Z := 1024.

(** The binary64 number nearest to [num / den] (ties to even), with the sign
    [neg]; [num >= 0] and [den > 0].  The division of [SpecFloat] rounds
    correctly whatever the size of the two integers. *)
Definition nearest (neg : bool) (num den : Z) : float :=
  match num with
  | Zpos n =>
      SF2Prim (SFdiv prec emax (S754_finite neg n 0)
                 (S754_finite false (Z.to_pos den) 0))
  | _ => if neg then (-0)%float else 0%float
  end.

(** [num / den] rounded to the nearest integer, ties to even. *)
Definition round_half_even (num den : Z) : Z :=
  let q := (num / den)%Z in
  let r := (num mod den)%Z in
  match (2 * r ?= den)%Z with
  | Lt => q
  | Gt => (q + 1)%Z
  | Eq => if Z.even q then q else (q + 1)%Z
  end.

(** A finite float as a sign and a fraction [num / den] of integers. *)
Definition fraction (m : positive) (e : Z) : Z * Z :=
  match e with
  | Zneg k => (Zpos m, Z.pow_pos 2 k)
  | _ => (Z.shiftl (Zpos m) e, 1%Z)
  end.

(** [num / den * 10^p] *)
Definition scale10 (f : Z * Z) (p : Z) : Z * Z :=
  let '(num, den) := f in
  match p with
  | Zneg k => (num, (den * Z.pow_pos 10 k)%Z)
  | _ => ((num * 10 ^ p)%Z, den)
  end.

(** *** [float(s)] *)

Fixpoint digits_prefix (s : string) (acc count : Z) : Z * Z * string :=
  match s with
  | String c s' =>
      if Str.is_digit c
      then digits_prefix s' (10 * acc + Z.of_N (Str.code c) - 48)%Z (count + 1)%Z
      else (acc, count, s)
  | EmptyString => (acc, count, s)
  end.

(** Underscores may stand between two digits; they are removed. *)
Fixpoint drop_underscores (prev : option ascii) (s : string) : option string :=
  let digit_before := match prev with Some d => Str.is_digit d | None => false end in
  match s with
  | EmptyString => Some EmptyString
  | String c s' =>
      if Ascii.eqb c "_"
      then match s' with
           | String d _ =>
               if digit_before && Str.is_digit d
               then drop_underscores (Some c) s'
               else None
           | EmptyString => None
           end
      else option_map (String c) (drop_underscores (Some c) s')
  end.

Definition lower (c : ascii) : ascii :=
  if Str.between 65 90 c then ascii_of_N (Str.code c + 32) else c.

Fixpoint lowercase (s : string) : string :=
  match s with
  | EmptyString => EmptyString
  | String c s' => String (lower c) (lowercase s')
  end.

(** The exponent part: nothing, or [e], an optional sign and digits. *)
Definition exponent (s : string) : option Z :=
  match s with
  | EmptyString => Some 0%Z
  | String c s' =>
      if Str.one_of "eE" c then
        let '(neg, s'') :=
          match s' with
          | String "-" t => (true, t)
          | String "+" t => (false, t)
          | _ => (false, s')
          end in
        match digits_prefix s'' 0 0 with
        | (e, n, EmptyString) =>
            if (0 <? n)%Z then Some (if neg then (- e)%Z else e) else None
        | _ => None
        end
      else None
  end.

(** An unsigned decimal numeral as [mant * 10^dexp]. *)
Definition numeral (s : string) : option (Z * Z) :=
  let '(ip, ni, r1) := digits_prefix s 0 0 in
  let '(mant, nf, r2) :=
    match r1 with
    | String "." r => digits_prefix r ip 0
    | _ => (ip, 0%Z, r1)
    end in
  if (ni + nf =? 0)%Z then None
  else match exponent r2 with
       | Some e => Some (mant, (e - nf)%Z)
       | None => None
       end.

Definition unsigned_float (neg : bool) (s : string) : option float :=
  let l := lowercase s in
  if String.eqb l "inf" || String.eqb l "infinity"
  then Some (if neg then neg_infinity else infinity)
  else if String.eqb l "nan" then Some nan
  else match numeral s with
       | Some (mant, dexp) =>
           Some (match dexp with
                 | Zneg k => nearest neg mant (Z.pow_pos 10 k)
                 | _ => nearest neg (mant * 10 ^ dexp) 1
                 end)
       | None => None
       end.

(** The white space that [float] skips at both ends of its argument: the
    characters of [str.isspace] but the four separators of the codes 28 to
    31, which [float] refuses. *)
Definition float_space (c : ascii) : bool :=
  Str.is_space c && negb (Str.between 28 31 c).

Fixpoint skip_left (s : string) : string :=
  match s with
  | String c s' => if float_space c then skip_left s' else s
  | EmptyString => EmptyString
  end.

Fixpoint skip_right (s : string) : string :=
  match s with
  | EmptyString => EmptyString
  | String c s' =>
      match skip_right s' with
      | EmptyString => if float_space c then EmptyString else String c EmptyString
      | t => String c t
      end
  end.

Definition float_strip (s : string) : string := skip_right (skip_left s).

Definition float_of_string (s : string) : result float :=
  let parsed :=
    match drop_underscores None (float_strip s) with
    | Some t =>
        match t with
        | String "-" u => unsigned_float true u
        | String "+" u => unsigned_float false u
        | _ => unsigned_float false t
        end
    | None => None
    end in
  match parsed with
  | Some x => Ok x
  | None => Raise (FloatOfString s)
  end.

(** *** From floats to integers *)

(** [int(x)]: truncation towards zero. *)
Definition int_of_float (x : float) : result Z :=
  match Prim2SF x with
  | S754_zero _ => Ok 0%Z
  | S754_finite neg m e =>
      let '(num, den) := fraction m e in
      Ok (if neg then (- (num / den))%Z else (num / den)%Z)
  | _ => Raise (IntOfFloat x)
  end.

(** [round(x)]: the nearest integer, ties to even. *)
Definition round_to_int (x : float) : result Z :=
  match Prim2SF x with
  | S754_zero _ => Ok 0%Z
  | S754_finite neg m e =>
      let '(num, den) := fraction m e in
      let n := round_half_even num den in
      Ok (if neg then (- n)%Z else n)
  | _ => Raise (IntOfFloat x)
  end.

(** [float(n)] for an integer that small that the conversion is exact, and
    more generally the nearest float. *)
Definition float_of_int (n : Z) : float :=
  nearest (n <? 0)%Z (Z.abs n) 1.

(** [round(x, p)]: the decimal numeral with [p] fractional digits nearest to
    the exact value of [x], then the float nearest to that numeral. *)
Definition round_digits (x : float) (p : Z) : result float :=
  match Prim2SF x with
  | S754_finite neg m e =>
      if (323 <? p)%Z then Ok x
      else if (p <? -308)%Z then Ok (0 * x)%float
      else
        let '(num, den) := scale10 (fraction m e) p in
        let n := round_half_even num den in
        let y := match p with
                 | Zneg k => nearest neg (n * Z.pow_pos 10 k) 1
                 | _ => nearest neg n (10 ^ p)
                 end in
        match Prim2SF y with
        | S754_infinity _ => Raise (RoundOverflow x)
        | _ => Ok y
        end
  | _ => Ok x
  end.

(** *** [x % y] for a finite divisor other than zero *)

Definition float_mod (x y : float) : float :=
  match Prim2SF x, Prim2SF y with
  | S754_finite sx mx ex, S754_finite sy my ey =>
      let g := Z.min ex ey in
      let r := (Z.shiftl (Zpos mx) (ex - g) mod Z.shiftl (Zpos my) (ey - g))%Z in
      (* fmod: exact, with the sign of x *)
      let fm := match r with
                | Z0 => 0%float
                | _ => SF2Prim (binary_normalize prec emax
                                  (if sx then (- r)%Z else r) g false)
                end in
      if (fm =? 0)%float then (if sy then (-0)%float else 0%float)
      else if xorb (y <? 0)%float (fm <? 0)%float then (fm + y)%float
      else fm
  | S754_zero _, S754_finite sy _ _ => if sy then (-0)%float else 0%float
  | _, _ => nan
  end.

(** *** Formatting *)

Definition digit_char (d : Z) : ascii := ascii_of_N (Z.to_N (48 + d mod 10)).

(** The [n] lowest decimal digits of [v]. *)
Fixpoint low_digits (n : nat) (v : Z) : string :=
  match n with
  | O => EmptyString
  | S n' => low_digits n' (v / 10) ++ String (digit_char v) EmptyString
  end.

Fixpoint count_digits (fuel : nat) (v : Z) : nat :=
  match fuel with
  | O => 1
  | S fuel' => if (v <? 10)%Z then 1 else S (count_digits fuel' (v / 10))
  end.

(** The decimal numeral of [v >= 0], without leading zeros. *)
Definition decimal (v : Z) : string :=
  low_digits (count_digits (Z.to_nat (Z.log2 v)) v) v.

(** The format [0{width}d]: sign, zeros up to [width], digits. *)
Definition format_d (width : nat) (n : Z) : string :=
  let sgn := if (n <? 0)%Z then "-" else "" in
  sgn ++ Str.zfill (width - String.length sgn) (decimal (Z.abs n)).

(** The formats [.{p}f], [+.{p}f] and [0{width}.{p}f]; [width = 0] when no
    width is given.  The exact value is rounded once, ties to even. *)
Definition format_f (plus : bool) (width : nat) (p : Z) (x : float)
  : result string :=
  if (p <? 0)%Z then Raise (BadFormatSpec p)
  else
    let fixed (neg : bool) (n : Z) : string * string :=
      let scale := (10 ^ p)%Z in
      (if neg then "-" else if plus then "+" else "",
       decimal (n / scale) ++
       (if (p =? 0)%Z then "" else "." ++ low_digits (Z.to_nat p) (n mod scale))) in
    let '(sgn, body) :=
      match Prim2SF x with
      | S754_zero neg => fixed neg 0%Z
      | S754_finite neg m e =>
          let '(num, den) := scale10 (fraction m e) p in
          fixed neg (round_half_even num den)
      | S754_infinity neg => (if neg then "-" else if plus then "+" else "", "inf")
      | S754_nan => (if plus then "+" else "", "nan")
      end in
    Ok (sgn ++ Str.zfill (width - String.length sgn) body).

(** The sign [-1] or [1] as a float factor. *)
Definition of_sign (neg : bool) : float := if neg then (-1)%float else 1%float.

End Py.

(** The keyword arguments of [ra_dec_converter]; [None] stands for an
    argument left at its default. *)
Record options : Type := {
  input_format : string;
  output_format : string;
  internal_delimiter : option string;
  ra_dec_delimiter : string;
  ra_only : bool;
  dec_only : bool;
  ra_precision : option Z;
  dec_precision : option Z
}.

(** The epoch marker [\b[Jj]\s*2000\.?0?\b\s*], removed by both
    implementations. *)
Definition epoch_marker : Re.regex :=
  Re.cat [Re.WordB; Re.set "Jj"; Re.star Re.space;
          Re.lit "2"; Re.lit "0"; Re.lit "0"; Re.lit "0";
          Re.opt (Re.lit "."); Re.opt (Re.lit "0"); Re.WordB;
          Re.star Re.space].

(** [[,\s]] *)
Definition comma_or_space : Re.regex :=
  Re.Cls (fun c => Ascii.eqb c "," || Str.is_space c).

(** The pattern [^ ( .*? ) ( [+\-] \d .* ) $] (written here with blanks
    between its parts): the split before the first sign that a digit
    follows. *)
Definition signed_tail : Re.regex :=
  Re.cat [Re.Bol; Re.Grp 1 (Re.lazy_star Re.dot);
          Re.Grp 2 (Re.cat [Re.sign; Re.digit; Re.star Re.dot]); Re.Eol].

(** A captured group, the empty string standing for a group that did not
    take part in the match. *)
Definition grp (cs : Re.caps) (i : nat) : string :=
  match Re.group cs i with Some s => s | None => EmptyString end.

(** ** The tokenising implementation, [src/python/coordinate_parser.py] *)

Module Split.

Definition defaults : options := {|
  input_format := "hmsdms";
  output_format := "degrees";
  internal_delimiter := None;
  ra_dec_delimiter := String (Str.chr 9) "";
  ra_only := false;
  dec_only := false;
  ra_precision := None;
  dec_precision := None
|}.

Definition determine_precision (value_str : string) : Z :=
  if negb (Str.mem "." value_str) then 0%Z
  else Z.of_nat (String.length (last (Str.split_on "." value_str) "")).

Definition split_ra_dec (input_str in_fmt : string) : result (string * string) :=
  let input_str := Str.strip input_str in
  if String.eqb in_fmt "casa" then
    let parts := Re.re_split (Re.plus comma_or_space) input_str in
    match parts with
    | [p0; p1] => Ok (p0, p1)
    | _ => Raise (CasaTokenCount parts)
    end
  else if String.eqb in_fmt "hmsdms" then
    match Re.re_match signed_tail (Str.replace_char "," " " input_str) with
    | Some m => Ok (Str.strip (grp m 1), Str.strip (grp m 2))
    | None =>
        (* fallback *)
        match Re.re_split (Re.plus Re.space) input_str with
        | [p0; p1] => Ok (p0, p1)
        | _ => Raise (CannotSplitHmsdms input_str)
        end
    end
  else
    (* 'degrees' *)
    match Re.re_split (Re.plus comma_or_space) input_str with
    | [p0; p1] => Ok (p0, p1)
    | _ =>
        (* fallback sign-based *)
        match Re.re_match signed_tail input_str with
        | Some m2 => Ok (Str.strip (grp m2 1), Str.strip (grp m2 2))
        | None => Raise (CannotSplitDegrees input_str)
        end
    end.

Definition parse_ra_colon_strict (ra_str : string)
  : result (string * string * string) :=
  match Str.split_on ":" ra_str with
  | [p0; p1; p2] => Ok (p0, p1, p2)
  | _ => Raise (CasaRaFields ra_str)
  end.

(** The pattern [^ ([+\-]) (\d{1,3}) \. (\d{1,2}) \. (\d{1,2} (\.\d+)? ) $],
    written here with blanks between its parts. *)
Definition casa_dec_pattern : Re.regex :=
  Re.cat [Re.Bol; Re.Grp 1 Re.sign; Re.Grp 2 (Re.times 1 3 Re.digit);
          Re.lit "."; Re.Grp 3 (Re.times 1 2 Re.digit); Re.lit ".";
          Re.Grp 4 (Re.cat [Re.times 1 2 Re.digit;
                            Re.opt (Re.Grp 5 (Re.cat [Re.lit "."; Re.plus Re.digit]))]);
          Re.Eol].

Definition parse_casa_dotted_dec (dec_str : string) : result (float * Z) :=
  let dec_str := Str.strip dec_str in
  match Re.re_match casa_dec_pattern dec_str with
  | None => Raise (InvalidCasaDec dec_str)
  | Some m =>
      let sign_char := grp m 1 in
      let d := grp m 2 in
      let mm := grp m 3 in
      let ss_str := grp m 4 in
      let sign := Py.of_sign (String.eqb sign_char "-") in
      do dd <- Py.float_of_string d;
      do mmf <- Py.float_of_string mm;
      do ssf <- Py.float_of_string ss_str;
      let prec := determine_precision ss_str in
      let decval := (sign * (dd + mmf / 60 + ssf / 3600))%float in
      Ok (decval, prec)
  end.

(** The class of unit markers: the letters h, d, m, s in both cases, the
    degree sign, the single and the double quote. *)
Definition unit_marker : Re.regex :=
  Re.Cls (fun c => Str.one_of "hHdDmM'sS" c || Ascii.eqb c Str.degree_sign
                   || Ascii.eqb c (Str.chr 34)).

(** [[:\s]] *)
Definition colon_or_space : Re.regex :=
  Re.Cls (fun c => Ascii.eqb c ":" || Str.is_space c).

(** The tokens of one axis: unit markers turned into blanks, then a split
    at colons and white space, the empty pieces dropped. *)
Definition tokens_of (coord_str : string) : list string :=
  let cleaned := Re.re_sub unit_marker " " coord_str in
  let tokens := Re.re_split (Re.plus colon_or_space) (Str.strip cleaned) in
  filter (fun t => negb (String.eqb t "")) tokens.

Definition parse_hms_or_dms (coord_str : string) : string * string * string :=
  match tokens_of coord_str with
  | [] => ("0", "0", "0")
  | [t0] => (t0, "0", "0")
  | [t0; t1] => (t0, t1, "0")
  | t0 :: t1 :: t2 :: _ => (t0, t1, t2)
  end.

Definition hms_to_degrees (h m s : string) : result float :=
  do hh <- Py.float_of_string h;
  do mm <- Py.float_of_string m;
  do ss <- Py.float_of_string s;
  if negb ((0 <=? hh) && (hh <? 24))%float then Raise (HoursOutOfRange hh)
  else if negb ((0 <=? mm) && (mm <? 60))%float then Raise (MinutesOutOfRange mm)
  else if negb ((0 <=? ss) && (ss <? 60))%float then Raise (SecondsOutOfRange ss)
  else Ok (hh + mm / 60 + ss / 3600)%float.

Definition dms_to_degrees (d m s : string) : result float :=
  let d_str := Str.strip d in
  let '(neg, d_str) :=
    if Str.startswith "-" d_str then (true, Str.tail d_str)
    else if Str.startswith "+" d_str then (false, Str.tail d_str)
    else (false, d_str) in
  do dd <- (if String.eqb d_str "" then Ok 0%float else Py.float_of_string d_str);
  do mm <- Py.float_of_string m;
  do ss <- Py.float_of_string s;
  if negb ((0 <=? mm) && (mm <? 60))%float then Raise (MinutesOutOfRange mm)
  else if negb ((0 <=? ss) && (ss <? 60))%float then Raise (SecondsOutOfRange ss)
  else
    let deg_val := (dd + mm / 60 + ss / 3600)%float in
    Ok (Py.of_sign neg * deg_val)%float.

Definition parse_to_degrees (coord_str : string) (is_ra : bool)
    (input_format : string) : result (float * Z) :=
  let coord_str := Str.strip coord_str in
  if String.eqb input_format "casa" then
    if is_ra then
      do (h, m, s) <- parse_ra_colon_strict coord_str;
      let prec := determine_precision s in
      do hours <- hms_to_degrees h m s;
      Ok ((hours * 15)%float, prec)
    else parse_casa_dotted_dec coord_str
  else if String.eqb input_format "hmsdms" then
    let '(h, m, s) := parse_hms_or_dms coord_str in
    let inprec := determine_precision s in
    do val <- (if is_ra
               then do hours <- hms_to_degrees h m s; Ok (hours * 15)%float
               else dms_to_degrees h m s);
    Ok (val, inprec)
  else
    (* 'degrees' *)
    if Str.mem ":" coord_str then
      let '(d, mm, ss) := parse_hms_or_dms coord_str in
      let inprec := determine_precision ss in
      do val <- dms_to_degrees d mm ss;
      Ok (val, inprec)
    else
      match Py.float_of_string coord_str with
      | Ok val => Ok (val, determine_precision coord_str)
      | Raise _ => Raise (CannotParseDecimal coord_str)
      end.

Definition format_degrees (value : float) (precision : Z) (force_sign : bool)
  : result string :=
  Py.format_f force_sign 0 precision value.

Definition two_digit_left (value : float) (precision : Z) : result string :=
  do val_rounded <- Py.round_digits value precision;
  do base_str <- Py.format_f false 0 precision val_rounded;
  if Str.mem "." base_str then
    match Str.split_on "." base_str with
    | [int_part; frac_part] =>
        if Nat.eqb (String.length int_part) 1
        then Ok ("0" ++ int_part ++ "." ++ frac_part)
        else Ok base_str
    | _ => Raise UnpackError
    end
  else if Nat.eqb (String.length base_str) 1 then Ok ("0" ++ base_str)
  else Ok base_str.

(** The seconds field of [degrees_to_hms] and [degrees_to_dms]. *)
Definition seconds_field (ss : float) (precision : Z) : result string :=
  if (0 <? precision)%Z then two_digit_left ss precision
  else do n <- Py.round_to_int ss; Ok (Py.format_d 2 n).

Definition degrees_to_hms (deg_val : float) (precision : Z) (delimiter : string)
  : result string :=
  let hours := Py.float_mod (deg_val / 15)%float 24%float in
  do hh <- Py.int_of_float hours;
  let remainder := (hours - Py.float_of_int hh)%float in
  do mm <- Py.int_of_float (remainder * 60)%float;
  let remainder := (remainder * 60 - Py.float_of_int mm)%float in
  let ss := (remainder * 60)%float in
  do s_str <- seconds_field ss precision;
  Ok (Py.format_d 2 hh ++ delimiter ++ Py.format_d 2 mm ++ delimiter ++ s_str).

Definition degrees_to_dms (deg_val : float) (precision : Z) (delimiter : string)
  : result string :=
  let sign := if (deg_val <? 0)%float then "-" else "+" in
  let v := abs deg_val in
  do dd <- Py.int_of_float v;
  let remainder := (v - Py.float_of_int dd)%float in
  do mm <- Py.int_of_float (remainder * 60)%float;
  let remainder := (remainder * 60 - Py.float_of_int mm)%float in
  let ss := (remainder * 60)%float in
  do s_str <- seconds_field ss precision;
  Ok (sign ++ Py.format_d 2 dd ++ delimiter ++ Py.format_d 2 mm ++ delimiter ++ s_str).

Definition degrees_to_casa_dec (deg_val : float) (precision : Z) : result string :=
  let sign := if (deg_val <? 0)%float then "-" else "+" in
  let v := abs deg_val in
  do dd <- Py.int_of_float v;
  let remainder := (v - Py.float_of_int dd)%float in
  do mm <- Py.int_of_float (remainder * 60)%float;
  let remainder := (remainder * 60 - Py.float_of_int mm)%float in
  do ss <- Py.round_digits (remainder * 60)%float precision;
  do s_str <- (if (0 <? precision)%Z then Py.format_f false 2 precision ss
               else do n <- Py.int_of_float ss; Ok (Py.format_d 2 n));
  let d_str := Py.format_d 2 dd in
  let m_str := Py.format_d 2 mm in
  Ok (sign ++ d_str ++ "." ++ m_str ++ "." ++ s_str).

Definition ra_dec_converter (input_string : string) (o : options) : result string :=
  (* Decide delimiter defaults *)
  let internal_delimiter :=
    match internal_delimiter o with
    | Some d => d
    | None => if String.eqb (output_format o) "hmsdms" then ":" else " "
    end in
  (* Clean input, remove epoch markers *)
  let input_string := Str.strip input_string in
  let input_string := Str.strip (Re.re_sub epoch_marker "" input_string) in
  (* 1) Split RA/Dec *)
  do (ra_part, dec_part) <- split_ra_dec input_string (input_format o);
  (* 2) 3) Convert RA and Dec to degrees *)
  do (ra_val, ra_inprec) <- parse_to_degrees ra_part true (input_format o);
  do (dec_val, dec_inprec) <- parse_to_degrees dec_part false (input_format o);
  (* Validate range *)
  if negb ((0 <=? ra_val) && (ra_val <? 360))%float then Raise (RaOutOfRange ra_val)
  else if negb ((-90 <=? dec_val) && (dec_val <=? 90))%float
  then Raise (DecOutOfRange dec_val)
  else
    (* 4) Decide final precision *)
    let final_ra_precision :=
      match ra_precision o with Some p => p | None => ra_inprec end in
    let final_dec_precision :=
      match dec_precision o with Some p => p | None => dec_inprec end in
    (* 5) Format output *)
    do (ra_str, dec_str) <-
      (if String.eqb (output_format o) "degrees" then
         do ra_str <- format_degrees ra_val final_ra_precision false;
         do dec_str <- format_degrees dec_val final_dec_precision true;
         Ok (ra_str, dec_str)
       else if String.eqb (output_format o) "hmsdms" then
         do ra_str <- degrees_to_hms ra_val final_ra_precision internal_delimiter;
         do dec_str <- degrees_to_dms dec_val final_dec_precision internal_delimiter;
         Ok (ra_str, dec_str)
       else
         do ra_str <- degrees_to_hms ra_val final_ra_precision ":";
         do dec_str <- degrees_to_casa_dec dec_val final_dec_precision;
         Ok (ra_str, dec_str));
    if ra_only o then Ok ra_str
    else if dec_only o then Ok dec_str
    else Ok (ra_str ++ ra_dec_delimiter o ++ dec_str).

End Split.

(** ** The pattern driven implementation, [src/coordinate_parser.py] *)

Module Regex.

Definition defaults : options := {|
  input_format := "hmsdms";
  output_format := "degrees";
  internal_delimiter := Some " ";
  ra_dec_delimiter := ", ";
  ra_only := false;
  dec_only := false;
  ra_precision := None;
  dec_precision := None
|}.

Section Patterns.

Import Re.

Let ws : regex := star space.                             (* \s* *)
Let sep : regex := cat [ws; plus comma_or_space].         (* \s*[,\s]+ *)
Let opt_sign : regex := opt sign.                         (* [+-]? *)
Let digits_or_dots : regex :=                             (* [\d\.]+ *)
  plus (Cls (fun c => Str.is_digit c || Ascii.eqb c ".")).
Let number : regex := cat [plus digit; opt (lit "."); star digit].  (* \d+\.?\d* *)
Let minute_mark : regex := set "mM'".
Let second_mark : regex := Cls (fun c => Str.one_of "sS" c || Ascii.eqb c (Str.chr 34)).
Let degree_mark : regex := Cls (fun c => Str.one_of "dD" c || Ascii.eqb c Str.degree_sign).
Let major_mark : regex := Cls (fun c => Str.one_of "hHdD" c || Ascii.eqb c Str.degree_sign).

(** Decimal degrees: [ddd.dddd [+-]dd.dddd] *)
Definition decimal_pattern : regex :=
  cat [Bol; Grp 1 (cat [opt_sign; times 1 3 digit; opt (lit "."); star digit]);
       sep; Grp 2 (cat [opt_sign; times 1 2 digit; opt (lit "."); star digit]); Eol].

(** HMS/DMS with colons *)
Definition colon_pattern : regex :=
  cat [Bol; Grp 1 (times 1 3 digit); ws; lit ":"; ws; Grp 2 (times 1 2 digit);
       ws; lit ":"; ws; Grp 3 digits_or_dots; sep;
       Grp 4 (cat [opt_sign; times 1 3 digit]); ws; lit ":"; ws;
       Grp 5 (times 1 2 digit); ws; lit ":"; ws; Grp 6 digits_or_dots; Eol].

(** HMS/DMS with spaces *)
Definition space_pattern : regex :=
  cat [Bol; Grp 1 (times 1 3 digit); plus space; Grp 2 (times 1 2 digit);
       plus space; Grp 3 digits_or_dots; sep;
       Grp 4 (cat [opt_sign; times 1 3 digit]); plus space;
       Grp 5 (times 1 2 digit); plus space; Grp 6 digits_or_dots; Eol].

(** HMS/DMS with unit markers *)
Definition marker_pattern : regex :=
  cat [Bol; Grp 1 (times 1 3 digit); ws; Grp 2 major_mark; ws;
       Grp 3 (times 1 2 digit); ws; minute_mark; ws; Grp 4 digits_or_dots; ws;
       second_mark; sep;
       Grp 5 (cat [opt_sign; times 1 3 digit]); ws; degree_mark; ws;
       Grp 6 (times 1 2 digit); ws; minute_mark; ws; Grp 7 digits_or_dots; ws;
       second_mark; Eol].

(** Compact format *)
Definition compact_pattern : regex :=
  cat [Bol; opt (set "JjEe"); ws; Grp 1 (times 2 2 digit); ws;
       Grp 2 (times 2 2 digit); ws; Grp 3 number; ws; Grp 4 sign; ws;
       Grp 5 (times 2 2 digit); ws; Grp 6 (times 2 2 digit); ws; Grp 7 number; Eol].

(** CASA format (only for HMS/DMS input) *)
Definition casa_pattern : regex :=
  cat [Bol; Grp 1 (times 2 2 digit); lit ":"; Grp 2 (times 2 2 digit); lit ":";
       Grp 3 number; plus space; Grp 4 (cat [opt_sign; times 1 3 digit]); lit ".";
       Grp 5 (times 1 2 digit); lit ".";
       Grp 6 (cat [times 1 2 digit; opt (lit "."); star digit]); Eol].

(** The pattern of a CASA declination, with an optional sign, digits, a dot,
    digits, a dot, digits and an optional further dot and digits. *)
Definition casa_dec_pattern : regex :=
  cat [Bol; opt_sign; plus digit; lit "."; plus digit; lit "."; plus digit;
       opt (cat [lit "."; plus digit]); Eol].

End Patterns.

(** The patterns in the order they are tried, each with the number of its
    groups.  Every letter of a pattern stands there in both cases, so the
    flag IGNORECASE adds no match on code points below 256. *)
Definition patterns : list (Re.regex * nat) :=
  [(decimal_pattern, 2); (colon_pattern, 6); (space_pattern, 6);
   (marker_pattern, 7); (compact_pattern, 7); (casa_pattern, 6)]%nat.

Definition hms_to_degrees (hours minutes seconds : string) : result float :=
  do hours <- Py.float_of_string hours;
  do minutes <- Py.float_of_string minutes;
  do seconds <- Py.float_of_string seconds;
  if negb ((0 <=? hours) && (hours <? 24))%float then Raise (HoursOutOfRange hours)
  else if negb ((0 <=? minutes) && (minutes <? 60))%float
  then Raise (MinutesOutOfRange minutes)
  else if negb ((0 <=? seconds) && (seconds <? 60))%float
  then Raise (SecondsOutOfRange seconds)
  else Ok (hours + minutes / 60 + seconds / 3600)%float.

Definition dms_to_degrees (degrees minutes seconds : string) : result float :=
  do degrees <-
    match Py.float_of_string degrees with
    | Ok x => Ok x
    | Raise _ =>
        if Str.startswith "+" degrees || Str.startswith "-" degrees then
          let sign := Py.of_sign (Str.startswith "-" degrees) in
          do x <- Py.float_of_string (Str.tail degrees);
          Ok (sign * x)%float
        else Py.float_of_string degrees
    end;
  do minutes <- Py.float_of_string minutes;
  do seconds <- Py.float_of_string seconds;
  let sign := Py.of_sign (degrees <? 0)%float in
  let degrees := abs degrees in
  if negb ((0 <=? minutes) && (minutes <? 60))%float
  then Raise (MinutesOutOfRange minutes)
  else if negb ((0 <=? seconds) && (seconds <? 60))%float
  then Raise (SecondsOutOfRange seconds)
  else Ok (sign * (degrees + minutes / 60 + seconds / 3600))%float.

Definition degrees_to_hms (hours : float) (precision : Z) (delimiter : string)
  : result string :=
  (* Ensure hours are within 0-24 range *)
  let hours := Py.float_mod hours 24%float in
  do h <- Py.int_of_float hours;
  let remainder := (hours - Py.float_of_int h)%float in
  do m <- Py.int_of_float (remainder * 60)%float;
  let remainder := (remainder * 60 - Py.float_of_int m)%float in
  let s := (remainder * 60)%float in
  do s_str <- (if (precision =? 0)%Z then Py.format_f false 0 0 s
               else Py.format_f false 5 precision s);
  Ok (Py.format_d 2 h ++ delimiter ++ Py.format_d 2 m ++ delimiter ++ s_str).

Definition degrees_to_dms (degrees : float) (precision : Z) (delimiter : string)
  : result string :=
  let sign := if (degrees <? 0)%float then "-" else "+" in
  let degrees := abs degrees in
  do d <- Py.int_of_float degrees;
  let remainder := (degrees - Py.float_of_int d)%float in
  do m <- Py.int_of_float (remainder * 60)%float;
  let remainder := (remainder * 60 - Py.float_of_int m)%float in
  let s := (remainder * 60)%float in
  do s_str <- (if (precision =? 0)%Z then Py.format_f false 2 0 s
               else Py.format_f false 5 precision s);
  Ok (sign ++ Py.format_d 2 d ++ delimiter ++ Py.format_d 2 m ++ delimiter ++ s_str).

(** The body of the loop for a pattern with six groups: sexagesimal fields
    without unit markers, or the CASA format. *)
Definition six_groups (input_string input_format : string) (g : nat -> string)
  : result (float * float) :=
  do dec_part <- match Str.split_ws input_string with
                 | _ :: dec_part :: _ => Ok dec_part
                 | _ => Raise IndexError
                 end;
  let is_casa_format :=
    match Re.re_match casa_dec_pattern dec_part with Some _ => true | None => false end in
  do g1 <- Py.float_of_string (g 1%nat);
  let is_hms :=
    ((0 <=? g1) && (g1 <? 24))%float
    && (Str.mem ":" input_string || Str.mem " " (Str.strip input_string)) in
  if String.eqb input_format "hmsdms" && negb is_hms then Raise LooksDMS
  else if String.eqb input_format "degrees" && is_hms then Raise LooksHMS
  else if is_casa_format && negb (String.eqb input_format "hmsdms")
  then Raise CasaNeedsHmsdms
  else
    do ra <- (if is_hms || is_casa_format
              then hms_to_degrees (g 1) (g 2) (g 3)
              else dms_to_degrees (g 1) (g 2) (g 3))%nat;
    do dec <- dms_to_degrees (g 4%nat) (g 5%nat) (g 6%nat);
    Ok (ra, dec).

(** The body of the loop for a pattern with seven groups: the marked and the
    compact format. *)
Definition seven_groups (input_string input_format : string) (g : nat -> string)
  : result (float * float) :=
  if existsb (String.eqb (g 2%nat)) ["h"; "H"; "d"; "D"; String Str.degree_sign ""]
  then
    (* Marked format *)
    let has_hour_marker := String.eqb (Py.lowercase (g 2%nat)) "h" in
    let has_degree_marker :=
      existsb (String.eqb (g 2%nat)) ["d"; "D"; String Str.degree_sign ""] in
    if String.eqb input_format "hmsdms" && negb has_hour_marker
    then Raise (ExpectedHourMarker input_string)
    else if String.eqb input_format "degrees" && negb has_degree_marker
    then Raise (ExpectedDegreeMarker input_string)
    else
      do ra <- (if has_hour_marker
                then hms_to_degrees (g 1) (g 3) (g 4)
                else dms_to_degrees (g 1) (g 3) (g 4))%nat;
      do dec <- dms_to_degrees (g 5%nat) (g 6%nat) (g 7%nat);
      Ok (ra, dec)
  else
    (* Compact format (J/E prefix) *)
    do ra <- (if String.eqb input_format "hmsdms"
              then hms_to_degrees (g 1) (g 2) (g 3)
              else dms_to_degrees (g 1) (g 2) (g 3))%nat;
    (* Dec is always in DMS format for compact notation *)
    do dec <- dms_to_degrees (g 4 ++ g 5)%nat (g 6%nat) (g 7%nat);
    Ok (ra, dec).

(** What follows the branches on the number of groups: the RA in degrees,
    the validation of the ranges and the output. *)
Definition finish (o : options) (ra_precision dec_precision : Z)
    (ra dec : float) : result string :=
  (* Convert RA from hours to degrees only for HMS input *)
  let ra := if String.eqb (input_format o) "hmsdms" then (ra * 15)%float else ra in
  (* Validate ranges *)
  do ra <- (if String.eqb (output_format o) "degrees" then
              if negb ((0 <=? ra) && (ra <? 360))%float then Raise (RaOutOfRange ra)
              else Ok ra
            else
              let ra := (ra / 15)%float in
              if negb ((0 <=? ra) && (ra <? 24))%float then Raise (RaOutOfRange ra)
              else Ok ra);
  if negb ((-90 <=? dec) && (dec <=? 90))%float then Raise (DecOutOfRange dec)
  else
    (* Format output *)
    let delimiter :=
      match internal_delimiter o with Some d => d | None => " " end in
    do (ra_str, dec_str) <-
      (if String.eqb (output_format o) "degrees" then
         do ra_str <- Py.format_f false 0 ra_precision ra;
         do dec_str <- Py.format_f true 0 dec_precision dec;
         Ok (ra_str, dec_str)
       else
         do ra_str <- degrees_to_hms ra ra_precision delimiter;
         do dec_str <- degrees_to_dms dec dec_precision delimiter;
         Ok (ra_str, dec_str));
    if ra_only o then Ok ra_str
    else if dec_only o then Ok dec_str
    else Ok (ra_str ++ ra_dec_delimiter o ++ dec_str).

(** The loop over the patterns: the first pattern that matches decides. *)
Fixpoint try_patterns (ps : list (Re.regex * nat)) (o : options)
    (ra_precision dec_precision : Z) (input_string : string) : result string :=
  match ps with
  | [] => Raise NotRecognized
  | (pattern, groups) :: ps' =>
      match Re.re_match pattern input_string with
      | None => try_patterns ps' o ra_precision dec_precision input_string
      | Some m =>
          let g := grp m in
          if Nat.eqb groups 2 then
            (* Decimal format - validate against specified input format *)
            if String.eqb (input_format o) "hmsdms" then Raise LooksDecimal
            else
              do ra <- Py.float_of_string (g 1%nat);
              do dec <- Py.float_of_string (g 2%nat);
              finish o ra_precision dec_precision ra dec
          else if Nat.eqb groups 6 then
            do (ra, dec) <- six_groups input_string (input_format o) g;
            finish o ra_precision dec_precision ra dec
          else if Nat.eqb groups 7 then
            do (ra, dec) <- seven_groups input_string (input_format o) g;
            finish o ra_precision dec_precision ra dec
          else try_patterns ps' o ra_precision dec_precision input_string
      end
  end.

Definition ra_dec_converter (input_string : string) (o : options) : result string :=
  (* Validate input format parameter *)
  if negb (String.eqb (input_format o) "hmsdms" || String.eqb (input_format o) "degrees")
  then Raise BadInputFormat
  else
    (* Set default precisions *)
    do (ra_precision, dec_precision) <-
      (if String.eqb (output_format o) "degrees" then
         Ok (match ra_precision o with None => 7%Z | Some p => p end,
             match dec_precision o with None => 6%Z | Some p => p end)
       else if String.eqb (output_format o) "hmsdms" then
         Ok (match ra_precision o with None => 2%Z | Some p => p end,
             match dec_precision o with None => 2%Z | Some p => p end)
       else Raise BadOutputFormat);
    (* Clean input string *)
    let input_string := Str.strip input_string in
    let input_string := Str.strip (Re.re_sub epoch_marker "" input_string) in
    try_patterns patterns o ra_precision dec_precision input_string.

End Regex.

(** * Properties *)

(** ** Vocabulary *)

(** The value that [float(s)] returns, for writing test inputs. *)
Definition read (s : string) : float :=
  match Py.float_of_string s with
  | Ok x => x
  | Raise _ => nan
  end.

(** [0 <= x < hi] *)
Definition within (x hi : float) : bool := ((0 <=? x) && (x <? hi))%float.

(** Neither an infinity nor a NaN. *)
Definition finite (x : float) : bool :=
  match Prim2SF x with
  | S754_zero _ | S754_finite _ _ _ => true
  | _ => false
  end.

(** The two cleaning steps at the head of both converters. *)
Definition clean (input_string : string) : string :=
  Str.strip (Re.re_sub epoch_marker "" (Str.strip input_string)).

(** The options of a call that names the two formats and both precisions. *)
Definition call (o : options) (input_fmt output_fmt : string)
    (ra_prec dec_prec : option Z) : options := {|
  input_format := input_fmt;
  output_format := output_fmt;
  internal_delimiter := internal_delimiter o;
  ra_dec_delimiter := ra_dec_delimiter o;
  ra_only := ra_only o;
  dec_only := dec_only o;
  ra_precision := ra_prec;
  dec_precision := dec_prec
|}.

(** The options of a call with the flags [ra_only] and [dec_only] set. *)
Definition with_flags (o : options) (ra dec : bool) : options := {|
  input_format := input_format o;
  output_format := output_format o;
  internal_delimiter := internal_delimiter o;
  ra_dec_delimiter := ra_dec_delimiter o;
  ra_only := ra;
  dec_only := dec;
  ra_precision := ra_precision o;
  dec_precision := dec_precision o
|}.

Definition tab : string := String (Str.chr 9) "".

(** A computation that raises no range error. *)
Definition safe {A : Type} (r : result A) : Prop :=
  forall e, r = Raise e -> is_range_error e = false.

(** The sign and the magnitude that [Split.dms_to_degrees] reads from its
    degrees field: its first lines. *)
Definition sign_and_magnitude (d : string) : result (bool * float) :=
  let d_str := Str.strip d in
  let '(neg, d_str) :=
    if Str.startswith "-" d_str then (true, Str.tail d_str)
    else if Str.startswith "+" d_str then (false, Str.tail d_str)
    else (false, d_str) in
  do dd <- (if String.eqb d_str "" then Ok 0%float else Py.float_of_string d_str);
  Ok (neg, dd).

(** The domain constraints on the six fields of a sexagesimal input: hours
    in [0,24), minutes and seconds in [0,60), RA in [0,360) and Dec in
    [-90,90], the values computed as the converter computes them. *)
Definition constraints_hold (hh mm ss : float) (neg : bool) (dd mm' ss' : float)
  : bool :=
  let ra := ((hh + mm / 60 + ss / 3600) * 15)%float in
  let dec := (Py.of_sign neg * (dd + mm' / 60 + ss' / 3600))%float in
  within hh 24 && within mm 60 && within ss 60
  && within mm' 60 && within ss' 60
  && within ra 360 && ((-90 <=? dec) && (dec <=? 90))%float.

Fixpoint all_digits (s : string) : bool :=
  match s with
  | EmptyString => true
  | String c s' => Str.is_digit c && all_digits s'
  end.

(** A numeral with a decimal point and exactly [p] digits after it. *)
Definition fixed_point (p : nat) (s : string) : Prop :=
  exists int_part frac,
    s = int_part ++ "." ++ frac
    /\ Str.mem "." int_part = false
    /\ String.length frac = p
    /\ all_digits frac = true.

(** The seconds field as [Regex.degrees_to_hms] and [Regex.degrees_to_dms]
    format it: the format [.0f], respectively [02.0f], at precision 0 and
    the width 5 otherwise. *)
Definition regex_hms_seconds (s : float) (precision : Z) : result string :=
  if (precision =? 0)%Z then Py.format_f false 0 0 s
  else Py.format_f false 5 precision s.

Definition regex_dms_seconds (s : float) (precision : Z) : result string :=
  if (precision =? 0)%Z then Py.format_f false 2 0 s
  else Py.format_f false 5 precision s.

(** The three fields that [Split.parse_hms_or_dms] makes of a list of
    tokens once the missing ones are written as zeros. *)
Definition zero_filled (tokens : list string) : list string :=
  firstn 3 (tokens ++ ["0"; "0"; "0"]).

Fixpoint all_chars (f : ascii -> bool) (s : string) : bool :=
  match s with
  | EmptyString => true
  | String c s' => f c && all_chars f s'
  end.

(** The character classes of [Split.parse_hms_or_dms]: unit markers, and
    the separators of fields. *)
Definition marker (c : ascii) : bool :=
  Str.one_of "hHdDmM'sS" c || Ascii.eqb c Str.degree_sign || Ascii.eqb c (Str.chr 34).

Definition separator (c : ascii) : bool := Ascii.eqb c ":" || Str.is_space c.

Definition plain (c : ascii) : bool := negb (marker c) && negb (separator c).

(** A field of an axis: a non empty text without markers and separators. *)
Definition field (t : string) : Prop := t <> "" /\ all_chars plain t = true.

(** A digit or the decimal point. *)
Definition numeric (c : ascii) : bool := Str.is_digit c || Ascii.eqb c ".".

(** The character before the position that follows [t]. *)
Fixpoint prev_after (prev : option ascii) (t : string) : option ascii :=
  match t with
  | EmptyString => prev
  | String c t' => prev_after (Some c) t'
  end.

(** The pattern at which [Split.parse_hms_or_dms] splits, a run of colons
    and white space. *)
Definition seps : Re.regex := Re.plus Split.colon_or_space.

(** ** Vocabulary of the further properties *)

(** A character that ends a token of [Split.parse_hms_or_dms]: a unit
    marker, a colon or white space. *)
Definition breaks (c : ascii) : bool := marker c || separator c.

(** The pieces of [s] between the characters of a class, [cur] being the
    piece read so far. *)
Fixpoint pieces (f : ascii -> bool) (s cur : string) : list string :=
  match s with
  | EmptyString => [cur]
  | String c s' =>
      if f c then cur :: pieces f s' "" else pieces f s' (cur ++ String c "")
  end.

Definition non_empty (t : string) : bool := negb (String.eqb t "").

(** The maximal runs of characters that are no unit marker, no colon and no
    white space. *)
Definition runs (s : string) : list string :=
  filter non_empty (pieces breaks s "").

Fixpoint drop_while (f : ascii -> bool) (s : string) : string :=
  match s with
  | String c s' => if f c then drop_while f s' else s
  | EmptyString => EmptyString
  end.

Fixpoint map_chars (g : ascii -> ascii) (s : string) : string :=
  match s with
  | EmptyString => EmptyString
  | String c s' => String (g c) (map_chars g s')
  end.

(** A unit marker turned into a blank. *)
Definition blank (c : ascii) : ascii := if marker c then " "%char else c.

(** Gaps and fields laid out in turn: a gap before each field, and a tail
    after the last one. *)
Fixpoint laid_out (parts : list (string * string)) (tail : string) : string :=
  match parts with
  | [] => tail
  | (gap, fld) :: parts' => gap ++ fld ++ laid_out parts' tail
  end.

(** The gaps of a layout are made of breaking characters, and all but the first
    are not empty; the fields are fields. *)
Fixpoint well_laid (first : bool) (parts : list (string * string)) : Prop :=
  match parts with
  | [] => True
  | (gap, fld) :: parts' =>
      all_chars breaks gap = true
      /\ (first = false -> gap <> "")
      /\ field fld
      /\ well_laid false parts'
  end.

(** The options of a call with other format names. *)
Definition with_formats (o : options) (input_fmt output_fmt : string) : options :=
  call o input_fmt output_fmt (ra_precision o) (dec_precision o).

(** What a converter returns for the two strings of a conversion. *)
Definition selected (o : options) (ra_str dec_str : string) : string :=
  if ra_only o then ra_str
  else if dec_only o then dec_str
  else ra_str ++ ra_dec_delimiter o ++ dec_str.

(** The error of [Split.split_ra_dec] for an input without any text. *)
Definition no_text_error (in_fmt : string) : exn :=
  if String.eqb in_fmt "casa" then CasaTokenCount [""]
  else if String.eqb in_fmt "hmsdms" then CannotSplitHmsdms ""
  else CannotSplitDegrees "".

(** The flags [ra_only] and [dec_only] choose among the two strings of the
    conversion that [convert] makes; they change neither these strings nor
    the error. *)
Definition flags_select (convert : options -> result string) (o : options) : Prop :=
  match convert (with_flags o false false) with
  | Ok full =>
      exists ra_str dec_str,
        full = ra_str ++ ra_dec_delimiter o ++ dec_str
        /\ (forall b, convert (with_flags o true b) = Ok ra_str)
        /\ convert (with_flags o false true) = Ok dec_str
  | Raise e => forall a b, convert (with_flags o a b) = Raise e
  end.

(** The class [[,\s]] at which [Split.split_ra_dec] splits. *)
Definition delimiter (c : ascii) : bool := Ascii.eqb c "," || Str.is_space c.

(** No character of the class [f]. *)
Definition free_of (f : ascii -> bool) (s : string) : bool :=
  all_chars (fun c => negb (f c)) s.

(** A text that begins with a sign and a digit. *)
Definition signed_start (s : string) : bool :=
  match s with
  | String c (String d _) => Str.one_of "+-" c && Str.is_digit d
  | _ => false
  end.

(** The split of a text before its first sign that a digit follows. *)
Fixpoint sign_split (s : string) : option (string * string) :=
  match s with
  | EmptyString => None
  | String c s' =>
      if signed_start s then Some (EmptyString, s)
      else match sign_split s' with
           | Some (a, b) => Some (String c a, b)
           | None => None
           end
  end.

Definition newline (c : ascii) : bool := Ascii.eqb c (Str.chr 10).

(** Every class of the pattern [r] lies in the class [A]. *)
Fixpoint drawn_from (A : ascii -> bool) (r : Re.regex) : Prop :=
  match r with
  | Re.Cls f => forall c, f c = true -> A c = true
  | Re.Cat r1 r2 | Re.Alt r1 r2 => drawn_from A r1 /\ drawn_from A r2
  | Re.Rep _ _ _ r1 | Re.Grp _ r1 => drawn_from A r1
  | _ => True
  end.

(** The pattern ends with [$]. *)
Fixpoint ends_input (r : Re.regex) : bool :=
  match r with
  | Re.Eol => true
  | Re.Cat _ r2 => ends_input r2
  | _ => false
  end.

(** The characters that the patterns of the pattern driven converter name:
    digits, white space, signs, the point, the comma, the colon, unit
    markers and the letters J and E. *)
Definition known (c : ascii) : bool :=
  Str.is_digit c || Str.is_space c || Str.one_of "+-.,:hHdDmMsS'JjEe" c
  || Ascii.eqb c Str.degree_sign || Ascii.eqb c (Str.chr 34).

Definition known_but_colon (c : ascii) : bool := known c && negb (Ascii.eqb c ":").

(** A run of [lo] to [hi] digits. *)
Definition digit_run (lo hi : nat) (s : string) : bool :=
  all_digits s && Nat.leb lo (String.length s) && Nat.leb (String.length s) hi.

(** The seconds of a CASA declination: two digits at most and, after a
    point, the digits [fd] of the fraction, if there are any. *)
Definition with_fraction (ss fd : string) : string :=
  match fd with
  | EmptyString => ss
  | _ => ss ++ "." ++ fd
  end.

(** The errors that no converter raises on purpose: a tuple that does not
    unpack, an index out of range. *)
Definition is_crash (e : exn) : bool :=
  match e with
  | UnpackError | IndexError => true
  | _ => false
  end.

(** A computation that raises neither of them. *)
Definition sound {A : Type} (r : result A) : Prop :=
  forall e, r = Raise e -> is_crash e = false.

(** The range checks that the pattern driven converter makes on the values
    read from an input: RA, in degrees once an [hmsdms] input has its factor
    15, lies in [0,360) for decimal output and, divided by 15, in [0,24) for
    sexagesimal output; Dec lies in [-90,90]. *)
Definition regex_ranges_hold (o : options) (ra dec : float) : bool :=
  let ra := if String.eqb (input_format o) "hmsdms" then (ra * 15)%float else ra in
  (if String.eqb (output_format o) "degrees" then within ra 360
   else within (ra / 15) 24)
  && ((-90 <=? dec) && (dec <=? 90))%float.

(** The sign that [degrees_to_dms] writes. *)
Definition dms_sign (v : float) : string := if (v <? 0)%float then "-" else "+".

(** Rendering by truncation, without a carry: the whole units of the angle
    [x] and the whole minutes of what is left are taken with [int]; the
    seconds that are left are not rounded before [seconds] formats them at
    the precision asked for, and nothing of that rounding goes back into the
    minutes. *)
Definition truncating (x : float) (sign : string)
    (seconds : float -> Z -> result string) (precision : Z) (delimiter : string)
  : result string :=
  do units <- Py.int_of_float x;
  let remainder := (x - Py.float_of_int units)%float in
  do minutes <- Py.int_of_float (remainder * 60)%float;
  let remainder := (remainder * 60 - Py.float_of_int minutes)%float in
  do s_str <- seconds (remainder * 60)%float precision;
  Ok (sign ++ Py.format_d 2 units ++ delimiter ++ Py.format_d 2 minutes
      ++ delimiter ++ s_str).

(** With both flags set, [convert] does what it does with [ra_only] alone,
    and what it returns is the RA string: the text before the delimiter in
    the result of the call without flags, the text after it being what
    [dec_only] alone returns.  An error of the call without flags is the
    error of the call with both. *)
Definition ra_only_wins (convert : options -> result string) (o : options) : Prop :=
  convert (with_flags o true true) = convert (with_flags o true false)
  /\ match convert (with_flags o false false) with
     | Ok full =>
         exists ra_str dec_str,
           full = ra_str ++ ra_dec_delimiter o ++ dec_str
           /\ convert (with_flags o false true) = Ok dec_str
           /\ convert (with_flags o true true) = Ok ra_str
     | Raise e => convert (with_flags o true true) = Raise e
     end.

(** ** Results *)

Lemma bind_ok_inv {A B : Type} (r : result A) (f : A -> result B) (b : B) :
  bind r f = Ok b -> exists a, r = Ok a /\ f a = Ok b.
Proof.
  destruct r as [a | e]; simpl; intros H.
  - exists a. split; [reflexivity | exact H].
  - discriminate H.
Qed.

Lemma safe_ok {A : Type} (a : A) : safe (Ok a).
Proof. intros e H. discriminate H. Qed.

Lemma safe_raise {A : Type} (e : exn) : is_range_error e = false -> safe (@Raise A e).
Proof. intros He e' H. injection H as <-. exact He. Qed.

Lemma safe_bind {A B : Type} (r : result A) (f : A -> result B) :
  safe r -> (forall a, safe (f a)) -> safe (bind r f).
Proof.
  intros Hr Hf e. destruct r as [a | e0]; simpl.
  - apply Hf.
  - intros H. injection H as <-. apply Hr. reflexivity.
Qed.

Create HintDb safe discriminated.
#[local] Hint Resolve safe_ok safe_raise safe_bind : safe.

Ltac safe_step :=
  match goal with
  | |- safe (bind _ _) => apply safe_bind; [ | intros ]
  | |- safe (Ok _) => apply safe_ok
  | |- safe (Raise _) => apply safe_raise; reflexivity
  | |- safe (if ?b then _ else _) => destruct b
  | |- safe (match ?x with _ => _ end) => destruct x
  end.

Ltac safe_tac := repeat (first [ solve [auto with safe] | safe_step ]).

Ltac invert_binds :=
  repeat match goal with
    | H : bind _ _ = Ok _ |- _ =>
        apply bind_ok_inv in H; destruct H as (? & ? & H)
    end.

Ltac same_results :=
  repeat match goal with
    | H1 : ?r = Ok ?a, H2 : ?r = Ok ?b |- _ =>
        rewrite H1 in H2; injection H2 as <-
    end.

Lemma safe_format_f plus width p x : safe (Py.format_f plus width p x).
Proof. unfold Py.format_f. repeat safe_step. Qed.

Lemma safe_int_of_float x : safe (Py.int_of_float x).
Proof. unfold Py.int_of_float. repeat safe_step. Qed.

Lemma safe_round_to_int x : safe (Py.round_to_int x).
Proof. unfold Py.round_to_int. repeat safe_step. Qed.

Lemma safe_round_digits x p : safe (Py.round_digits x p).
Proof. unfold Py.round_digits. repeat safe_step. Qed.

#[local] Hint Resolve safe_format_f safe_int_of_float safe_round_to_int
  safe_round_digits : safe.

Lemma safe_two_digit_left v p : safe (Split.two_digit_left v p).
Proof. unfold Split.two_digit_left. safe_tac. Qed.

#[local] Hint Resolve safe_two_digit_left : safe.

Lemma safe_seconds_field v p : safe (Split.seconds_field v p).
Proof. unfold Split.seconds_field. safe_tac. Qed.

#[local] Hint Resolve safe_seconds_field : safe.

Lemma safe_degrees_to_hms v p d : safe (Split.degrees_to_hms v p d).
Proof. unfold Split.degrees_to_hms. safe_tac. Qed.

Lemma safe_degrees_to_dms v p d : safe (Split.degrees_to_dms v p d).
Proof. unfold Split.degrees_to_dms. safe_tac. Qed.

Lemma safe_degrees_to_casa_dec v p : safe (Split.degrees_to_casa_dec v p).
Proof. unfold Split.degrees_to_casa_dec. safe_tac. Qed.

Lemma safe_format_degrees v p f : safe (Split.format_degrees v p f).
Proof. unfold Split.format_degrees. safe_tac. Qed.

#[local] Hint Resolve safe_degrees_to_hms safe_degrees_to_dms
  safe_degrees_to_casa_dec safe_format_degrees : safe.

(** ** Strings *)

Lemma app_assoc_s (a b c : string) : ((a ++ b) ++ c) = (a ++ (b ++ c)).
Proof.
  induction a as [ | x a IH]; simpl; [reflexivity | rewrite IH; reflexivity].
Qed.

Lemma length_app_s (a b : string) :
  String.length (a ++ b) = String.length a + String.length b.
Proof.
  induction a as [ | x a IH]; simpl; [reflexivity | rewrite IH; reflexivity].
Qed.

Lemma mem_app (c : ascii) (a b : string) :
  Str.mem c (a ++ b) = Str.mem c a || Str.mem c b.
Proof.
  induction a as [ | x a IH]; [reflexivity | ].
  cbn [append Str.mem]. rewrite IH. apply orb_assoc.
Qed.

Lemma all_digits_app (a b : string) :
  all_digits (a ++ b) = all_digits a && all_digits b.
Proof.
  induction a as [ | x a IH]; [reflexivity | ].
  cbn [append all_digits]. rewrite IH. apply andb_assoc.
Qed.

Lemma digit_char_is_digit (d : Z) : Str.is_digit (Py.digit_char d) = true.
Proof.
  unfold Py.digit_char.
  assert (H : (0 <= d mod 10 < 10)%Z) by (apply Z.mod_pos_bound; lia).
  destruct (d mod 10)%Z as [ | p | p] eqn:E; [reflexivity | | lia].
  do 4 (destruct p as [p | p | ]; try lia; try reflexivity).
Qed.

Lemma all_digits_low_digits (n : nat) (v : Z) :
  all_digits (Py.low_digits n v) = true.
Proof.
  revert v. induction n as [ | n IH]; intros v; [reflexivity | ].
  cbn [Py.low_digits]. rewrite all_digits_app, IH.
  cbn [all_digits andb]. rewrite digit_char_is_digit. reflexivity.
Qed.

Lemma length_low_digits (n : nat) (v : Z) :
  String.length (Py.low_digits n v) = n.
Proof.
  revert v. induction n as [ | n IH]; intros v; [reflexivity | ].
  cbn [Py.low_digits]. rewrite length_app_s, IH. cbn [String.length]. lia.
Qed.

Lemma digits_have_no_dot (s : string) :
  all_digits s = true -> Str.mem "." s = false.
Proof.
  induction s as [ | c s IH]; [reflexivity | ].
  cbn [all_digits Str.mem]. intros H. apply andb_prop in H. destruct H as [Hc Hs].
  rewrite (IH Hs), orb_false_r.
  destruct (Ascii.eqb_spec "."%char c) as [<- | _]; [discriminate Hc | reflexivity].
Qed.

Lemma zeros_have_no_dot (n : nat) : Str.mem "." (Str.repeat_char "0" n) = false.
Proof. induction n as [ | n IH]; [reflexivity | exact IH]. Qed.

Lemma app_nil_r_s (a : string) : a ++ "" = a.
Proof.
  induction a as [ | x a IH]; [reflexivity | ].
  cbn [append]. rewrite IH. reflexivity.
Qed.

Lemma all_chars_app (f : ascii -> bool) (a b : string) :
  all_chars f (a ++ b) = all_chars f a && all_chars f b.
Proof.
  induction a as [ | x a IH]; [reflexivity | ].
  cbn [append all_chars]. rewrite IH. apply andb_assoc.
Qed.

Lemma all_chars_weaken (f g : ascii -> bool) (s : string) :
  (forall c, f c = true -> g c = true) ->
  all_chars f s = true -> all_chars g s = true.
Proof.
  intros Hfg. induction s as [ | c s IH]; [reflexivity | ].
  cbn [all_chars]. intros H. apply andb_prop in H. destruct H as [Hc Hs].
  rewrite (Hfg c Hc), (IH Hs). reflexivity.
Qed.

Lemma lstrip_no_space (s : string) :
  all_chars (fun c => negb (Str.is_space c)) s = true -> Str.lstrip s = s.
Proof.
  destruct s as [ | c s]; [reflexivity | ].
  cbn [all_chars Str.lstrip]. intros H. apply andb_prop in H. destruct H as [Hc _].
  apply negb_true_iff in Hc. rewrite Hc. reflexivity.
Qed.

Lemma rstrip_no_space (s : string) :
  all_chars (fun c => negb (Str.is_space c)) s = true -> Str.rstrip s = s.
Proof.
  induction s as [ | c s IH]; [reflexivity | ].
  cbn [all_chars Str.rstrip]. intros H. apply andb_prop in H. destruct H as [Hc Hs].
  rewrite (IH Hs). apply negb_true_iff in Hc. rewrite Hc.
  destruct s; reflexivity.
Qed.

(** [strip] leaves a text without white space as it is. *)
Lemma strip_no_space (s : string) :
  all_chars (fun c => negb (Str.is_space c)) s = true -> Str.strip s = s.
Proof.
  intros H. unfold Str.strip. rewrite (lstrip_no_space s H).
  apply rstrip_no_space, H.
Qed.

Lemma split_on_no_sep (sep : ascii) (s : string) :
  Str.mem sep s = false -> Str.split_on sep s = [s].
Proof.
  induction s as [ | c s IH]; [reflexivity | ].
  cbn [Str.mem Str.split_on]. intros H. apply orb_false_elim in H.
  destruct H as [Hc Hs]. rewrite Ascii.eqb_sym, Hc, (IH Hs). reflexivity.
Qed.

Lemma split_on_app (sep : ascii) (a b : string) :
  Str.mem sep a = false ->
  Str.split_on sep (a ++ String sep b) = a :: Str.split_on sep b.
Proof.
  induction a as [ | c a IH]; intros H.
  - cbn [append Str.split_on]. rewrite Ascii.eqb_refl. reflexivity.
  - cbn [Str.mem] in H. apply orb_false_elim in H. destruct H as [Hc Ha].
    cbn [append Str.split_on]. rewrite Ascii.eqb_sym, Hc, (IH Ha). reflexivity.
Qed.

Lemma numeric_no_space (c : ascii) :
  numeric c = true -> negb (Str.is_space c) = true.
Proof.
  intros H. destruct c as [[|] [|] [|] [|] [|] [|] [|] [|]];
    try reflexivity; discriminate H.
Qed.

Lemma numeric_no_sign (c : ascii) :
  numeric c = true -> Ascii.eqb "-" c = false /\ Ascii.eqb "+" c = false.
Proof.
  intros H. destruct c as [[|] [|] [|] [|] [|] [|] [|] [|]];
    try (split; reflexivity); discriminate H.
Qed.

(** ** Sexagesimal arithmetic *)

Section HmsToDegrees.

Variables h m s : string.
Variables hh mm ss : float.
Hypothesis Hh : Py.float_of_string h = Ok hh.
Hypothesis Hm : Py.float_of_string m = Ok mm.
Hypothesis Hs : Py.float_of_string s = Ok ss.

Lemma split_hms_unfold :
  Split.hms_to_degrees h m s =
  if negb (within hh 24) then Raise (HoursOutOfRange hh)
  else if negb (within mm 60) then Raise (MinutesOutOfRange mm)
  else if negb (within ss 60) then Raise (SecondsOutOfRange ss)
  else Ok (hh + mm / 60 + ss / 3600)%float.
Proof. unfold Split.hms_to_degrees. rewrite Hh, Hm, Hs. reflexivity. Qed.

Lemma regex_hms_unfold :
  Regex.hms_to_degrees h m s = Split.hms_to_degrees h m s.
Proof.
  unfold Regex.hms_to_degrees, Split.hms_to_degrees.
  rewrite Hh, Hm, Hs. reflexivity.
Qed.

End HmsToDegrees.

Lemma split_dms_unfold (d m s : string) (neg : bool) (dd mm ss : float) :
  sign_and_magnitude d = Ok (neg, dd) ->
  Py.float_of_string m = Ok mm ->
  Py.float_of_string s = Ok ss ->
  Split.dms_to_degrees d m s =
  if negb (within mm 60) then Raise (MinutesOutOfRange mm)
  else if negb (within ss 60) then Raise (SecondsOutOfRange ss)
  else Ok (Py.of_sign neg * (dd + mm / 60 + ss / 3600))%float.
Proof.
  unfold sign_and_magnitude, Split.dms_to_degrees. intros Hd Hm Hs.
  destruct (if Str.startswith "-" (Str.strip d) then _ else _) as [neg' d_str].
  apply bind_ok_inv in Hd. destruct Hd as (dd' & Hdd & Hd).
  injection Hd as -> ->. rewrite Hdd, Hm, Hs. reflexivity.
Qed.

(** C4: for fields that read as the numbers [hh], [mm] and [ss],
    [hms_to_degrees] (the same in both implementations) raises the range
    error that names the first field outside its range, hours in [0,24),
    minutes and seconds in [0,60), and otherwise returns
    [hh + mm/60 + ss/3600], the decimal hours, computed in binary64. *)
Theorem hms_to_degrees_spec (h m s : string) (hh mm ss : float) :
  Py.float_of_string h = Ok hh ->
  Py.float_of_string m = Ok mm ->
  Py.float_of_string s = Ok ss ->
  forall r : result float,
    r = Split.hms_to_degrees h m s \/ r = Regex.hms_to_degrees h m s ->
    (within hh 24 = false -> r = Raise (HoursOutOfRange hh))
    /\ (within hh 24 = true -> within mm 60 = false ->
        r = Raise (MinutesOutOfRange mm))
    /\ (within hh 24 = true -> within mm 60 = true -> within ss 60 = false ->
        r = Raise (SecondsOutOfRange ss))
    /\ (within hh 24 = true -> within mm 60 = true -> within ss 60 = true ->
        r = Ok (hh + mm / 60 + ss / 3600)%float).
Proof.
  intros Hh Hm Hs r Hr.
  assert (E : r = Split.hms_to_degrees h m s).
  { destruct Hr as [-> | ->]; [reflexivity | ].
    apply (regex_hms_unfold h m s hh mm ss Hh Hm Hs). }
  rewrite E, (split_hms_unfold h m s hh mm ss Hh Hm Hs).
  repeat split; intros; repeat match goal with
    | H : within _ _ = _ |- _ => rewrite H; clear H
    end; reflexivity.
Qed.

Lemma hms_to_degrees_spec_witness :
  Py.float_of_string "12" = Ok 12%float
  /\ Py.float_of_string "30" = Ok 30%float
  /\ Py.float_of_string "45.5" = Ok 45.5%float
  /\ Regex.hms_to_degrees "12" "30" "45.5" = Ok (12 + 30 / 60 + 45.5 / 3600)%float
  /\ Split.hms_to_degrees "24" "30" "45.5" = Raise (HoursOutOfRange 24).
Proof.
  assert (H12 : Py.float_of_string "12" = Ok 12%float) by (vm_compute; reflexivity).
  assert (H24 : Py.float_of_string "24" = Ok 24%float) by (vm_compute; reflexivity).
  assert (H30 : Py.float_of_string "30" = Ok 30%float) by (vm_compute; reflexivity).
  assert (H45 : Py.float_of_string "45.5" = Ok 45.5%float) by (vm_compute; reflexivity).
  split; [exact H12 | split; [exact H30 | split; [exact H45 | split]]].
  - apply (hms_to_degrees_spec "12" "30" "45.5" 12 30 45.5 H12 H30 H45 _
             (or_intror eq_refl)); reflexivity.
  - apply (hms_to_degrees_spec "24" "30" "45.5" 24 30 45.5 H24 H30 H45 _
             (or_introl eq_refl)); reflexivity.
Defined.

(** ** The sign of a declination *)

(** C5: in the pattern driven implementation the sign is taken from the
    float that the degrees field reads as, and [-00] reads as the float
    [-0.0], which is not below zero: a declination of [-00:30:00] comes out
    as [+0.5] degrees.  The tokenising implementation keeps the sign
    character and returns [-0.5]. *)
Theorem negative_zero_degrees_lose_sign :
  Py.float_of_string "-00" = Ok (-0)%float
  /\ ((-0) <? 0)%float = false
  /\ Regex.dms_to_degrees "-00" "30" "0" = Ok 0.5%float
  /\ Regex.ra_dec_converter "12:30:45 -00:30:00"
       (call Regex.defaults "hmsdms" "degrees" None None)
     = Ok "187.6875000, +0.500000"
  /\ Split.dms_to_degrees "-00" "30" "0" = Ok (-0.5)%float
  /\ Split.ra_dec_converter "12:30:45 -00:30:00"
       (call Split.defaults "hmsdms" "degrees" (Some 7%Z) (Some 6%Z))
     = Ok ("187.6875000" ++ tab ++ "-0.500000").
Proof.
  split; [ | split; [ | split; [ | split; [ | split]]]]; vm_compute; reflexivity.
Qed.

(** The tokenising implementation keeps the sign of any degrees field made
    of an optional sign and a numeral. *)
Lemma sign_and_magnitude_signed (sgn ds : string) (dd : float) :
  In sgn [""; "+"; "-"] ->
  ds <> "" ->
  all_chars numeric ds = true ->
  Py.float_of_string ds = Ok dd ->
  sign_and_magnitude (sgn ++ ds) = Ok (String.eqb sgn "-", dd).
Proof.
  intros Hsgn Hne Hnum Hdd.
  assert (Hns : all_chars (fun c => negb (Str.is_space c)) ds = true).
  { revert Hnum. apply all_chars_weaken. exact numeric_no_space. }
  destruct ds as [ | c ds]; [contradiction Hne; reflexivity | ].
  assert (Hc : numeric c = true).
  { cbn [all_chars] in Hnum. apply andb_prop in Hnum. apply Hnum. }
  destruct (numeric_no_sign c Hc) as [Hminus Hplus].
  unfold sign_and_magnitude.
  destruct Hsgn as [<- | [<- | [<- | []]]].
  - cbn [append]. rewrite (strip_no_space _ Hns).
    cbn [Str.startswith]. rewrite Hminus, Hplus.
    change (String.eqb (String c ds) "") with false. cbv iota.
    rewrite Hdd. reflexivity.
  - rewrite strip_no_space;
      [ | cbn [append all_chars] in Hns |- *; rewrite Hns; reflexivity].
    cbn [append Str.startswith Str.tail].
    change (Ascii.eqb "-" "+") with false. change (Ascii.eqb "+" "+") with true.
    cbv iota. change (String.eqb (String c ds) "") with false. cbv iota.
    rewrite Hdd. reflexivity.
  - rewrite strip_no_space;
      [ | cbn [append all_chars] in Hns |- *; rewrite Hns; reflexivity].
    cbn [append Str.startswith Str.tail].
    change (Ascii.eqb "-" "-") with true.
    cbv iota. change (String.eqb (String c ds) "") with false. cbv iota.
    rewrite Hdd. reflexivity.
Qed.

Lemma split_dms_keeps_sign (sgn ds m s : string) (dd mm ss : float) :
  In sgn [""; "+"; "-"] ->
  ds <> "" ->
  all_chars numeric ds = true ->
  Py.float_of_string ds = Ok dd ->
  Py.float_of_string m = Ok mm ->
  Py.float_of_string s = Ok ss ->
  within mm 60 = true ->
  within ss 60 = true ->
  Split.dms_to_degrees (sgn ++ ds) m s
  = Ok (Py.of_sign (String.eqb sgn "-") * (dd + mm / 60 + ss / 3600))%float.
Proof.
  intros Hsgn Hne Hnum Hdd Hm Hs Hmm Hss.
  rewrite (split_dms_unfold _ m s _ dd mm ss
             (sign_and_magnitude_signed sgn ds dd Hsgn Hne Hnum Hdd) Hm Hs).
  rewrite Hmm, Hss. reflexivity.
Qed.

(** ** Range validation in the tokenising converter *)

Section RangeErrors.

Variables (input : string) (o : options).
Variables (ra_part dec_part h m s d m' s' : string).
Variables (hh mm ss dd mm' ss' : float) (neg : bool).

Hypothesis Hfmt : input_format o = "hmsdms".
Hypothesis Hsplit :
  Split.split_ra_dec (clean input) "hmsdms" = Ok (ra_part, dec_part).
Hypothesis Hra : Split.parse_hms_or_dms (Str.strip ra_part) = (h, m, s).
Hypothesis Hdec : Split.parse_hms_or_dms (Str.strip dec_part) = (d, m', s').
Hypothesis Hh : Py.float_of_string h = Ok hh.
Hypothesis Hm : Py.float_of_string m = Ok mm.
Hypothesis Hs : Py.float_of_string s = Ok ss.
Hypothesis Hd : sign_and_magnitude d = Ok (neg, dd).
Hypothesis Hm' : Py.float_of_string m' = Ok mm'.
Hypothesis Hs' : Py.float_of_string s' = Ok ss'.

Lemma parse_ra_unfold :
  Split.parse_to_degrees ra_part true "hmsdms" =
  do hours <- Split.hms_to_degrees h m s;
  Ok ((hours * 15)%float, Split.determine_precision s).
Proof.
  unfold Split.parse_to_degrees.
  change (String.eqb "hmsdms" "casa") with false.
  change (String.eqb "hmsdms" "hmsdms") with true.
  cbv iota. rewrite Hra.
  destruct (Split.hms_to_degrees h m s); reflexivity.
Qed.

Lemma parse_dec_unfold :
  Split.parse_to_degrees dec_part false "hmsdms" =
  do dec_val <- Split.dms_to_degrees d m' s';
  Ok (dec_val, Split.determine_precision s').
Proof.
  unfold Split.parse_to_degrees.
  change (String.eqb "hmsdms" "casa") with false.
  change (String.eqb "hmsdms" "hmsdms") with true.
  cbv iota. rewrite Hdec.
  destruct (Split.dms_to_degrees d m' s'); reflexivity.
Qed.

Lemma range_errors_section :
  (constraints_hold hh mm ss neg dd mm' ss' = false ->
   exists e, Split.ra_dec_converter input o = Raise e /\ is_range_error e = true)
  /\ (constraints_hold hh mm ss neg dd mm' ss' = true ->
      safe (Split.ra_dec_converter input o)).
Proof.
  remember (Split.ra_dec_converter input o) as r eqn:Er.
  unfold Split.ra_dec_converter in Er. rewrite Hfmt in Er.
  unfold clean in Hsplit. rewrite Hsplit in Er.
  unfold bind at 1 in Er. cbv iota beta in Er.
  rewrite parse_ra_unfold, parse_dec_unfold in Er.
  rewrite (split_hms_unfold h m s hh mm ss Hh Hm Hs) in Er.
  rewrite (split_dms_unfold d m' s' neg dd mm' ss' Hd Hm' Hs') in Er.
  unfold constraints_hold.
  set (ra := ((hh + mm / 60 + ss / 3600) * 15)%float) in *.
  set (dec := (Py.of_sign neg * (dd + mm' / 60 + ss' / 3600))%float) in *.
  assert (Hout : forall e : exn, is_range_error e = true ->
            (false = false -> exists e', Raise e = @Raise string e'
                                         /\ is_range_error e' = true)
            /\ (false = true -> safe (@Raise string e))).
  { intros e He. split; [intros _; exists e; split; [reflexivity | exact He]
                        | discriminate]. }
  destruct (within hh 24); [ | subst r; apply Hout; reflexivity].
  destruct (within mm 60); [ | subst r; apply Hout; reflexivity].
  destruct (within ss 60); [ | subst r; apply Hout; reflexivity].
  destruct (within mm' 60); [ | subst r; apply Hout; reflexivity].
  destruct (within ss' 60); [ | subst r; apply Hout; reflexivity].
  cbn [negb bind andb] in Er. fold ra dec in Er. fold (within ra 360) in Er.
  destruct (within ra 360); [ | subst r; apply Hout; reflexivity].
  cbn [negb andb] in Er |- *.
  destruct ((-90 <=? dec) && (dec <=? 90))%float;
    [ | subst r; apply Hout; reflexivity].
  cbn [negb] in Er. split; [discriminate | intros _].
  subst r. safe_tac.
Qed.

End RangeErrors.

Lemma safe_regex_degrees_to_hms v p d : safe (Regex.degrees_to_hms v p d).
Proof. unfold Regex.degrees_to_hms. safe_tac. Qed.

Lemma safe_regex_degrees_to_dms v p d : safe (Regex.degrees_to_dms v p d).
Proof. unfold Regex.degrees_to_dms. safe_tac. Qed.

(** The validation at the end of the pattern driven converter. *)
Lemma regex_finish_ranges (o : options) (p q : Z) (ra dec : float) :
  (regex_ranges_hold o ra dec = false ->
   exists e, Regex.finish o p q ra dec = Raise e /\ is_range_error e = true)
  /\ (regex_ranges_hold o ra dec = true -> safe (Regex.finish o p q ra dec)).
Proof.
  unfold regex_ranges_hold, Regex.finish, within.
  set (ra' := if String.eqb (input_format o) "hmsdms" then (ra * 15)%float else ra).
  cbv zeta.
  destruct (String.eqb (output_format o) "degrees").
  - destruct ((0 <=? ra') && (ra' <? 360))%float; cbn [negb bind andb];
      [ | split; [intros _; eexists; split; reflexivity | discriminate]].
    destruct ((-90 <=? dec) && (dec <=? 90))%float; cbn [negb];
      [ | split; [intros _; eexists; split; reflexivity | discriminate]].
    split; [discriminate | intros _].
    pose proof safe_format_f. safe_tac.
  - destruct ((0 <=? ra' / 15) && (ra' / 15 <? 24))%float; cbn [negb bind andb];
      [ | split; [intros _; eexists; split; reflexivity | discriminate]].
    destruct ((-90 <=? dec) && (dec <=? 90))%float; cbn [negb];
      [ | split; [intros _; eexists; split; reflexivity | discriminate]].
    split; [discriminate | intros _].
    pose proof safe_regex_degrees_to_hms. pose proof safe_regex_degrees_to_dms.
    safe_tac.
Qed.




(** The boundary inputs of the test suite, sexagesimal in and out. *)
Example split_boundary_values :
  let convert s :=
    Split.ra_dec_converter s (call Split.defaults "hmsdms" "hmsdms" None None) in
  convert "00:00:00.000 +90:00:00.000" = Ok ("00:00:00.000" ++ tab ++ "+90:00:00.000")
  /\ convert "00:00:00.000 +90:00:00.001" = Raise (DecOutOfRange (90 + read "00.001" / 3600))
  /\ convert "24:00:00.000 +00:00:00.000" = Raise (HoursOutOfRange 24)
  /\ convert "00:60:00.000 +00:00:00.000" = Raise (MinutesOutOfRange 60)
  /\ convert "00:00:60.000 +00:00:00.000" = Raise (SecondsOutOfRange 60).
Proof.
  cbv zeta. split; [ | split; [ | split; [ | split]]]; vm_compute; reflexivity.
Qed.

(** The same inputs in the pattern driven converter: the colon pattern
    takes an RA whose first field is 24 for degrees, and the input is
    refused before the ranges are looked at. *)
Example regex_boundary_values :
  let convert s :=
    Regex.ra_dec_converter s (call Regex.defaults "hmsdms" "hmsdms" None None) in
  convert "00:00:00.000 +90:00:00.000" = Ok "00 00 00.00, +90 00 00.00"
  /\ convert "00:00:00.000 +90:00:00.001" = Raise (DecOutOfRange (90 + read "00.001" / 3600))
  /\ convert "24:00:00.000 +00:00:00.000" = Raise LooksDMS
  /\ convert "24h00m00.000s +00d00m00.000s" = Raise (HoursOutOfRange 24)
  /\ convert "00:60:00.000 +00:00:00.000" = Raise (MinutesOutOfRange 60)
  /\ convert "00:00:60.000 +00:00:00.000" = Raise (SecondsOutOfRange 60).
Proof.
  cbv zeta. split; [ | split; [ | split; [ | split; [ | split]]]];
    vm_compute; reflexivity.
Qed.

(** ** CASA declinations *)

(** C2: the pattern of a dotted declination reads ["+17.43.31.222"] as the
    sign [+], 17 degrees, 43 minutes and 31.222 seconds, of value
    [17 + 43/60 + 31.222/3600] and precision 3, and both converters accept it
    as a declination (the tokenising one under the input format [casa], the
    pattern driven one under [hmsdms]); the same text is refused with a
    [ValueError] where decimal degrees are expected, by both converters. *)
Theorem casa_dotted_disambiguation :
  (exists m,
      Re.re_match Split.casa_dec_pattern "+17.43.31.222" = Some m
      /\ grp m 1 = "+" /\ grp m 2 = "17" /\ grp m 3 = "43" /\ grp m 4 = "31.222")
  /\ Split.parse_casa_dotted_dec "+17.43.31.222"
     = Ok ((17 + 43 / 60 + read "31.222" / 3600)%float, 3%Z)
  /\ Split.parse_to_degrees "+17.43.31.222" false "casa"
     = Ok ((17 + 43 / 60 + read "31.222" / 3600)%float, 3%Z)
  /\ Split.ra_dec_converter "09:54:56.82 +17.43.31.222"
       (call Split.defaults "casa" "degrees" None None)
     = Ok ("148.74" ++ tab ++ "+17.725")
  /\ Regex.ra_dec_converter "09:54:56.82 +17.43.31.222"
       (call Regex.defaults "hmsdms" "degrees" None None)
     = Ok "148.7367500, +17.725339"
  /\ Split.parse_to_degrees "+17.43.31.222" false "degrees"
     = Raise (CannotParseDecimal "+17.43.31.222")
  /\ Split.ra_dec_converter "148.73675 +17.43.31.222"
       (call Split.defaults "degrees" "degrees" None None)
     = Raise (CannotParseDecimal "+17.43.31.222")
  /\ Regex.ra_dec_converter "09:54:56.82 +17.43.31.222"
       (call Regex.defaults "degrees" "degrees" None None)
     = Raise LooksHMS
  /\ Regex.ra_dec_converter "30:54:56.82 +17.43.31.222"
       (call Regex.defaults "degrees" "degrees" None None)
     = Raise CasaNeedsHmsdms.
Proof.
  split.
  - eexists. split; [vm_compute; reflexivity | ].
    repeat split.
  - split; [ | split; [ | split; [ | split; [ | split; [ | split; [ | split]]]]]];
      vm_compute; reflexivity.
Qed.

(** ** The fields of an axis *)

Lemma parse_to_degrees_fields (c c' : string) (is_ra : bool) :
  Split.parse_hms_or_dms (Str.strip c) = Split.parse_hms_or_dms (Str.strip c') ->
  Split.parse_to_degrees c is_ra "hmsdms" = Split.parse_to_degrees c' is_ra "hmsdms".
Proof.
  intros H. unfold Split.parse_to_degrees.
  change (String.eqb "hmsdms" "casa") with false.
  change (String.eqb "hmsdms" "hmsdms") with true.
  cbv iota. rewrite H. reflexivity.
Qed.

(** Two sexagesimal inputs whose axes give the same three fields convert
    alike. *)
Lemma converter_same_fields (input input' : string) (o : options)
    (ra dec ra' dec' : string) :
  input_format o = "hmsdms" ->
  Split.split_ra_dec (clean input) "hmsdms" = Ok (ra, dec) ->
  Split.split_ra_dec (clean input') "hmsdms" = Ok (ra', dec') ->
  Split.parse_hms_or_dms (Str.strip ra) = Split.parse_hms_or_dms (Str.strip ra') ->
  Split.parse_hms_or_dms (Str.strip dec) = Split.parse_hms_or_dms (Str.strip dec') ->
  Split.ra_dec_converter input o = Split.ra_dec_converter input' o.
Proof.
  intros Hfmt Hs Hs' Hra Hdec.
  unfold Split.ra_dec_converter. rewrite Hfmt.
  unfold clean in Hs, Hs'. rewrite Hs, Hs'.
  cbn [bind].
  rewrite (parse_to_degrees_fields ra ra' true Hra).
  rewrite (parse_to_degrees_fields dec dec' false Hdec).
  reflexivity.
Qed.

Lemma first_three_fields (c c' : string) :
  Split.tokens_of c' = firstn 3 (Split.tokens_of c) ->
  Split.parse_hms_or_dms c = Split.parse_hms_or_dms c'.
Proof.
  intros H. unfold Split.parse_hms_or_dms. rewrite H.
  destruct (Split.tokens_of c) as [ | t0 [ | t1 [ | t2 [ | t3 ts]]]]; reflexivity.
Qed.

Lemma zero_filled_fields (c c' : string) :
  Split.tokens_of c' = zero_filled (Split.tokens_of c) ->
  Split.parse_hms_or_dms c = Split.parse_hms_or_dms c'.
Proof.
  intros H. unfold Split.parse_hms_or_dms. rewrite H.
  destruct (Split.tokens_of c) as [ | t0 [ | t1 [ | t2 [ | t3 ts]]]]; reflexivity.
Qed.

Lemma parse_keeps_three (c t0 t1 t2 : string) (extra : list string) :
  Split.tokens_of c = t0 :: t1 :: t2 :: extra ->
  Split.parse_hms_or_dms c = (t0, t1, t2).
Proof. intros H. unfold Split.parse_hms_or_dms. rewrite H. reflexivity. Qed.

(** *** The tokens of colon separated fields *)

Lemma sub_loop_no_marker (s : string) : forall fuel prev,
  all_chars (fun c => negb (marker c)) s = true ->
  Re.sub_loop Split.unit_marker " " fuel prev s = s.
Proof.
  induction s as [ | c s IH]; intros [ | fuel] prev H; try reflexivity.
  cbn [all_chars] in H. apply andb_prop in H. destruct H as [Hc Hs].
  cbn [Re.sub_loop]. unfold Re.match_here, Split.unit_marker. cbn [Re.run].
  fold (marker c). apply negb_true_iff in Hc. rewrite Hc.
  fold Split.unit_marker. rewrite (IH fuel (Some c) Hs). reflexivity.
Qed.

Lemma no_match_at_plain (c : ascii) (s : string) (prev : option ascii) :
  separator c = false -> Re.match_here seps prev (String c s) = None.
Proof.
  intros Hc. unfold Re.match_here, seps, Re.plus, Split.colon_or_space.
  cbn [Re.run Re.rep_loop Nat.add String.length].
  fold (separator c). rewrite Hc. reflexivity.
Qed.

Lemma match_at_colon (c : ascii) (s : string) (prev : option ascii) :
  separator c = false ->
  Re.match_here seps prev (String ":" (String c s))
  = Some (Some ":"%char, String c s).
Proof.
  intros Hc. unfold Re.match_here, seps, Re.plus, Split.colon_or_space.
  cbn [Re.run Re.rep_loop Nat.add String.length Nat.pred].
  change (Ascii.eqb ":" ":" || Str.is_space ":") with true. cbv iota.
  cbn [Nat.eqb andb]. fold (separator c). rewrite Hc. reflexivity.
Qed.

Lemma plain_not_separator (c : ascii) : plain c = true -> separator c = false.
Proof.
  unfold plain. intros H. apply andb_prop in H. destruct H as [_ H].
  apply negb_true_iff in H. exact H.
Qed.

(** Inside a field the split reads on. *)
Lemma split_loop_field (t : string) : forall fuel prev cur rest,
  all_chars plain t = true ->
  String.length (t ++ rest) < fuel ->
  Re.split_loop seps fuel prev (t ++ rest) cur
  = Re.split_loop seps (fuel - String.length t) (prev_after prev t) rest (cur ++ t).
Proof.
  induction t as [ | c t IH]; intros fuel prev cur rest Ht Hfuel.
  - cbn [append String.length prev_after]. rewrite Nat.sub_0_r, app_nil_r_s.
    reflexivity.
  - cbn [all_chars] in Ht. apply andb_prop in Ht. destruct Ht as [Hc Ht].
    destruct fuel as [ | fuel]; [inversion Hfuel | ].
    cbn [append String.length] in Hfuel |- *.
    cbn [Re.split_loop].
    rewrite (no_match_at_plain c _ prev (plain_not_separator c Hc)).
    rewrite (IH fuel (Some c) (cur ++ String c "") rest Ht); [ | lia].
    cbn [prev_after Nat.sub]. rewrite app_assoc_s. reflexivity.
Qed.

Lemma split_loop_fields (fields : list string) : forall fuel prev cur t,
  Forall field (t :: fields) ->
  String.length (Str.join ":" (t :: fields)) < fuel ->
  Re.split_loop seps fuel prev (Str.join ":" (t :: fields)) cur
  = (cur ++ t) :: fields.
Proof.
  induction fields as [ | t' fields IH]; intros fuel prev cur t Hf Hfuel.
  - cbn [Str.join] in *. inversion Hf as [ | ? ? [_ Ht] _]; subst.
    rewrite <- (app_nil_r_s t) at 1.
    rewrite (split_loop_field t fuel prev cur "" Ht);
      [ | rewrite app_nil_r_s; exact Hfuel].
    destruct (fuel - String.length t) as [ | fuel'] eqn:E; [lia | ].
    reflexivity.
  - inversion Hf as [ | ? ? [_ Ht] Hf']; subst.
    change (Str.join ":" (t :: t' :: fields))
      with (t ++ ":" ++ Str.join ":" (t' :: fields)) in *.
    rewrite length_app_s in Hfuel. cbn [append String.length] in Hfuel.
    rewrite (split_loop_field t fuel prev cur _ Ht);
      [ | rewrite length_app_s; cbn [append String.length]; lia].
    destruct (fuel - String.length t) as [ | fuel'] eqn:E; [lia | ].
    inversion Hf' as [ | ? ? [Hne Ht'] _]; subst.
    assert (Hhead : exists c rest, Str.join ":" (t' :: fields) = String c rest
                                   /\ plain c = true).
    { destruct t' as [ | c t'']; [contradiction Hne; reflexivity | ].
      cbn [all_chars] in Ht'. apply andb_prop in Ht'. destruct Ht' as [Hc _].
      destruct fields as [ | t2 fields'].
      - exists c, t''. split; [reflexivity | exact Hc].
      - exists c, (t'' ++ ":" ++ Str.join ":" (t2 :: fields')).
        split; [reflexivity | exact Hc]. }
    destruct Hhead as (c & rest & Hj & Hc).
    cbn [append]. cbn [Re.split_loop]. rewrite Hj.
    rewrite (match_at_colon c rest _ (plain_not_separator c Hc)).
    cbn [String.length].
    replace (Nat.ltb (S (String.length rest)) (S (S (String.length rest))))
      with true by (symmetry; apply Nat.ltb_lt; lia).
    rewrite <- Hj. f_equal.
    apply (IH fuel' (Some ":"%char) "" t' Hf').
    rewrite Hj in Hfuel |- *. cbn [String.length] in Hfuel |- *. lia.
Qed.

Lemma field_no_marker (t : string) :
  all_chars plain t = true -> all_chars (fun c => negb (marker c)) t = true.
Proof.
  apply all_chars_weaken. unfold plain. intros c H.
  apply andb_prop in H. apply H.
Qed.

Lemma field_no_space (t : string) :
  all_chars plain t = true ->
  all_chars (fun c => negb (Str.is_space c)) t = true.
Proof.
  apply all_chars_weaken. unfold plain, separator. intros c H.
  apply andb_prop in H. destruct H as [_ H].
  apply negb_true_iff in H. apply orb_false_elim in H. destruct H as [_ H].
  rewrite H. reflexivity.
Qed.

Lemma join_chars (f : ascii -> bool) (fields : list string) :
  f ":"%char = true ->
  Forall (fun t => all_chars f t = true) fields ->
  all_chars f (Str.join ":" fields) = true.
Proof.
  intros Hcolon Hf. induction Hf as [ | t fields Ht Hf IH]; [reflexivity | ].
  destruct fields as [ | t' fields]; [exact Ht | ].
  change (Str.join ":" (t :: t' :: fields))
    with (t ++ ":" ++ Str.join ":" (t' :: fields)).
  rewrite all_chars_app, Ht. cbn [append all_chars andb]. rewrite Hcolon. exact IH.
Qed.

Lemma join_no_space (fields : list string) :
  Forall field fields ->
  all_chars (fun c => negb (Str.is_space c)) (Str.join ":" fields) = true.
Proof.
  intros Hf. apply join_chars; [reflexivity | ].
  eapply Forall_impl; [ | exact Hf]. intros a [_ Ha]. apply field_no_space, Ha.
Qed.

Lemma filter_fields (fields : list string) :
  Forall field fields ->
  filter (fun t => negb (String.eqb t "")) fields = fields.
Proof.
  intros Hf. induction Hf as [ | t fields [Hne _] Hf IH]; [reflexivity | ].
  cbn [filter]. destruct (String.eqb_spec t ""); [contradiction | ].
  cbn [negb]. rewrite IH. reflexivity.
Qed.

(** The tokens of fields joined by colons are the fields. *)
Lemma tokens_of_join (fields : list string) :
  Forall field fields ->
  Split.tokens_of (Str.join ":" fields) = fields.
Proof.
  intros Hf. destruct fields as [ | t fields]; [reflexivity | ].
  unfold Split.tokens_of, Re.re_sub.
  rewrite sub_loop_no_marker.
  2:{ apply join_chars; [reflexivity | ].
      eapply Forall_impl; [ | exact Hf]. intros a [_ Ha]. apply field_no_marker, Ha. }
  rewrite (strip_no_space _ (join_no_space _ Hf)).
  unfold Re.re_split. fold seps.
  rewrite (split_loop_fields fields _ None "" t Hf); [ | lia].
  cbn [append]. apply filter_fields, Hf.
Qed.

(** An axis written with more than three fields, or with fewer, is read
    as the axis of its first three fields, respectively as the axis with
    zeros for the missing fields. *)
Lemma axis_with_extra_fields (t0 t1 t2 : string) (extra : list string)
    (is_ra : bool) :
  Forall field (t0 :: t1 :: t2 :: extra) ->
  Split.parse_hms_or_dms (Str.join ":" (t0 :: t1 :: t2 :: extra)) = (t0, t1, t2)
  /\ Split.parse_to_degrees (Str.join ":" (t0 :: t1 :: t2 :: extra)) is_ra "hmsdms"
     = Split.parse_to_degrees (Str.join ":" [t0; t1; t2]) is_ra "hmsdms".
Proof.
  intros Hf.
  assert (Hf3 : Forall field [t0; t1; t2]).
  { inversion Hf as [ | ? ? H0 Hf1]; subst. inversion Hf1 as [ | ? ? H1 Hf2]; subst.
    inversion Hf2 as [ | ? ? H2 _]; subst.
    repeat (constructor; [assumption | ]). constructor. }
  split.
  - apply (parse_keeps_three _ t0 t1 t2 extra), tokens_of_join, Hf.
  - apply parse_to_degrees_fields.
    rewrite (strip_no_space _ (join_no_space _ Hf)).
    rewrite (strip_no_space _ (join_no_space _ Hf3)).
    apply first_three_fields.
    rewrite (tokens_of_join _ Hf), (tokens_of_join _ Hf3). reflexivity.
Qed.

Lemma axis_with_elided_fields (fields : list string) (is_ra : bool) :
  Forall field fields ->
  Split.parse_to_degrees (Str.join ":" fields) is_ra "hmsdms"
  = Split.parse_to_degrees (Str.join ":" (zero_filled fields)) is_ra "hmsdms".
Proof.
  intros Hf.
  assert (Hzero : field "0") by (split; [discriminate | reflexivity]).
  assert (Hf3 : Forall field (zero_filled fields)).
  { unfold zero_filled.
    destruct Hf as [ | t0 ? H0 [ | t1 ? H1 [ | t2 ? H2 Hf]]]; cbn [app firstn];
      repeat (constructor; [assumption | ]); constructor. }
  apply parse_to_degrees_fields.
  rewrite (strip_no_space _ (join_no_space _ Hf)).
  rewrite (strip_no_space _ (join_no_space _ Hf3)).
  apply zero_filled_fields.
  rewrite (tokens_of_join _ Hf), (tokens_of_join _ Hf3). reflexivity.
Qed.

(** C3, as stated, fails in the pattern driven converter: ["12 +45"] matches
    the pattern of decimal degrees first and is refused for a sexagesimal
    input format. *)
Lemma regex_rejects_elided_fields :
  Re.re_match Regex.decimal_pattern "12 +45" = Some [(2, "+45"); (1, "12")]%nat
  /\ Regex.ra_dec_converter "12 +45"
       (call Regex.defaults "hmsdms" "hmsdms" None None)
     = Raise LooksDecimal.
Proof.
  split; vm_compute; reflexivity.
Qed.

(** C3, amended: in the tokenising converter a sexagesimal input converts
    as the input in which each missing minute or second field of an axis is
    written as the field [0]: the elision is filled with zeros and is no
    failure by itself. *)
Theorem elision_fill (input input' : string) (o : options)
    (ra dec ra' dec' : string) :
  input_format o = "hmsdms" ->
  Split.split_ra_dec (clean input) "hmsdms" = Ok (ra, dec) ->
  Split.split_ra_dec (clean input') "hmsdms" = Ok (ra', dec') ->
  Split.tokens_of (Str.strip ra') = zero_filled (Split.tokens_of (Str.strip ra)) ->
  Split.tokens_of (Str.strip dec') = zero_filled (Split.tokens_of (Str.strip dec)) ->
  Split.parse_hms_or_dms (Str.strip ra) = Split.parse_hms_or_dms (Str.strip ra')
  /\ Split.parse_hms_or_dms (Str.strip dec) = Split.parse_hms_or_dms (Str.strip dec')
  /\ Split.ra_dec_converter input o = Split.ra_dec_converter input' o.
Proof.
  intros Hfmt Hs Hs' Hra Hdec.
  apply zero_filled_fields in Hra. apply zero_filled_fields in Hdec.
  split; [exact Hra | split; [exact Hdec | ]].
  exact (converter_same_fields input input' o ra dec ra' dec' Hfmt Hs Hs' Hra Hdec).
Qed.

(** The input ["12 +45"] converts as ["12:0:0 +45:0:0"], to 12h 00m 00s and
    +45d 00m 00s. *)
Lemma elision_fill_witness :
  let o := call Split.defaults "hmsdms" "hmsdms" (Some 2%Z) (Some 2%Z) in
  input_format o = "hmsdms"
  /\ Split.split_ra_dec (clean "12 +45") "hmsdms" = Ok ("12", "+45")
  /\ Split.split_ra_dec (clean "12:0:0 +45:0:0") "hmsdms" = Ok ("12:0:0", "+45:0:0")
  /\ Split.tokens_of (Str.strip "12:0:0") = zero_filled (Split.tokens_of (Str.strip "12"))
  /\ Split.tokens_of (Str.strip "+45:0:0") = zero_filled (Split.tokens_of (Str.strip "+45"))
  /\ Split.parse_hms_or_dms (Str.strip "12") = ("12", "0", "0")
  /\ Split.parse_hms_or_dms (Str.strip "+45") = ("+45", "0", "0")
  /\ Split.parse_to_degrees "12" true "hmsdms" = Ok (180%float, 0%Z)
  /\ Split.parse_to_degrees "+45" false "hmsdms" = Ok (45%float, 0%Z)
  /\ Split.ra_dec_converter "12 +45" o = Split.ra_dec_converter "12:0:0 +45:0:0" o
  /\ Split.ra_dec_converter "12 +45" o = Ok ("12:00:00.00" ++ tab ++ "+45:00:00.00").
Proof.
  intros o.
  assert (H1 : input_format o = "hmsdms") by reflexivity.
  assert (H2 : Split.split_ra_dec (clean "12 +45") "hmsdms" = Ok ("12", "+45"))
    by (vm_compute; reflexivity).
  assert (H3 : Split.split_ra_dec (clean "12:0:0 +45:0:0") "hmsdms"
               = Ok ("12:0:0", "+45:0:0")) by (vm_compute; reflexivity).
  assert (H4 : Split.tokens_of (Str.strip "12:0:0")
               = zero_filled (Split.tokens_of (Str.strip "12")))
    by (vm_compute; reflexivity).
  assert (H5 : Split.tokens_of (Str.strip "+45:0:0")
               = zero_filled (Split.tokens_of (Str.strip "+45")))
    by (vm_compute; reflexivity).
  destruct (elision_fill "12 +45" "12:0:0 +45:0:0" o _ _ _ _ H1 H2 H3 H4 H5)
    as (_ & _ & H).
  repeat (split; [assumption | ]).
  split; [vm_compute; reflexivity | ].
  split; [vm_compute; reflexivity | ].
  split; [vm_compute; reflexivity | ].
  split; [vm_compute; reflexivity | ].
  split; [exact H | vm_compute; reflexivity].
Defined.

(** C10: in the tokenising converter only the first three fields of an
    axis are read.  An input whose axes have further fields gives the same
    fields, and so the same result or the same error, as an input whose axes
    have the first three fields only. *)
Theorem extra_fields_discarded (input input' : string) (o : options)
    (ra dec ra' dec' : string) :
  input_format o = "hmsdms" ->
  Split.split_ra_dec (clean input) "hmsdms" = Ok (ra, dec) ->
  Split.split_ra_dec (clean input') "hmsdms" = Ok (ra', dec') ->
  Split.tokens_of (Str.strip ra') = firstn 3 (Split.tokens_of (Str.strip ra)) ->
  Split.tokens_of (Str.strip dec') = firstn 3 (Split.tokens_of (Str.strip dec)) ->
  Split.parse_hms_or_dms (Str.strip ra) = Split.parse_hms_or_dms (Str.strip ra')
  /\ Split.parse_hms_or_dms (Str.strip dec) = Split.parse_hms_or_dms (Str.strip dec')
  /\ Split.ra_dec_converter input o = Split.ra_dec_converter input' o.
Proof.
  intros Hfmt Hs Hs' Hra Hdec.
  apply first_three_fields in Hra. apply first_three_fields in Hdec.
  split; [exact Hra | split; [exact Hdec | ]].
  exact (converter_same_fields input input' o ra dec ra' dec' Hfmt Hs Hs' Hra Hdec).
Qed.

(** The input ["12:30:45:59 +10:00:00"] converts as ["12:30:45 +10:00:00"]. *)
Lemma extra_fields_discarded_witness :
  let o := call Split.defaults "hmsdms" "hmsdms" (Some 2%Z) (Some 2%Z) in
  let input := "12:30:45:59 +10:00:00" in
  let input' := "12:30:45 +10:00:00" in
  input_format o = "hmsdms"
  /\ Split.split_ra_dec (clean input) "hmsdms" = Ok ("12:30:45:59", "+10:00:00")
  /\ Split.split_ra_dec (clean input') "hmsdms" = Ok ("12:30:45", "+10:00:00")
  /\ Split.tokens_of (Str.strip "12:30:45:59") = ["12"; "30"; "45"; "59"]
  /\ Split.tokens_of (Str.strip "12:30:45")
     = firstn 3 (Split.tokens_of (Str.strip "12:30:45:59"))
  /\ Split.tokens_of (Str.strip "+10:00:00")
     = firstn 3 (Split.tokens_of (Str.strip "+10:00:00"))
  /\ Split.parse_hms_or_dms (Str.strip "12:30:45:59") = ("12", "30", "45")
  /\ Split.ra_dec_converter input o = Split.ra_dec_converter input' o
  /\ Split.ra_dec_converter input o = Ok ("12:30:45.00" ++ tab ++ "+10:00:00.00").
Proof.
  intros o input input'.
  assert (H1 : input_format o = "hmsdms") by reflexivity.
  assert (H2 : Split.split_ra_dec (clean input) "hmsdms"
               = Ok ("12:30:45:59", "+10:00:00")) by (vm_compute; reflexivity).
  assert (H3 : Split.split_ra_dec (clean input') "hmsdms"
               = Ok ("12:30:45", "+10:00:00")) by (vm_compute; reflexivity).
  assert (H4 : Split.tokens_of (Str.strip "12:30:45")
               = firstn 3 (Split.tokens_of (Str.strip "12:30:45:59")))
    by (vm_compute; reflexivity).
  assert (H5 : Split.tokens_of (Str.strip "+10:00:00")
               = firstn 3 (Split.tokens_of (Str.strip "+10:00:00")))
    by (vm_compute; reflexivity).
  destruct (extra_fields_discarded input input' o _ _ _ _ H1 H2 H3 H4 H5)
    as (_ & _ & H).
  split; [exact H1 | split; [exact H2 | split; [exact H3 | ]]].
  split; [vm_compute; reflexivity | ].
  split; [exact H4 | split; [exact H5 | ]].
  split; [vm_compute; reflexivity | ].
  split; [exact H | vm_compute; reflexivity].
Defined.

(** ** Rendering *)

Lemma count_digits_positive (fuel : nat) (v : Z) : 1 <= Py.count_digits fuel v.
Proof.
  destruct fuel; cbn [Py.count_digits]; [lia | destruct (v <? 10)%Z; lia].
Qed.

Lemma decimal_not_empty (v : Z) : 1 <= String.length (Py.decimal v).
Proof.
  unfold Py.decimal. rewrite length_low_digits. apply count_digits_positive.
Qed.

(** The format [f] with a positive precision [p] gives a finite number an
    integer part, a point and exactly [p] digits after it. *)
Lemma format_f_shape (plus : bool) (width : nat) (p : Z) (x : float) (s : string) :
  (0 < p)%Z -> finite x = true ->
  Py.format_f plus width p x = Ok s ->
  exists int_part frac,
    s = int_part ++ "." ++ frac
    /\ Str.mem "." int_part = false
    /\ 1 <= String.length int_part
    /\ String.length frac = Z.to_nat p
    /\ all_digits frac = true.
Proof.
  intros Hp Hx. unfold Py.format_f, finite in *.
  destruct (p <? 0)%Z eqn:Hneg; [lia | ].
  destruct (p =? 0)%Z eqn:Hzero; [lia | ].
  assert (Hshape : forall (neg : bool) (n : Z) (sgn body : string),
             (sgn, body) =
               (if neg then "-" else if plus then "+" else "",
                Py.decimal (n / 10 ^ p) ++ "." ++
                  Py.low_digits (Z.to_nat p) (n mod 10 ^ p)) ->
             exists int_part frac,
               sgn ++ Str.zfill (width - String.length sgn) body
               = int_part ++ "." ++ frac
               /\ Str.mem "." int_part = false
               /\ 1 <= String.length int_part
               /\ String.length frac = Z.to_nat p
               /\ all_digits frac = true).
  { intros neg n sgn body E. injection E as -> ->.
    exists ((if neg then "-" else if plus then "+" else "") ++
            Str.repeat_char "0"
              (width - String.length (if neg then "-" else if plus then "+" else "")
               - String.length (Py.decimal (n / 10 ^ p) ++ "." ++
                   Py.low_digits (Z.to_nat p) (n mod 10 ^ p))) ++
            Py.decimal (n / 10 ^ p)),
           (Py.low_digits (Z.to_nat p) (n mod 10 ^ p)).
    split; [unfold Str.zfill; rewrite !app_assoc_s; reflexivity | ].
    split; [ | split; [ | split; [apply length_low_digits
                                 | apply all_digits_low_digits]]].
    - rewrite !mem_app, zeros_have_no_dot.
      unfold Py.decimal.
      rewrite (digits_have_no_dot _ (all_digits_low_digits _ _)).
      destruct neg; [reflexivity | destruct plus; reflexivity].
    - rewrite !length_app_s. pose proof (decimal_not_empty (n / 10 ^ p)). lia. }
  destruct (Prim2SF x) as [neg | neg | | neg m e]; try discriminate Hx.
  - intros H. injection H as <-. apply (Hshape neg 0%Z). reflexivity.
  - destruct (Py.scale10 (Py.fraction m e) p) as [num den].
    intros H. injection H as <-.
    apply (Hshape neg (Py.round_half_even num den)). reflexivity.
Qed.

Lemma format_f_fixed_point (plus : bool) (width : nat) (p : Z) (x : float)
    (s : string) :
  (0 < p)%Z -> finite x = true ->
  Py.format_f plus width p x = Ok s ->
  fixed_point (Z.to_nat p) s.
Proof.
  intros Hp Hx H.
  destruct (format_f_shape plus width p x s Hp Hx H)
    as (int_part & frac & Hs & Hint & _ & Hlen & Hdigits).
  exists int_part, frac. repeat split; assumption.
Qed.

(** [two_digit_left] at a positive precision [p]: at least two characters
    before the point, none of them a point, and exactly [p] digits after
    it. *)
Lemma two_digit_left_shape (value r : float) (p : Z) (s : string) :
  (0 < p)%Z ->
  Py.round_digits value p = Ok r -> finite r = true ->
  Split.two_digit_left value p = Ok s ->
  exists int_part frac,
    s = int_part ++ "." ++ frac
    /\ Str.mem "." int_part = false
    /\ 2 <= String.length int_part
    /\ String.length frac = Z.to_nat p
    /\ all_digits frac = true.
Proof.
  intros Hp Hr Hfin. unfold Split.two_digit_left. rewrite Hr. cbn [bind].
  destruct (Py.format_f false 0 p r) as [base_str | e] eqn:Hbase; [ | discriminate].
  cbn [bind].
  destruct (format_f_shape false 0 p r base_str Hp Hfin Hbase)
    as (int_part & frac & -> & Hint & Hlen & Hfrac & Hdigits).
  rewrite mem_app. cbn [append Str.mem]. rewrite Ascii.eqb_refl, orb_true_r.
  cbn [orb].
  rewrite (split_on_app "." int_part frac Hint).
  rewrite (split_on_no_sep "." frac (digits_have_no_dot frac Hdigits)).
  destruct (Nat.eqb (String.length int_part) 1) eqn:Hone; intros H;
    injection H as <-.
  - exists ("0" ++ int_part), frac.
    split; [reflexivity | ].
    split; [cbn [append Str.mem]; rewrite Hint; reflexivity | ].
    split; [cbn [append String.length]; lia | split; assumption].
  - exists int_part, frac.
    split; [reflexivity | split; [exact Hint | ]].
    split; [apply Nat.eqb_neq in Hone; lia | split; assumption].
Qed.

(** A float that passes a range check is finite. *)
Lemma within_finite (x hi : float) : within x hi = true -> finite x = true.
Proof.
  unfold within, finite. rewrite leb_spec, ltb_spec.
  destruct (Prim2SF x) as [neg | [ | ] | | neg m e]; try reflexivity;
    intros H; apply andb_prop in H; destruct H as [H0 H1].
  - vm_compute in H0. discriminate H0.
  - destruct (Prim2SF hi) as [? | [ | ] | | ? ? ?]; cbv in H1; discriminate H1.
  - vm_compute in H0. discriminate H0.
Qed.

Lemma dec_range_finite (x : float) :
  ((-90 <=? x) && (x <=? 90))%float = true -> finite x = true.
Proof.
  unfold finite. rewrite !leb_spec.
  destruct (Prim2SF x) as [neg | [ | ] | | neg m e]; try reflexivity;
    intros H; vm_compute in H; discriminate H.
Qed.

(** C6, as stated, fails: a seconds value of 59.996 is rendered [60.00] at
    precision 2, and both converters print the boundary input of the test
    suite with a seconds field of 60 next to the minute 59. *)
Lemma seconds_field_reads_sixty :
  Split.two_digit_left (read "59.996") 2 = Ok "60.00"
  /\ Split.ra_dec_converter "23:59:59.999 +89:59:59.999"
       (call Split.defaults "hmsdms" "hmsdms" (Some 2%Z) (Some 2%Z))
     = Ok ("23:59:60.00" ++ tab ++ "+89:59:60.00")
  /\ Regex.ra_dec_converter "23:59:59.999 +89:59:59.999"
       (call Regex.defaults "hmsdms" "hmsdms" (Some 2%Z) (Some 2%Z))
     = Ok "23 59 60.00, +89 59 60.00".
Proof.
  split; [ | split]; vm_compute; reflexivity.
Qed.

(** C6, amended.  All four renderers render by truncation and without a
    carry: the hour or degree field is [int] of the angle shown (the degrees
    over 15 modulo 24, the hours modulo 24, or the magnitude of the degrees),
    the minute field is [int] of what is left times 60, and the seconds
    field is the formatting, at the precision asked for, of the seconds that
    are left, which are not rounded before.  The minute field is fixed
    before the seconds are rounded and the rounding is not carried into it,
    so that the seconds field reads 60 when the seconds round up to 60: the
    seconds 59.996 read [60.00] at precision 2 in every renderer, and the
    angle 0.9999999 degrees is rendered with the minute 59 at the precisions
    2 and 5, its seconds reading [60.00] at the first. *)
Theorem seconds_rounding_is_not_carried :
  (forall (v : float) (p : Z) (delim : string),
      Split.degrees_to_hms v p delim
      = truncating (Py.float_mod (v / 15) 24) "" Split.seconds_field p delim
      /\ Split.degrees_to_dms v p delim
         = truncating (abs v) (dms_sign v) Split.seconds_field p delim
      /\ Regex.degrees_to_hms v p delim
         = truncating (Py.float_mod v 24) "" regex_hms_seconds p delim
      /\ Regex.degrees_to_dms v p delim
         = truncating (abs v) (dms_sign v) regex_dms_seconds p delim)
  /\ (Split.seconds_field (read "59.996") 2 = Ok "60.00"
      /\ regex_hms_seconds (read "59.996") 2 = Ok "60.00"
      /\ regex_dms_seconds (read "59.996") 2 = Ok "60.00")
  /\ (Split.degrees_to_dms (read "0.9999999") 2 ":" = Ok "+00:59:60.00"
      /\ Split.degrees_to_dms (read "0.9999999") 5 ":" = Ok "+00:59:59.99964"
      /\ Regex.degrees_to_dms (read "0.9999999") 2 ":" = Ok "+00:59:60.00"
      /\ Split.degrees_to_hms (read "14.99999") 2 ":" = Ok "00:59:60.00"
      /\ Regex.degrees_to_hms (read "0.9999999") 2 ":" = Ok "00:59:60.00").
Proof.
  split; [ | split].
  - intros v p delim.
    split; [reflexivity | split; [reflexivity | split; reflexivity]].
  - split; [ | split]; vm_compute; reflexivity.
  - split; [ | split; [ | split; [ | split]]]; vm_compute; reflexivity.
Qed.

(** ** The seconds field *)

(** C7: in the pattern driven implementation [degrees_to_hms] formats the
    seconds with [.0f] at precision 0 and with the fixed width 5 otherwise,
    which gives two digits before the point at precision 2 only: the
    seconds 8.9 are rendered [9] at precision 0, [008.9] at precision 1 and
    [8.900] at precision 3.  [degrees_to_dms] of the same file pads at
    precision 0, and [two_digit_left] of the tokenising implementation pads
    at every precision. *)
Theorem seconds_width_depends_on_precision :
  let hours := (read "8.9" / 3600)%float in
  Regex.degrees_to_hms hours 0 ":" = Ok "00:00:9"
  /\ Regex.degrees_to_hms hours 1 ":" = Ok "00:00:008.9"
  /\ Regex.degrees_to_hms hours 2 ":" = Ok "00:00:08.90"
  /\ Regex.degrees_to_hms hours 3 ":" = Ok "00:00:8.900"
  /\ Regex.degrees_to_dms hours 0 ":" = Ok "+00:00:09"
  /\ Regex.ra_dec_converter "12:30:08.9 +10:20:08.9"
       (call Regex.defaults "hmsdms" "hmsdms" (Some 0%Z) (Some 0%Z))
     = Ok "12 30 9, +10 20 09"
  /\ Split.two_digit_left (read "8.9") 2 = Ok "08.90"
  /\ Split.two_digit_left (read "8.9") 3 = Ok "08.900"
  /\ Split.seconds_field (read "8.9") 0 = Ok "09".
Proof.
  cbv zeta.
  split; [ | split; [ | split; [ | split; [ | split; [ | split; [ | split;
    [ | split]]]]]]]; vm_compute; reflexivity.
Qed.

(** The examples in the documentation of [two_digit_left]. *)
Example two_digit_left_examples :
  Split.two_digit_left 0 2 = Ok "00.00"
  /\ Split.two_digit_left (read "8.9") 2 = Ok "08.90"
  /\ Split.two_digit_left (read "12.34") 2 = Ok "12.34"
  /\ Split.two_digit_left (read "9.999") 2 = Ok "10.00".
Proof.
  split; [ | split; [ | split]]; vm_compute; reflexivity.
Qed.

(** ** The flags [ra_only] and [dec_only] *)

Lemma selected_flags (o : options) (a b : bool) (ra_str dec_str : string) :
  selected (with_flags o a b) ra_str dec_str
  = if a then ra_str else if b then dec_str
    else ra_str ++ ra_dec_delimiter o ++ dec_str.
Proof. reflexivity. Qed.

(** The tokenising converter as a conversion to two strings followed by the
    choice that the flags make. *)
Lemma split_converter_selected (input : string) (o : options) :
  exists parts : result (string * string),
    forall a b,
      Split.ra_dec_converter input (with_flags o a b)
      = do (ra_str, dec_str) <- parts; Ok (selected (with_flags o a b) ra_str dec_str).
Proof.
  unfold Split.ra_dec_converter.
  cbn [with_flags input_format output_format internal_delimiter
       ra_dec_delimiter ra_only dec_only ra_precision dec_precision].
  destruct (Split.split_ra_dec _ _) as [[ra_part dec_part] | e];
    [ | exists (Raise e); reflexivity].
  cbn [bind].
  destruct (Split.parse_to_degrees ra_part true _) as [[ra_val p] | e];
    [ | exists (Raise e); reflexivity].
  cbn [bind].
  destruct (Split.parse_to_degrees dec_part false _) as [[dec_val q] | e];
    [ | exists (Raise e); reflexivity].
  cbn [bind].
  destruct (negb _); [eexists (Raise _); reflexivity | ].
  destruct (negb _); [eexists (Raise _); reflexivity | ].
  match goal with
  | |- context [bind ?r _] => exists r; intros a b; destruct r as [[ra_str dec_str] | e]
  end; [ | reflexivity].
  cbn [bind]. unfold selected. cbn [with_flags ra_only dec_only ra_dec_delimiter].
  destruct a; [reflexivity | destruct b; reflexivity].
Qed.

Lemma finish_selected (o : options) (p q : Z) (ra dec : float) :
  exists parts : result (string * string),
    forall a b,
      Regex.finish (with_flags o a b) p q ra dec
      = do (ra_str, dec_str) <- parts; Ok (selected (with_flags o a b) ra_str dec_str).
Proof.
  unfold Regex.finish.
  cbn [with_flags input_format output_format internal_delimiter
       ra_dec_delimiter ra_only dec_only ra_precision dec_precision].
  match goal with
  | |- context [bind ?r _] => destruct r as [ra' | e]
  end; [ | exists (Raise e); reflexivity].
  cbn [bind].
  destruct (negb _); [eexists (Raise _); reflexivity | ].
  match goal with
  | |- context [bind ?r _] => exists r; intros a b; destruct r as [[ra_str dec_str] | e]
  end; [ | reflexivity].
  cbn [bind]. unfold selected. cbn [with_flags ra_only dec_only ra_dec_delimiter].
  destruct a; [reflexivity | destruct b; reflexivity].
Qed.

Lemma try_patterns_selected ps (o : options) (p q : Z) (s : string) :
  exists parts : result (string * string),
    forall a b,
      Regex.try_patterns ps (with_flags o a b) p q s
      = do (ra_str, dec_str) <- parts; Ok (selected (with_flags o a b) ra_str dec_str).
Proof.
  induction ps as [ | [pattern groups] ps IH]; [exists (Raise NotRecognized); reflexivity | ].
  cbn [Regex.try_patterns].
  cbn [with_flags input_format].
  destruct (Re.re_match pattern s) as [c | ]; [ | exact IH].
  destruct (Nat.eqb groups 2).
  { destruct (String.eqb (input_format o) "hmsdms");
      [exists (Raise LooksDecimal); reflexivity | ].
    destruct (Py.float_of_string (grp c 1)) as [ra | e];
      [ | exists (Raise e); reflexivity].
    destruct (Py.float_of_string (grp c 2)) as [dec | e];
      [ | exists (Raise e); reflexivity].
    cbn [bind]. apply finish_selected. }
  destruct (Nat.eqb groups 6).
  { destruct (Regex.six_groups s (input_format o) (grp c)) as [[ra dec] | e];
      cbn [bind]; [apply finish_selected | exists (Raise e); reflexivity]. }
  destruct (Nat.eqb groups 7); [ | exact IH].
  destruct (Regex.seven_groups s (input_format o) (grp c)) as [[ra dec] | e];
    cbn [bind]; [apply finish_selected | exists (Raise e); reflexivity].
Qed.

Lemma regex_converter_selected (input : string) (o : options) :
  exists parts : result (string * string),
    forall a b,
      Regex.ra_dec_converter input (with_flags o a b)
      = do (ra_str, dec_str) <- parts; Ok (selected (with_flags o a b) ra_str dec_str).
Proof.
  unfold Regex.ra_dec_converter.
  cbn [with_flags input_format output_format internal_delimiter
       ra_dec_delimiter ra_only dec_only ra_precision dec_precision].
  destruct (negb _); [exists (Raise BadInputFormat); reflexivity | ].
  destruct (if String.eqb (output_format o) "degrees" then _ else _)
    as [[p q] | e]; [ | exists (Raise e); reflexivity].
  cbn [bind]. apply try_patterns_selected.
Qed.

Lemma selected_parts (convert : options -> result string) (o : options) :
  (exists parts : result (string * string),
     forall a b,
       convert (with_flags o a b)
       = do (ra_str, dec_str) <- parts; Ok (selected (with_flags o a b) ra_str dec_str)) ->
  flags_select convert o.
Proof.
  intros [parts H]. unfold flags_select. rewrite (H false false).
  destruct parts as [[ra_str dec_str] | e]; cbn [bind].
  - exists ra_str, dec_str. split; [reflexivity | split].
    + intros b. rewrite (H true b). reflexivity.
    + rewrite (H false true). reflexivity.
  - intros a b. rewrite (H a b). reflexivity.
Qed.

(** C8, as stated, fails: with [ra_only] and [dec_only] both set, both
    converters return the RA string. *)
Lemma both_flags_return_ra :
  Split.ra_dec_converter "12:34:56 +45:23:45"
    (with_flags (call Split.defaults "hmsdms" "hmsdms" (Some 2%Z) (Some 2%Z)) true true)
  = Ok "12:34:56.00"
  /\ Regex.ra_dec_converter "12:34:56 +45:23:45"
       (with_flags (call Regex.defaults "hmsdms" "hmsdms" None None) true true)
     = Ok "12 34 56.00".
Proof.
  split; vm_compute; reflexivity.
Qed.

Lemma ra_only_wins_selected (convert : options -> result string) (o : options) :
  (exists parts : result (string * string),
     forall a b,
       convert (with_flags o a b)
       = do (ra_str, dec_str) <- parts; Ok (selected (with_flags o a b) ra_str dec_str)) ->
  ra_only_wins convert o.
Proof.
  intros [parts H]. unfold ra_only_wins.
  rewrite (H true true), (H true false), (H false false), (H false true).
  destruct parts as [[ra_str dec_str] | e]; cbn [bind].
  - split; [reflexivity | ].
    exists ra_str, dec_str. split; [reflexivity | split; reflexivity].
  - split; reflexivity.
Qed.

(** C8, amended: the two flags are not checked against each other, and no
    error is raised for setting both.  With both set, each converter does
    what it does with [ra_only] alone, and it returns the RA string: when the
    call without flags returns a text, that text is the RA string, the
    delimiter and the Dec string, of which [dec_only] alone returns the
    second and both flags together the first; when the call without flags
    raises an error of the conversion, the call with both flags raises the
    same error. *)
Theorem ra_only_takes_precedence (input : string) (o : options) :
  ra_only_wins (Split.ra_dec_converter input) o
  /\ ra_only_wins (Regex.ra_dec_converter input) o.
Proof.
  split.
  - apply ra_only_wins_selected, split_converter_selected.
  - apply ra_only_wins_selected, regex_converter_selected.
Qed.

(** ** Default precisions *)

Lemma try_patterns_finish ps (o : options) (p q : Z) (s out : string) :
  Regex.try_patterns ps o p q s = Ok out ->
  exists ra dec, Regex.finish o p q ra dec = Ok out.
Proof.
  induction ps as [ | [pattern groups] ps IH]; [discriminate | ].
  cbn [Regex.try_patterns].
  destruct (Re.re_match pattern s) as [c | ]; [ | exact IH].
  destruct (Nat.eqb groups 2).
  { destruct (String.eqb (input_format o) "hmsdms"); [discriminate | ].
    intros H. apply bind_ok_inv in H. destruct H as (ra & _ & H).
    apply bind_ok_inv in H. destruct H as (dec & _ & H).
    exists ra, dec. exact H. }
  destruct (Nat.eqb groups 6).
  { intros H. apply bind_ok_inv in H. destruct H as ([ra dec] & _ & H).
    exists ra, dec. exact H. }
  destruct (Nat.eqb groups 7); [ | exact IH].
  intros H. apply bind_ok_inv in H. destruct H as ([ra dec] & _ & H).
  exists ra, dec. exact H.
Qed.

Lemma finish_decimal (o : options) (p q : Z) (ra dec : float) (out : string) :
  output_format o = "degrees" -> (0 < p)%Z -> (0 < q)%Z ->
  Regex.finish o p q ra dec = Ok out ->
  exists ra_str dec_str,
    fixed_point (Z.to_nat p) ra_str /\ fixed_point (Z.to_nat q) dec_str
    /\ out = if ra_only o then ra_str
             else if dec_only o then dec_str
             else ra_str ++ ra_dec_delimiter o ++ dec_str.
Proof.
  intros Hout Hp Hq. unfold Regex.finish. rewrite Hout.
  change (String.eqb "degrees" "degrees") with true. cbv iota.
  set (ra' := if String.eqb (input_format o) "hmsdms" then (ra * 15)%float else ra).
  fold (within ra' 360).
  destruct (within ra' 360) eqn:Hra; [ | discriminate].
  cbn [negb bind].
  destruct ((-90 <=? dec) && (dec <=? 90))%float eqn:Hdec; [ | discriminate].
  cbn [negb]. intros H.
  apply bind_ok_inv in H. destruct H as ([ra_str dec_str] & Hfmt & H).
  apply bind_ok_inv in Hfmt. destruct Hfmt as (ra_str' & Hr & Hfmt).
  apply bind_ok_inv in Hfmt. destruct Hfmt as (dec_str' & Hd & Hfmt).
  injection Hfmt as <- <-.
  exists ra_str', dec_str'.
  split; [ | split].
  - exact (format_f_fixed_point _ _ _ _ _ Hp (within_finite _ _ Hra) Hr).
  - exact (format_f_fixed_point _ _ _ _ _ Hq (dec_range_finite _ Hdec) Hd).
  - destruct (ra_only o); [injection H as <-; reflexivity | ].
    destruct (dec_only o); injection H as <-; reflexivity.
Qed.

(** C9, as stated, fails in the tokenising converter: without a precision
    given, decimal output has as many fractional digits as the seconds field
    of the input, here four on both axes. *)
Lemma split_decimal_precision_from_input :
  Split.ra_dec_converter "12:34:56.7890 +45:23:45.6789" Split.defaults
  = Ok ("188.7366" ++ tab ++ "+45.3960")
  /\ Split.ra_dec_converter "12 +45" Split.defaults = Ok ("180" ++ tab ++ "+45").
Proof.
  split; vm_compute; reflexivity.
Qed.

(** C9, amended: in the pattern driven converter, decimal output without a
    precision given has exactly 7 fractional digits for RA and exactly 6 for
    Dec, whatever input converts.  The tokenising converter takes the
    precision from the input instead. *)
Theorem regex_decimal_default_precision (input : string) (o : options)
    (out : string) :
  output_format o = "degrees" ->
  ra_precision o = None ->
  dec_precision o = None ->
  Regex.ra_dec_converter input o = Ok out ->
  exists ra_str dec_str,
    fixed_point 7 ra_str /\ fixed_point 6 dec_str
    /\ out = if ra_only o then ra_str
             else if dec_only o then dec_str
             else ra_str ++ ra_dec_delimiter o ++ dec_str.
Proof.
  intros Hout Hrp Hdp. unfold Regex.ra_dec_converter.
  destruct (negb _); [discriminate | ].
  rewrite Hout, Hrp, Hdp.
  change (String.eqb "degrees" "degrees") with true. cbn [bind].
  intros H. apply try_patterns_finish in H. destruct H as (ra & dec & H).
  exact (finish_decimal o 7 6 ra dec out Hout eq_refl eq_refl H).
Qed.

Lemma regex_decimal_default_precision_witness :
  let o := call Regex.defaults "hmsdms" "degrees" None None in
  output_format o = "degrees"
  /\ ra_precision o = None
  /\ dec_precision o = None
  /\ Regex.ra_dec_converter "12:34:56.7890 +45:23:45.6789" o
     = Ok "188.7366208, +45.396022"
  /\ exists ra_str dec_str,
      fixed_point 7 ra_str /\ fixed_point 6 dec_str
      /\ "188.7366208, +45.396022" = ra_str ++ ", " ++ dec_str.
Proof.
  intros o.
  assert (H : Regex.ra_dec_converter "12:34:56.7890 +45:23:45.6789" o
              = Ok "188.7366208, +45.396022") by (vm_compute; reflexivity).
  split; [reflexivity | split; [reflexivity | split; [reflexivity | ]]].
  split; [exact H | ].
  exact (regex_decimal_default_precision _ o _ eq_refl eq_refl eq_refl H).
Defined.

(** In the tokenising converter, decimal output without a precision given
    has the precision that [parse_to_degrees] infers from each axis of the
    input. *)
Lemma split_decimal_precision_inferred (input : string) (o : options)
    (out : string) :
  output_format o = "degrees" ->
  ra_precision o = None ->
  dec_precision o = None ->
  Split.ra_dec_converter input o = Ok out ->
  exists ra_part dec_part ra_val p dec_val q ra_str dec_str,
    Split.split_ra_dec (clean input) (input_format o) = Ok (ra_part, dec_part)
    /\ Split.parse_to_degrees ra_part true (input_format o) = Ok (ra_val, p)
    /\ Split.parse_to_degrees dec_part false (input_format o) = Ok (dec_val, q)
    /\ ((0 < p)%Z -> fixed_point (Z.to_nat p) ra_str)
    /\ ((0 < q)%Z -> fixed_point (Z.to_nat q) dec_str)
    /\ out = if ra_only o then ra_str
             else if dec_only o then dec_str
             else ra_str ++ ra_dec_delimiter o ++ dec_str.
Proof.
  intros Hout Hrp Hdp. unfold Split.ra_dec_converter. fold (clean input).
  rewrite Hout, Hrp, Hdp.
  change (String.eqb "degrees" "degrees") with true. cbv iota.
  intros H.
  apply bind_ok_inv in H. destruct H as ([ra_part dec_part] & Hsplit & H).
  apply bind_ok_inv in H. destruct H as ([ra_val p] & Hra & H).
  apply bind_ok_inv in H. destruct H as ([dec_val q] & Hdec & H).
  fold (within ra_val 360) in H.
  destruct (within ra_val 360) eqn:Hrange; [ | discriminate].
  cbn [negb] in H.
  destruct ((-90 <=? dec_val) && (dec_val <=? 90))%float eqn:Hdrange;
    [ | discriminate].
  cbn [negb] in H.
  apply bind_ok_inv in H. destruct H as ([ra_str dec_str] & Hfmt & H).
  apply bind_ok_inv in Hfmt. destruct Hfmt as (ra_str' & Hr & Hfmt).
  apply bind_ok_inv in Hfmt. destruct Hfmt as (dec_str' & Hd & Hfmt).
  injection Hfmt as <- <-.
  exists ra_part, dec_part, ra_val, p, dec_val, q, ra_str', dec_str'.
  split; [exact Hsplit | split; [exact Hra | split; [exact Hdec | ]]].
  split; [ | split].
  - intros Hp.
    exact (format_f_fixed_point _ _ _ _ _ Hp (within_finite _ _ Hrange) Hr).
  - intros Hq.
    exact (format_f_fixed_point _ _ _ _ _ Hq (dec_range_finite _ Hdrange) Hd).
  - destruct (ra_only o); [injection H as <-; reflexivity | ].
    destruct (dec_only o); injection H as <-; reflexivity.
Qed.

(** * Further properties *)

(** ** The regular expression engine on classes *)

Lemma length_drop_while f s : String.length (drop_while f s) <= String.length s.
Proof.
  induction s as [ | c s IH]; [apply le_n | ].
  cbn [drop_while]. destruct (f c); cbn [String.length]; lia.
Qed.

Lemma run_class (A : Type) (f : ascii -> bool) prev c s cs (k : Re.cont A) :
  Re.run A (Re.Cls f) prev (String c s) cs k = if f c then k (Some c) s cs else None.
Proof. reflexivity. Qed.

Lemma run_class_end (A : Type) (f : ascii -> bool) prev cs (k : Re.cont A) :
  Re.run A (Re.Cls f) prev "" cs k = None.
Proof. reflexivity. Qed.

(** The greedy repetition of a class before a continuation that accepts. *)
Lemma rep_class_greedy (A : Type) (f : ascii -> bool) (k : Re.cont A) (s : string) :
  forall n prev cs,
    (forall p t c, exists a, k p t c = Some a) ->
    String.length s <= n ->
    exists p, Re.rep_loop A (Re.run A (Re.Cls f)) true 0 n prev s cs k
              = k p (drop_while f s) cs.
Proof.
  induction s as [ | c s IH]; intros n prev cs Hk Hn.
  - destruct n; cbn [Re.rep_loop drop_while]; [ | rewrite run_class_end];
      exists prev; reflexivity.
  - destruct n as [ | n]; [cbn [String.length] in Hn; lia | ].
    cbn [Re.rep_loop drop_while]. rewrite run_class. destruct (f c) eqn:Hc.
    + cbn [Nat.eqb andb String.length].
      replace (Nat.eqb (String.length s) (S (String.length s))) with false
        by (symmetry; apply Nat.eqb_neq; lia).
      cbn [Nat.pred].
      destruct (IH n (Some c) cs Hk) as [p Hp]; [cbn [String.length] in Hn; lia | ].
      exists p. rewrite Hp. destruct (Hk p (drop_while f s) cs) as [a Ha].
      rewrite Ha. reflexivity.
    + exists prev. reflexivity.
Qed.

Lemma rep_loop_required (A : Type) (step : Re.matcher A) n prev s cs (k : Re.cont A) :
  Re.rep_loop A step true 1 (S n) prev s cs k
  = step prev s cs (fun p' s' cs' => Re.rep_loop A step true 0 n p' s' cs' k).
Proof. reflexivity. Qed.

Lemma match_here_plus (f : ascii -> bool) (prev : option ascii) (s : string) :
  Re.match_here (Re.plus (Re.Cls f)) prev s
  = Re.rep_loop _ (Re.run _ (Re.Cls f)) true 1 (S (String.length s)) prev s []
      (fun prev' s' _ => Some (prev', s')).
Proof. reflexivity. Qed.

Lemma match_here_plus_class (f : ascii -> bool) (prev : option ascii) (c : ascii) (s : string) :
  f c = true ->
  exists p, Re.match_here (Re.plus (Re.Cls f)) prev (String c s) = Some (p, drop_while f s).
Proof.
  intros Hc. rewrite match_here_plus, rep_loop_required, run_class, Hc.
  apply (rep_class_greedy _ f (fun prev' s' _ => Some (prev', s')) s).
  - intros p t c0. eexists. reflexivity.
  - cbn [String.length]. lia.
Qed.

Lemma match_here_plus_class_fail (f : ascii -> bool) (prev : option ascii) (c : ascii) (s : string) :
  f c = false ->
  Re.match_here (Re.plus (Re.Cls f)) prev (String c s) = None.
Proof.
  intros Hc. rewrite match_here_plus, rep_loop_required, run_class, Hc. reflexivity.
Qed.

Lemma match_here_plus_end (f : ascii -> bool) (prev : option ascii) :
  Re.match_here (Re.plus (Re.Cls f)) prev "" = None.
Proof. reflexivity. Qed.

(** re.split at the runs of a class agrees with the pieces, up to the empty pieces *)
Lemma filter_pieces_drop (f : ascii -> bool) (s : string) :
  filter non_empty (pieces f (drop_while f s) "") = filter non_empty (pieces f s "").
Proof.
  induction s as [ | c s IH]; [reflexivity | ].
  cbn [drop_while pieces]. destruct (f c) eqn:Hc.
  - cbn [filter non_empty]. exact IH.
  - cbn [pieces]. rewrite Hc. reflexivity.
Qed.

Lemma split_loop_pieces (f : ascii -> bool) (fuel : nat) : forall prev s cur,
  String.length s < fuel ->
  filter non_empty (Re.split_loop (Re.plus (Re.Cls f)) fuel prev s cur)
  = filter non_empty (pieces f s cur).
Proof.
  induction fuel as [ | fuel IH]; intros prev s cur Hfuel; [inversion Hfuel | ].
  destruct s as [ | c s].
  - reflexivity.
  - cbn [Re.split_loop pieces]. destruct (f c) eqn:Hc.
    + destruct (match_here_plus_class f prev c s Hc) as [p Hp]. rewrite Hp.
      pose proof (length_drop_while f s) as Hlen.
      replace (Nat.ltb (String.length (drop_while f s)) (String.length (String c s)))
        with true by (symmetry; apply Nat.ltb_lt; cbn [String.length]; lia).
      cbn [filter]. rewrite IH; [ | cbn [String.length] in Hfuel; lia].
      rewrite filter_pieces_drop. reflexivity.
    + rewrite (match_here_plus_class_fail f prev c s Hc).
      apply IH. cbn [String.length] in Hfuel. lia.
Qed.

Lemma re_split_pieces (f : ascii -> bool) (s : string) :
  filter non_empty (Re.re_split (Re.plus (Re.Cls f)) s)
  = filter non_empty (pieces f s "").
Proof. unfold Re.re_split. apply split_loop_pieces. lia. Qed.

Lemma sub_loop_blank (s : string) : forall fuel prev,
  String.length s < fuel ->
  Re.sub_loop Split.unit_marker " " fuel prev s = map_chars blank s.
Proof.
  induction s as [ | c s IH]; intros fuel prev Hfuel;
    (destruct fuel as [ | fuel]; [inversion Hfuel | ]); [reflexivity | ].
  cbn [Re.sub_loop map_chars]. unfold Re.match_here, Split.unit_marker.
  rewrite run_class. fold (marker c). fold Split.unit_marker. unfold blank at 1.
  cbn [String.length] in Hfuel.
  destruct (marker c).
  - replace (Nat.ltb (String.length s) (String.length (String c s))) with true
      by (symmetry; apply Nat.ltb_lt; cbn [String.length]; lia).
    cbn [append]. rewrite IH; [reflexivity | lia].
  - rewrite IH; [reflexivity | lia].
Qed.

Lemma pieces_blank (s : string) : forall cur,
  pieces separator (map_chars blank s) cur = pieces breaks s cur.
Proof.
  induction s as [ | c s IH]; intros cur; [reflexivity | ].
  cbn [map_chars pieces]. unfold blank, breaks at 1.
  destruct (marker c) eqn:Hm.
  - change (separator " ") with true. cbn [orb]. rewrite IH. reflexivity.
  - cbn [orb]. rewrite !IH. reflexivity.
Qed.

Lemma space_is_separator (c : ascii) : Str.is_space c = true -> separator c = true.
Proof. intros H. unfold separator. rewrite H. apply orb_true_r. Qed.

Lemma filter_pieces_lstrip (s : string) :
  filter non_empty (pieces separator (Str.lstrip s) "")
  = filter non_empty (pieces separator s "").
Proof.
  induction s as [ | c s IH]; [reflexivity | ].
  cbn [Str.lstrip]. destruct (Str.is_space c) eqn:Hc; [ | reflexivity].
  cbn [pieces]. rewrite (space_is_separator c Hc). cbn [filter non_empty]. exact IH.
Qed.

Lemma filter_pieces_rstrip (s : string) : forall cur,
  filter non_empty (pieces separator (Str.rstrip s) cur)
  = filter non_empty (pieces separator s cur).
Proof.
  induction s as [ | c s IH]; intros cur; [reflexivity | ].
  cbn [Str.rstrip]. destruct (Str.rstrip s) as [ | d t] eqn:Hr.
  - cbn [pieces]. destruct (Str.is_space c) eqn:Hc.
    + rewrite (space_is_separator c Hc). cbn [pieces filter].
      rewrite <- (IH ""). reflexivity.
    + cbn [pieces]. destruct (separator c).
      * cbn [filter]. rewrite <- (IH ""). reflexivity.
      * rewrite <- IH. reflexivity.
  - cbn [pieces]. destruct (separator c).
    + cbn [filter]. rewrite <- (IH ""). reflexivity.
    + rewrite <- IH. reflexivity.
Qed.

Lemma filter_pieces_strip (s : string) :
  filter non_empty (pieces separator (Str.strip s) "")
  = filter non_empty (pieces separator s "").
Proof.
  unfold Str.strip. rewrite filter_pieces_rstrip. apply filter_pieces_lstrip.
Qed.

Lemma length_map_chars g s : String.length (map_chars g s) = String.length s.
Proof. induction s as [ | c s IH]; [reflexivity | cbn [map_chars String.length]; rewrite IH; reflexivity]. Qed.

Lemma tokens_are_runs (coord_str : string) : Split.tokens_of coord_str = runs coord_str.
Proof.
  unfold Split.tokens_of, Re.re_sub, runs.
  rewrite sub_loop_blank; [ | lia].
  change (filter (fun t => negb (String.eqb t "")) ?l) with (filter non_empty l).
  unfold Split.colon_or_space. 
  change (Re.Cls (fun c => Ascii.eqb c ":" || Str.is_space c)) with (Re.Cls separator).
  rewrite re_split_pieces, filter_pieces_strip, pieces_blank. reflexivity.
Qed.

(** ** The tokens of an axis *)

Lemma plain_not_breaks (c : ascii) : plain c = true -> breaks c = false.
Proof.
  unfold plain, breaks. intros H. apply andb_prop in H. destruct H as [Hm Hs].
  apply negb_true_iff in Hm. apply negb_true_iff in Hs. rewrite Hm, Hs. reflexivity.
Qed.

Lemma pieces_field (t : string) : forall rest cur,
  all_chars plain t = true ->
  pieces breaks (t ++ rest) cur = pieces breaks rest (cur ++ t).
Proof.
  induction t as [ | c t IH]; intros rest cur Ht.
  - cbn [append]. rewrite app_nil_r_s. reflexivity.
  - cbn [all_chars] in Ht. apply andb_prop in Ht. destruct Ht as [Hc Ht].
    cbn [append pieces]. rewrite (plain_not_breaks c Hc), (IH _ _ Ht), app_assoc_s.
    reflexivity.
Qed.

Lemma filter_pieces_gap (g : string) : forall rest,
  all_chars breaks g = true ->
  filter non_empty (pieces breaks (g ++ rest) "")
  = filter non_empty (pieces breaks rest "").
Proof.
  induction g as [ | c g IH]; intros rest Hg; [reflexivity | ].
  cbn [all_chars] in Hg. apply andb_prop in Hg. destruct Hg as [Hc Hg].
  cbn [append pieces]. rewrite Hc. cbn [filter non_empty]. apply IH, Hg.
Qed.

Lemma field_non_empty (t : string) : field t -> non_empty t = true.
Proof.
  intros [Hne _]. unfold non_empty. destruct (String.eqb_spec t ""); [contradiction | ].
  reflexivity.
Qed.

Lemma runs_laid_out (parts : list (string * string)) : forall tail,
  all_chars breaks tail = true ->
  well_laid false parts ->
  forall t, field t ->
    filter non_empty (pieces breaks (laid_out parts tail) t) = t :: map snd parts.
Proof.
  induction parts as [ | [gap fld] parts IH]; intros tail Htail Hw t Ht.
  - cbn [laid_out map]. destruct tail as [ | c tail].
    + cbn [pieces filter]. rewrite (field_non_empty t Ht). reflexivity.
    + cbn [all_chars] in Htail. apply andb_prop in Htail. destruct Htail as [Hc Htail].
      cbn [pieces]. rewrite Hc. cbn [filter]. rewrite (field_non_empty t Ht).
      rewrite <- (app_nil_r_s tail), (filter_pieces_gap tail "" Htail). reflexivity.
  - cbn [well_laid] in Hw. destruct Hw as (Hgap & Hne & Hfld & Hw).
    cbn [laid_out map snd].
    destruct gap as [ | c gap]; [contradiction (Hne eq_refl); reflexivity | ].
    cbn [all_chars] in Hgap. apply andb_prop in Hgap. destruct Hgap as [Hc Hgap].
    cbn [append pieces]. rewrite Hc. cbn [filter]. rewrite (field_non_empty t Ht).
    f_equal. rewrite (filter_pieces_gap gap _ Hgap).
    destruct Hfld as [Hfne Hfplain].
    rewrite (pieces_field fld _ "" Hfplain). cbn [append].
    apply IH; [exact Htail | exact Hw | split; assumption].
Qed.

(** The tokens of a layout of fields are its fields, whatever the gaps:
    colons, blanks and unit markers, in any order and number. *)
Lemma tokens_of_laid_out (parts : list (string * string)) (tail : string) :
  well_laid true parts ->
  all_chars breaks tail = true ->
  Split.tokens_of (laid_out parts tail) = map snd parts.
Proof.
  intros Hw Htail. rewrite tokens_are_runs. unfold runs.
  destruct parts as [ | [gap fld] parts].
  - cbn [laid_out map]. rewrite <- (app_nil_r_s tail).
    rewrite (filter_pieces_gap tail "" Htail). reflexivity.
  - cbn [well_laid] in Hw. destruct Hw as (Hgap & _ & Hfld & Hw).
    cbn [laid_out map snd]. rewrite (filter_pieces_gap gap _ Hgap).
    destruct Hfld as [Hfne Hfplain].
    rewrite (pieces_field fld _ "" Hfplain). cbn [append].
    apply runs_laid_out; [exact Htail | exact Hw | split; assumption].
Qed.

Lemma all_chars_lstrip (f : ascii -> bool) (s : string) :
  all_chars f s = true -> all_chars f (Str.lstrip s) = true.
Proof.
  induction s as [ | c s IH]; [reflexivity | ].
  intros H. cbn [Str.lstrip]. destruct (Str.is_space c); [ | exact H].
  cbn [all_chars] in H. apply andb_prop in H. apply IH, H.
Qed.

Lemma all_chars_rstrip (f : ascii -> bool) (s : string) :
  all_chars f s = true -> all_chars f (Str.rstrip s) = true.
Proof.
  induction s as [ | c s IH]; [reflexivity | ].
  intros H. cbn [all_chars] in H. apply andb_prop in H. destruct H as [Hc Hs].
  cbn [Str.rstrip]. specialize (IH Hs).
  destruct (Str.rstrip s) as [ | d t].
  - destruct (Str.is_space c); [reflexivity | ].
    cbn [all_chars]. rewrite Hc. reflexivity.
  - cbn [all_chars] in IH |- *. rewrite Hc, IH. reflexivity.
Qed.

Lemma all_chars_strip (f : ascii -> bool) (s : string) :
  all_chars f s = true -> all_chars f (Str.strip s) = true.
Proof. intros H. apply all_chars_rstrip, all_chars_lstrip, H. Qed.

Lemma runs_of_breaks (s : string) : all_chars breaks s = true -> runs s = [].
Proof.
  intros H. unfold runs. rewrite <- (app_nil_r_s s).
  rewrite (filter_pieces_gap s "" H). reflexivity.
Qed.

(** X1: [parse_hms_or_dms] scans its argument for the maximal runs of
    characters that are no unit marker (the letters h, d, m, s in both cases,
    the degree sign, the single and the double quote), no colon and no white
    space; it returns the first three runs, and writes [0] for each run that
    is missing. *)
Theorem parse_hms_or_dms_reads_runs (coord_str : string) :
  exists a b c,
    zero_filled (runs coord_str) = [a; b; c]
    /\ Split.parse_hms_or_dms coord_str = (a, b, c).
Proof.
  unfold Split.parse_hms_or_dms. rewrite tokens_are_runs.
  destruct (runs coord_str) as [ | t0 [ | t1 [ | t2 ts]]];
    do 3 eexists; split; reflexivity.
Qed.

Lemma three_fields_laid_out (g0 h g1 m g2 s g3 : string) :
  field h -> field m -> field s ->
  all_chars breaks g0 = true -> all_chars breaks g1 = true ->
  all_chars breaks g2 = true -> all_chars breaks g3 = true ->
  g1 <> "" -> g2 <> "" ->
  Split.parse_hms_or_dms (g0 ++ h ++ g1 ++ m ++ g2 ++ s ++ g3) = (h, m, s).
Proof.
  intros Hh Hm Hs H0 H1 H2 H3 Hn1 Hn2.
  unfold Split.parse_hms_or_dms.
  change (g0 ++ h ++ g1 ++ m ++ g2 ++ s ++ g3)
    with (laid_out [(g0, h); (g1, m); (g2, s)] g3).
  rewrite tokens_of_laid_out; [reflexivity | | exact H3].
  cbn [well_laid].
  split; [exact H0 | split; [discriminate | split; [exact Hh | ]]].
  split; [exact H1 | split; [intros _; exact Hn1 | split; [exact Hm | ]]].
  split; [exact H2 | split; [intros _; exact Hn2 | split; [exact Hs | exact I]]].
Qed.

(** X2: unit markers, colons and white space are interchangeable between the
    fields of an axis: three fields with any such characters before them,
    between them (at least one) and after them are read as these three
    fields. *)
Theorem fields_between_any_gaps (g0 h g1 m g2 s g3 : string) :
  field h -> field m -> field s ->
  all_chars breaks g0 = true -> all_chars breaks g1 = true ->
  all_chars breaks g2 = true -> all_chars breaks g3 = true ->
  g1 <> "" -> g2 <> "" ->
  Split.parse_hms_or_dms (g0 ++ h ++ g1 ++ m ++ g2 ++ s ++ g3) = (h, m, s).
Proof. exact (three_fields_laid_out g0 h g1 m g2 s g3). Qed.

Lemma fields_between_any_gaps_witness :
  field "12" /\ field "34" /\ field "56.7"
  /\ Split.parse_hms_or_dms "12h34m56.7s" = ("12", "34", "56.7")
  /\ Split.parse_hms_or_dms " 12 : 34 : 56.7" = ("12", "34", "56.7")
  /\ Split.parse_hms_or_dms "12s 34s 56.7h" = ("12", "34", "56.7").
Proof.
  assert (F1 : field "12") by (split; [discriminate | reflexivity]).
  assert (F2 : field "34") by (split; [discriminate | reflexivity]).
  assert (F3 : field "56.7") by (split; [discriminate | reflexivity]).
  split; [exact F1 | split; [exact F2 | split; [exact F3 | ]]].
  split; [ | split].
  - exact (fields_between_any_gaps "" "12" "h" "34" "m" "56.7" "s" F1 F2 F3
             eq_refl eq_refl eq_refl eq_refl
             ltac:(discriminate) ltac:(discriminate)).
  - exact (fields_between_any_gaps " " "12" " : " "34" " : " "56.7" "" F1 F2 F3
             eq_refl eq_refl eq_refl eq_refl
             ltac:(discriminate) ltac:(discriminate)).
  - exact (fields_between_any_gaps "" "12" "s " "34" "s " "56.7" "h" F1 F2 F3
             eq_refl eq_refl eq_refl eq_refl
             ltac:(discriminate) ltac:(discriminate)).
Defined.

(** X3: an axis without any field, the empty one or one made of unit markers,
    colons and white space only, is read under [hmsdms] as the angle 0 with
    the precision 0, for RA and for Dec; no error is raised. *)
Theorem axis_without_fields_is_zero (coord_str : string) (is_ra : bool) :
  all_chars breaks coord_str = true ->
  Split.parse_to_degrees coord_str is_ra "hmsdms" = Ok (0%float, 0%Z).
Proof.
  intros H. unfold Split.parse_to_degrees.
  change (String.eqb "hmsdms" "casa") with false.
  change (String.eqb "hmsdms" "hmsdms") with true. cbv iota.
  unfold Split.parse_hms_or_dms.
  rewrite tokens_are_runs, (runs_of_breaks _ (all_chars_strip _ _ H)).
  destruct is_ra; vm_compute; reflexivity.
Qed.

Lemma axis_without_fields_is_zero_witness :
  all_chars breaks "" = true
  /\ all_chars breaks " h m s" = true
  /\ Split.parse_to_degrees "" true "hmsdms" = Ok (0%float, 0%Z)
  /\ Split.parse_to_degrees " h m s" false "hmsdms" = Ok (0%float, 0%Z)
  /\ Split.ra_dec_converter "+45" Split.defaults = Ok ("0" ++ tab ++ "+45").
Proof.
  split; [reflexivity | split; [reflexivity | ]].
  split; [exact (axis_without_fields_is_zero "" true eq_refl) | ].
  split; [exact (axis_without_fields_is_zero " h m s" false eq_refl) | ].
  vm_compute. reflexivity.
Defined.

(** ** Precision and colon fields *)

Lemma last_split_on (sep : ascii) (b : string) (d : string) : forall a,
  Str.mem sep b = false ->
  exists p q ps, Str.split_on sep (a ++ String sep b) = p :: q :: ps
                 /\ last (q :: ps) d = b.
Proof.
  intros a Hb. induction a as [ | c a IH].
  - cbn [append Str.split_on]. rewrite Ascii.eqb_refl.
    rewrite (split_on_no_sep sep b Hb). exists "", b, []. split; reflexivity.
  - destruct IH as (p & q & ps & E & L).
    cbn [append Str.split_on]. rewrite E.
    destruct (Ascii.eqb c sep).
    + exists "", p, (q :: ps). split; [reflexivity | exact L].
    + exists (String c p), q, ps. split; [reflexivity | exact L].
Qed.

Lemma mem_dot_app (a b : string) : Str.mem "." (a ++ "." ++ b) = true.
Proof.
  rewrite mem_app. cbn [append Str.mem]. rewrite Ascii.eqb_refl.
  cbn [orb]. apply orb_true_r.
Qed.

Lemma precision_after_dot (a b : string) :
  Str.mem "." b = false ->
  Split.determine_precision (a ++ "." ++ b) = Z.of_nat (String.length b).
Proof.
  intros Hb. unfold Split.determine_precision.
  rewrite mem_dot_app. cbn [negb].
  destruct (last_split_on "." b "" a Hb) as (p & q & ps & E & L).
  cbn [append]. rewrite E.
  change (last (p :: q :: ps) "") with (last (q :: ps) ""). rewrite L. reflexivity.
Qed.

Lemma precision_without_dot (b : string) :
  Str.mem "." b = false -> Split.determine_precision b = 0%Z.
Proof. intros Hb. unfold Split.determine_precision. rewrite Hb. reflexivity. Qed.

(** X4: [determine_precision] counts the characters after the last point of
    its argument, and gives 0 when there is no point. *)
Theorem determine_precision_counts (a b : string) :
  Str.mem "." b = false ->
  Split.determine_precision (a ++ "." ++ b) = Z.of_nat (String.length b)
  /\ Split.determine_precision b = 0%Z.
Proof.
  intros Hb. split; [apply precision_after_dot, Hb | apply precision_without_dot, Hb].
Qed.

Lemma determine_precision_counts_witness :
  Str.mem "." "7890" = false
  /\ Split.determine_precision "56.7890" = 4%Z
  /\ Split.determine_precision "1.2.34" = 2%Z
  /\ Split.determine_precision "7890" = 0%Z.
Proof.
  split; [reflexivity | ].
  split; [exact (proj1 (determine_precision_counts "56" "7890" eq_refl)) | ].
  split; [exact (proj1 (determine_precision_counts "1.2" "34" eq_refl)) | ].
  exact (proj2 (determine_precision_counts "56" "7890" eq_refl)).
Defined.

Lemma split_on_not_nil (sep : ascii) (s : string) : Str.split_on sep s <> [].
Proof.
  destruct s as [ | c s]; [discriminate | ].
  cbn [Str.split_on]. destruct (Ascii.eqb c sep); [discriminate | ].
  destruct (Str.split_on sep s); discriminate.
Qed.

Lemma join_split_on (sep : ascii) (s : string) :
  Str.join (String sep "") (Str.split_on sep s) = s.
Proof.
  induction s as [ | c s IH]; [reflexivity | ].
  pose proof (split_on_not_nil sep s) as Hn.
  cbn [Str.split_on]. destruct (Ascii.eqb_spec c sep) as [-> | Hc].
  - destruct (Str.split_on sep s) as [ | p ps] eqn:E; [contradiction | ].
    change (Str.join (String sep "") ("" :: p :: ps))
      with ("" ++ String sep "" ++ Str.join (String sep "") (p :: ps)).
    rewrite IH. reflexivity.
  - destruct (Str.split_on sep s) as [ | p ps] eqn:E; [contradiction | ].
    destruct ps as [ | q ps].
    + cbn [Str.join] in *. subst s. reflexivity.
    + change (Str.join (String sep "") (String c p :: q :: ps))
        with (String c (p ++ String sep "" ++ Str.join (String sep "") (q :: ps))).
      change (Str.join (String sep "") (p :: q :: ps))
        with (p ++ String sep "" ++ Str.join (String sep "") (q :: ps)) in IH.
      rewrite IH. reflexivity.
Qed.

Lemma split_on_pieces_no_sep (sep : ascii) (s : string) :
  Forall (fun p => Str.mem sep p = false) (Str.split_on sep s).
Proof.
  induction s as [ | c s IH]; [repeat constructor | ].
  cbn [Str.split_on]. destruct (Ascii.eqb c sep) eqn:Hc.
  - constructor; [reflexivity | exact IH].
  - destruct (Str.split_on sep s) as [ | p ps].
    + repeat constructor. cbn [Str.mem]. rewrite Ascii.eqb_sym, Hc. reflexivity.
    + inversion IH as [ | ? ? Hp Hps]; subst. constructor; [ | exact Hps].
      cbn [Str.mem]. rewrite Ascii.eqb_sym, Hc, Hp. reflexivity.
Qed.

(** X5: [parse_ra_colon_strict] returns three fields exactly when its argument
    is three texts without a colon joined by two colons, and the fields are
    these texts, empty ones included; every error that it raises is the one
    on the number of colon fields. *)
Theorem parse_ra_colon_strict_spec (ra_str : string) :
  (forall a b c,
      Split.parse_ra_colon_strict ra_str = Ok (a, b, c)
      <-> ra_str = a ++ ":" ++ b ++ ":" ++ c
          /\ Str.mem ":" a = false /\ Str.mem ":" b = false
          /\ Str.mem ":" c = false)
  /\ (forall e, Split.parse_ra_colon_strict ra_str = Raise e
                -> e = CasaRaFields ra_str).
Proof.
  split.
  - intros a b c. unfold Split.parse_ra_colon_strict. split.
    + intros H.
      pose proof (join_split_on ":" ra_str) as Hj.
      pose proof (split_on_pieces_no_sep ":" ra_str) as Hp.
      destruct (Str.split_on ":" ra_str) as [ | p0 [ | p1 [ | p2 [ | p3 ps]]]];
        try discriminate H.
      injection H as -> -> ->.
      apply Forall_cons_iff in Hp. destruct Hp as [Ha Hp].
      apply Forall_cons_iff in Hp. destruct Hp as [Hb Hp].
      apply Forall_cons_iff in Hp. destruct Hp as [Hc _].
      split; [symmetry; exact Hj | repeat split; assumption].
    + intros (-> & Ha & Hb & Hc).
      change (a ++ ":" ++ b ++ ":" ++ c) with (a ++ String ":" (b ++ String ":" c)).
      rewrite (split_on_app ":" a _ Ha), (split_on_app ":" b _ Hb).
      rewrite (split_on_no_sep ":" c Hc). reflexivity.
  - intros e. unfold Split.parse_ra_colon_strict.
    destruct (Str.split_on ":" ra_str) as [ | p0 [ | p1 [ | p2 [ | p3 ps]]]];
      intros H; try discriminate H; injection H as <-; reflexivity.
Qed.

(** ** Format names *)

Lemma split_ra_dec_other (s fmt : string) :
  String.eqb fmt "casa" = false -> String.eqb fmt "hmsdms" = false ->
  Split.split_ra_dec s fmt = Split.split_ra_dec s "degrees".
Proof.
  intros Hc Hh. unfold Split.split_ra_dec. rewrite Hc, Hh. reflexivity.
Qed.

Lemma parse_to_degrees_other (c fmt : string) (is_ra : bool) :
  String.eqb fmt "casa" = false -> String.eqb fmt "hmsdms" = false ->
  Split.parse_to_degrees c is_ra fmt = Split.parse_to_degrees c is_ra "degrees".
Proof.
  intros Hc Hh. unfold Split.parse_to_degrees. rewrite Hc, Hh. reflexivity.
Qed.

(** X6: the tokenising converter does not validate the names of the formats:
    an input format other than [casa] and [hmsdms] is handled as [degrees],
    and an output format other than [degrees] and [hmsdms] as [casa]. *)
Theorem split_format_names_unchecked (input : string) (o : options) :
  (input_format o <> "casa" -> input_format o <> "hmsdms" ->
   Split.ra_dec_converter input o
   = Split.ra_dec_converter input (with_formats o "degrees" (output_format o)))
  /\ (output_format o <> "degrees" -> output_format o <> "hmsdms" ->
      Split.ra_dec_converter input o
      = Split.ra_dec_converter input (with_formats o (input_format o) "casa")).
Proof.
  split.
  - intros Hc Hh. apply String.eqb_neq in Hc. apply String.eqb_neq in Hh.
    unfold Split.ra_dec_converter.
    cbn [with_formats call input_format output_format internal_delimiter
         ra_dec_delimiter ra_only dec_only ra_precision dec_precision].
    rewrite (split_ra_dec_other _ _ Hc Hh).
    destruct (Split.split_ra_dec _ "degrees") as [[ra_part dec_part] | e];
      [ | reflexivity].
    cbn [bind].
    rewrite !(parse_to_degrees_other _ _ _ Hc Hh). reflexivity.
  - intros Hd Hh. apply String.eqb_neq in Hd. apply String.eqb_neq in Hh.
    unfold Split.ra_dec_converter.
    cbn [with_formats call input_format output_format internal_delimiter
         ra_dec_delimiter ra_only dec_only ra_precision dec_precision].
    rewrite Hd, Hh.
    change (String.eqb "casa" "degrees") with false.
    change (String.eqb "casa" "hmsdms") with false. reflexivity.
Qed.

Lemma split_format_names_unchecked_witness :
  let o := call Split.defaults "radians" "json" None None in
  input_format o <> "casa" /\ input_format o <> "hmsdms"
  /\ output_format o <> "degrees" /\ output_format o <> "hmsdms"
  /\ Split.ra_dec_converter "12.5 +45.25" o
     = Split.ra_dec_converter "12.5 +45.25" (with_formats o "degrees" "json")
  /\ Split.ra_dec_converter "12.5 +45.25" o
     = Split.ra_dec_converter "12.5 +45.25" (with_formats o "radians" "casa")
  /\ Split.ra_dec_converter "12.5 +45.25" o = Ok ("00:50:00.0" ++ tab ++ "+45.15.0.00")
  /\ Regex.ra_dec_converter "12.5 +45.25" o = Raise BadInputFormat.
Proof.
  intros o.
  assert (H1 : input_format o <> "casa") by discriminate.
  assert (H2 : input_format o <> "hmsdms") by discriminate.
  assert (H3 : output_format o <> "degrees") by discriminate.
  assert (H4 : output_format o <> "hmsdms") by discriminate.
  split; [exact H1 | split; [exact H2 | split; [exact H3 | split; [exact H4 | ]]]].
  split; [exact (proj1 (split_format_names_unchecked "12.5 +45.25" o) H1 H2) | ].
  split; [exact (proj2 (split_format_names_unchecked "12.5 +45.25" o) H3 H4) | ].
  split; vm_compute; reflexivity.
Defined.

(** ** Inputs without text *)

Lemma lstrip_spaces (s : string) :
  all_chars Str.is_space s = true -> Str.lstrip s = "".
Proof.
  induction s as [ | c s IH]; [reflexivity | ].
  cbn [all_chars Str.lstrip]. intros H. apply andb_prop in H. destruct H as [Hc Hs].
  rewrite Hc. exact (IH Hs).
Qed.

Lemma strip_spaces (s : string) :
  all_chars Str.is_space s = true -> Str.strip s = "".
Proof. intros H. unfold Str.strip. rewrite (lstrip_spaces s H). reflexivity. Qed.

Lemma clean_spaces (s : string) : all_chars Str.is_space s = true -> clean s = "".
Proof. intros H. unfold clean. rewrite (strip_spaces s H). reflexivity. Qed.

(** X7: an input of white space only, the empty one included, is rejected by
    both converters: the tokenising one raises the error of [split_ra_dec]
    for its input format, on the empty text; the pattern driven one, called
    with format names that it accepts, raises the error of an input that is
    not recognised. *)
Theorem input_without_text_is_rejected (input : string) (o : options) :
  all_chars Str.is_space input = true ->
  Split.ra_dec_converter input o = Raise (no_text_error (input_format o))
  /\ (In (input_format o) ["hmsdms"; "degrees"] ->
      In (output_format o) ["degrees"; "hmsdms"] ->
      Regex.ra_dec_converter input o = Raise NotRecognized).
Proof.
  intros H. split.
  - unfold Split.ra_dec_converter. fold (clean input). rewrite (clean_spaces input H).
    unfold no_text_error, Split.split_ra_dec.
    destruct (String.eqb (input_format o) "casa"); [reflexivity | ].
    destruct (String.eqb (input_format o) "hmsdms"); reflexivity.
  - intros Hin Hout.
    unfold Regex.ra_dec_converter. fold (clean input). rewrite (clean_spaces input H).
    destruct Hin as [<- | [<- | []]]; destruct Hout as [<- | [<- | []]];
      reflexivity.
Qed.

Lemma input_without_text_is_rejected_witness :
  all_chars Str.is_space "   " = true
  /\ Split.ra_dec_converter "   " Split.defaults = Raise (CannotSplitHmsdms "")
  /\ Regex.ra_dec_converter "   " Regex.defaults = Raise NotRecognized.
Proof.
  split; [reflexivity | ].
  split.
  - exact (proj1 (input_without_text_is_rejected "   " Split.defaults eq_refl)).
  - apply (proj2 (input_without_text_is_rejected "   " Regex.defaults eq_refl)).
    + left; reflexivity.
    + left; reflexivity.
Defined.

(** ** The two strings of a conversion *)

(** X8: in both converters the flags [ra_only] and [dec_only] only choose what
    is returned.  When the call without flags returns a text, this text is
    an RA string, the delimiter and a Dec string; [ra_only] returns that RA
    string whatever [dec_only] is, and [dec_only] alone returns that Dec
    string.  When it raises an error, every setting of the flags raises the
    same error. *)
Theorem flags_select_a_part (input : string) (o : options) :
  flags_select (Split.ra_dec_converter input) o
  /\ flags_select (Regex.ra_dec_converter input) o.
Proof.
  split.
  - apply (selected_parts (Split.ra_dec_converter input) o), split_converter_selected.
  - apply (selected_parts (Regex.ra_dec_converter input) o), regex_converter_selected.
Qed.

(** ** Splitting at the runs of a class *)

Lemma drop_while_app (f : ascii -> bool) (g rest : string) :
  all_chars f g = true -> drop_while f (g ++ rest) = drop_while f rest.
Proof.
  induction g as [ | c g IH]; [reflexivity | ].
  cbn [all_chars append drop_while]. intros H. apply andb_prop in H.
  destruct H as [Hc Hg]. rewrite Hc. exact (IH Hg).
Qed.

Lemma drop_while_free (f : ascii -> bool) (s : string) :
  free_of f s = true -> drop_while f s = s.
Proof.
  destruct s as [ | c s]; [reflexivity | ].
  unfold free_of. cbn [all_chars drop_while]. intros H. apply andb_prop in H.
  destruct H as [Hc _]. apply negb_true_iff in Hc. rewrite Hc. reflexivity.
Qed.

Lemma drop_while_span (f : ascii -> bool) (s : string) :
  exists g, s = g ++ drop_while f s /\ all_chars f g = true.
Proof.
  induction s as [ | c s IH]; [exists ""; split; reflexivity | ].
  cbn [drop_while]. destruct (f c) eqn:Hc.
  - destruct IH as (g & Hs & Hg). exists (String c g). split.
    + cbn [append]. rewrite <- Hs. reflexivity.
    + cbn [all_chars]. rewrite Hc, Hg. reflexivity.
  - exists "". split; reflexivity.
Qed.

Lemma split_loop_end (f : ascii -> bool) (fuel : nat) prev (cur : string) :
  Re.split_loop (Re.plus (Re.Cls f)) fuel prev "" cur = [cur].
Proof.
  destruct fuel as [ | fuel]; cbn [Re.split_loop].
  - rewrite app_nil_r_s. reflexivity.
  - rewrite match_here_plus_end. reflexivity.
Qed.

Lemma split_loop_skip (f : ascii -> bool) (fuel : nat) prev c s cur :
  f c = false ->
  Re.split_loop (Re.plus (Re.Cls f)) (S fuel) prev (String c s) cur
  = Re.split_loop (Re.plus (Re.Cls f)) fuel (Some c) s (cur ++ String c "").
Proof.
  intros Hc. cbn [Re.split_loop]. rewrite (match_here_plus_class_fail f prev c s Hc).
  reflexivity.
Qed.

Lemma split_loop_cut (f : ascii -> bool) (fuel : nat) prev c s cur :
  f c = true ->
  exists p,
    Re.split_loop (Re.plus (Re.Cls f)) (S fuel) prev (String c s) cur
    = cur :: Re.split_loop (Re.plus (Re.Cls f)) fuel p (drop_while f s) "".
Proof.
  intros Hc. cbn [Re.split_loop].
  destruct (match_here_plus_class f prev c s Hc) as [p ->]. exists p.
  assert (Hlt : Nat.ltb (String.length (drop_while f s)) (String.length (String c s)) = true).
  { apply Nat.ltb_lt. cbn [String.length]. pose proof (length_drop_while f s). lia. }
  rewrite Hlt. reflexivity.
Qed.

Lemma split_loop_not_nil (f : ascii -> bool) (fuel : nat) : forall prev s cur,
  Re.split_loop (Re.plus (Re.Cls f)) fuel prev s cur <> [].
Proof.
  induction fuel as [ | fuel IH]; intros prev s cur; [discriminate | ].
  destruct s as [ | c s]; [rewrite split_loop_end; discriminate | ].
  destruct (f c) eqn:Hc.
  - destruct (split_loop_cut f fuel prev c s cur Hc) as [p ->]. discriminate.
  - rewrite (split_loop_skip f fuel prev c s cur Hc). apply IH.
Qed.

Lemma split_loop_free (f : ascii -> bool) (t : string) : forall fuel prev rest cur,
  free_of f t = true ->
  exists p,
    Re.split_loop (Re.plus (Re.Cls f)) (String.length t + fuel) prev (t ++ rest) cur
    = Re.split_loop (Re.plus (Re.Cls f)) fuel p rest (cur ++ t).
Proof.
  induction t as [ | c t IH]; intros fuel prev rest cur Ht.
  - exists prev. cbn [String.length append Nat.add]. rewrite app_nil_r_s. reflexivity.
  - unfold free_of in Ht. cbn [all_chars] in Ht. apply andb_prop in Ht.
    destruct Ht as [Hc Ht]. apply negb_true_iff in Hc.
    cbn [String.length append Nat.add]. rewrite (split_loop_skip f _ prev c _ cur Hc).
    destruct (IH fuel (Some c) rest (cur ++ String c "") Ht) as [p ->].
    exists p. rewrite app_assoc_s. reflexivity.
Qed.

Lemma split_loop_one (f : ascii -> bool) (fuel : nat) : forall prev s cur b,
  String.length s < fuel ->
  Re.split_loop (Re.plus (Re.Cls f)) fuel prev s cur = [b] ->
  b = cur ++ s /\ free_of f s = true.
Proof.
  induction fuel as [ | fuel IH]; intros prev s cur b Hfuel; [inversion Hfuel | ].
  destruct s as [ | c s].
  - rewrite split_loop_end. intros H. injection H as <-.
    rewrite app_nil_r_s. split; reflexivity.
  - cbn [String.length] in Hfuel. destruct (f c) eqn:Hc.
    + destruct (split_loop_cut f fuel prev c s cur Hc) as [p ->].
      intros H. injection H as _ H.
      contradiction (split_loop_not_nil f fuel p (drop_while f s) "" H).
    + rewrite (split_loop_skip f fuel prev c s cur Hc). intros H.
      destruct (IH (Some c) s (cur ++ String c "") b ltac:(lia) H) as [-> Hs].
      split; [apply app_assoc_s | ].
      unfold free_of. cbn [all_chars]. rewrite Hc. exact Hs.
Qed.

Lemma split_loop_two (f : ascii -> bool) (fuel : nat) : forall prev s cur a b,
  String.length s < fuel ->
  Re.split_loop (Re.plus (Re.Cls f)) fuel prev s cur = [a; b] ->
  exists t g,
    s = t ++ g ++ b /\ a = cur ++ t /\ g <> "" /\ all_chars f g = true
    /\ free_of f t = true /\ free_of f b = true.
Proof.
  induction fuel as [ | fuel IH]; intros prev s cur a b Hfuel; [inversion Hfuel | ].
  destruct s as [ | c s]; [rewrite split_loop_end; discriminate | ].
  cbn [String.length] in Hfuel. destruct (f c) eqn:Hc.
  - destruct (split_loop_cut f fuel prev c s cur Hc) as [p ->].
    intros H. injection H as <- H.
    pose proof (length_drop_while f s) as Hlen.
    destruct (split_loop_one f fuel p (drop_while f s) "" b ltac:(lia) H) as [Hb Hfree].
    cbn [append] in Hb. destruct (drop_while_span f s) as (g & Hs & Hg).
    exists "", (String c g). rewrite <- Hb in Hs, Hfree.
    split; [cbn [append]; rewrite <- Hs; reflexivity | ].
    split; [symmetry; apply app_nil_r_s | ].
    split; [discriminate | ].
    split; [cbn [all_chars]; rewrite Hc, Hg; reflexivity | ].
    split; [reflexivity | exact Hfree].
  - rewrite (split_loop_skip f fuel prev c s cur Hc). intros H.
    destruct (IH (Some c) s (cur ++ String c "") a b ltac:(lia) H)
      as (t & g & -> & -> & Hne & Hg & Ht & Hb).
    exists (String c t), g.
    split; [reflexivity | ].
    split; [apply app_assoc_s | ].
    split; [exact Hne | split; [exact Hg | ]].
    split; [unfold free_of; cbn [all_chars]; rewrite Hc; exact Ht | exact Hb].
Qed.

Lemma re_split_two (f : ascii -> bool) (s a b : string) :
  Re.re_split (Re.plus (Re.Cls f)) s = [a; b]
  <-> exists g, s = a ++ g ++ b /\ g <> "" /\ all_chars f g = true
                /\ free_of f a = true /\ free_of f b = true.
Proof.
  unfold Re.re_split. split.
  - intros H.
    destruct (split_loop_two f (S (String.length s)) None s "" a b
                (Nat.lt_succ_diag_r _) H)
      as (t & g & Hs & Ha & Hne & Hg & Ht & Hb).
    cbn [append] in Ha. subst t. exists g. repeat split; assumption.
  - intros (g & -> & Hne & Hg & Ha & Hb).
    destruct g as [ | c g]; [contradiction Hne; reflexivity | ].
    cbn [all_chars] in Hg. apply andb_prop in Hg. destruct Hg as [Hc Hg].
    replace (S (String.length (a ++ String c g ++ b)))
      with (String.length a + S (S (String.length (g ++ b))))
      by (rewrite !length_app_s; cbn [String.length]; lia).
    destruct (split_loop_free f a (S (S (String.length (g ++ b)))) None
                (String c g ++ b) "" Ha) as [p ->].
    cbn [append].
    destruct (split_loop_cut f (S (String.length (g ++ b))) p c (g ++ b) a Hc) as [q ->].
    rewrite (drop_while_app f g b Hg), (drop_while_free f b Hb).
    replace (S (String.length (g ++ b)))
      with (String.length b + S (String.length g))
      by (rewrite length_app_s; lia).
    rewrite <- (app_nil_r_s b) at 2.
    destruct (split_loop_free f b (S (String.length g)) q "" "" Hb) as [r ->].
    rewrite split_loop_end. reflexivity.
Qed.

(** X9: under [casa], [split_ra_dec] returns the pair of a and b exactly when
    the stripped input is a, a non empty run of commas and white space, and
    b, with no comma and no white space in a and in b.  Under [degrees] such
    an input gives the same pair. *)
Theorem split_ra_dec_two_tokens (input_str a b : string) :
  (Split.split_ra_dec input_str "casa" = Ok (a, b)
   <-> exists g, Str.strip input_str = a ++ g ++ b /\ g <> ""
                 /\ all_chars delimiter g = true
                 /\ free_of delimiter a = true /\ free_of delimiter b = true)
  /\ ((exists g, Str.strip input_str = a ++ g ++ b /\ g <> ""
                 /\ all_chars delimiter g = true
                 /\ free_of delimiter a = true /\ free_of delimiter b = true) ->
      Split.split_ra_dec input_str "degrees" = Ok (a, b)).
Proof.
  pose proof (re_split_two delimiter (Str.strip input_str) a b) as Hsplit.
  split.
  - unfold Split.split_ra_dec. change (String.eqb "casa" "casa") with true. cbv iota.
    unfold comma_or_space. fold delimiter.
    rewrite <- Hsplit. split.
    + destruct (Re.re_split _ _) as [ | p0 [ | p1 [ | p2 ps]]]; intros H;
        try discriminate H. injection H as -> ->. reflexivity.
    + intros ->. reflexivity.
  - intros H. apply Hsplit in H.
    unfold Split.split_ra_dec. change (String.eqb "degrees" "casa") with false.
    change (String.eqb "degrees" "hmsdms") with false. cbv iota.
    unfold comma_or_space. fold delimiter. rewrite H. reflexivity.
Qed.

(** ** The split before a signed declination *)

Lemma sign_split_app (s : string) : forall a b,
  sign_split s = Some (a, b) -> s = a ++ b /\ signed_start b = true.
Proof.
  induction s as [ | c s IH]; intros a b; [discriminate | ].
  cbn [sign_split]. destruct (signed_start (String c s)) eqn:Hs.
  - intros H. injection H as <- <-. split; [reflexivity | exact Hs].
  - destruct (sign_split s) as [[a' b'] | ]; [ | discriminate].
    intros H. injection H as <- <-. destruct (IH a' b' eq_refl) as [-> Hb].
    split; [reflexivity | exact Hb].
Qed.

Lemma substring_prefix (a b : string) : substring 0 (String.length a) (a ++ b) = a.
Proof.
  induction a as [ | c a IH]; [destruct b; reflexivity | ].
  cbn [String.length append substring]. rewrite IH. reflexivity.
Qed.

Lemma consumed_app (a b : string) : Re.consumed (a ++ b) b = a.
Proof.
  unfold Re.consumed. rewrite length_app_s.
  replace (String.length a + String.length b - String.length b) with (String.length a)
    by lia.
  apply substring_prefix.
Qed.

Lemma consumed_all (b : string) : Re.consumed b "" = b.
Proof.
  rewrite <- (app_nil_r_s b) at 1. apply consumed_app.
Qed.

(** A greedy repetition of a class that holds to the end of the input. *)
Lemma rep_class_to_end (A : Type) (f : ascii -> bool) (k : Re.cont A) (a : A) cs
    (s : string) : forall n prev,
  all_chars f s = true -> String.length s <= n ->
  (forall p, k p "" cs = Some a) ->
  Re.rep_loop A (Re.run A (Re.Cls f)) true 0 n prev s cs k = Some a.
Proof.
  induction s as [ | c s IH]; intros n prev Hs Hn Hk.
  - destruct n as [ | n]; cbn [Re.rep_loop]; [apply Hk | ].
    rewrite run_class_end. apply Hk.
  - destruct n as [ | n]; [cbn [String.length] in Hn; lia | ].
    cbn [all_chars] in Hs. apply andb_prop in Hs. destruct Hs as [Hc Hs].
    cbn [String.length] in Hn.
    cbn [Re.rep_loop]. rewrite run_class, Hc.
    assert (Hlen : Nat.eqb (String.length s) (S (String.length s)) = false)
      by (apply Nat.eqb_neq; lia).
    cbn [Nat.eqb andb String.length]. rewrite Hlen.
    cbn [Nat.pred]. rewrite (IH n (Some c) Hs ltac:(lia) Hk). reflexivity.
Qed.

(** A lazy repetition of the class [.] stops at the first position where
    the continuation succeeds. *)
Lemma lazy_dot_scan (A : Type) (k : Re.cont A) cs (s : string) : forall n prev,
  free_of newline s = true -> String.length s <= n ->
  (forall p u, signed_start u = false -> k p u cs = None) ->
  (forall p u, signed_start u = true -> free_of newline u = true -> k p u cs <> None) ->
  Re.rep_loop A (Re.run A Re.dot) false 0 n prev s cs k
  = match sign_split s with
    | Some (a, b) => k (prev_after prev a) b cs
    | None => None
    end.
Proof.
  induction s as [ | c s IH]; intros n prev Hs Hn Hno Hyes.
  - cbn [sign_split]. destruct n as [ | n]; cbn [Re.rep_loop].
    + apply Hno. reflexivity.
    + rewrite (Hno prev "" eq_refl). reflexivity.
  - destruct n as [ | n]; [cbn [String.length] in Hn; lia | ].
    cbn [String.length] in Hn.
    cbn [sign_split]. destruct (signed_start (String c s)) eqn:Hstart.
    + cbn [Re.rep_loop prev_after].
      destruct (k prev (String c s) cs) as [a | ] eqn:Hk; [reflexivity | ].
      contradiction (Hyes prev (String c s) Hstart Hs Hk).
    + cbn [Re.rep_loop]. rewrite (Hno prev (String c s) Hstart).
      unfold free_of in Hs. cbn [all_chars] in Hs. apply andb_prop in Hs.
      destruct Hs as [Hc Hs]. unfold Re.dot at 1. rewrite run_class.
      fold (newline c). rewrite Hc.
      assert (Hlen : Nat.eqb (String.length s) (S (String.length s)) = false)
        by (apply Nat.eqb_neq; lia).
      cbn [Nat.eqb andb String.length]. rewrite Hlen. cbn [Nat.pred].
      fold Re.dot.
      rewrite (IH n (Some c) Hs ltac:(lia) Hno Hyes).
      destruct (sign_split s) as [[a b] | ]; reflexivity.
Qed.

Lemma signed_group_fails (A : Type) p u cs (k : Re.cont A) :
  signed_start u = false ->
  Re.run A (Re.Cat (Re.Grp 2 (Re.cat [Re.sign; Re.digit; Re.star Re.dot])) Re.Eol)
    p u cs k = None.
Proof.
  intros H. unfold Re.cat, Re.sign, Re.set, Re.digit.
  destruct u as [ | c [ | d rest]]; cbn [Re.run].
  - reflexivity.
  - destruct (Str.one_of "+-" c); reflexivity.
  - cbn [signed_start] in H. destruct (Str.one_of "+-" c); [ | reflexivity].
    cbn [andb] in H. rewrite H. reflexivity.
Qed.

Lemma signed_group_matches p u cs :
  signed_start u = true -> free_of newline u = true ->
  Re.run Re.caps
    (Re.Cat (Re.Grp 2 (Re.cat [Re.sign; Re.digit; Re.star Re.dot])) Re.Eol)
    p u cs (fun _ _ cs' => Some cs') = Some ((2, u) :: cs).
Proof.
  intros H Hfree. destruct u as [ | c [ | d rest]]; try discriminate H.
  cbn [signed_start] in H. apply andb_prop in H. destruct H as [Hc Hd].
  unfold free_of in Hfree. cbn [all_chars] in Hfree.
  apply andb_prop in Hfree. destruct Hfree as [_ Hfree].
  apply andb_prop in Hfree. destruct Hfree as [_ Hfree].
  unfold Re.cat, Re.sign, Re.set, Re.digit, Re.star.
  cbn [Re.run]. rewrite Hc, Hd.
  apply rep_class_to_end.
  - exact Hfree.
  - cbn [Nat.add]. apply le_n.
  - intros p'. cbn [Re.at_end]. rewrite consumed_all. reflexivity.
Qed.

Lemma match_signed_tail (s : string) :
  free_of newline s = true ->
  Re.re_match signed_tail s
  = match sign_split s with
    | Some (a, b) => Some [(2, b); (1, a)]
    | None => None
    end.
Proof.
  intros Hfree. unfold Re.re_match, signed_tail.
  change (Re.cat [Re.Bol; Re.Grp 1 (Re.lazy_star Re.dot);
                  Re.Grp 2 (Re.cat [Re.sign; Re.digit; Re.star Re.dot]); Re.Eol])
    with (Re.Cat Re.Bol (Re.Cat (Re.Grp 1 (Re.Rep false 0 None Re.dot))
            (Re.Cat (Re.Grp 2 (Re.cat [Re.sign; Re.digit; Re.star Re.dot])) Re.Eol))).
  change (Re.run Re.caps (Re.Cat Re.Bol ?r) None s [] ?k) with (Re.run Re.caps r None s [] k).
  change (Re.run Re.caps (Re.Cat (Re.Grp 1 (Re.Rep false 0 None Re.dot)) ?r) None s [] ?k)
    with (Re.rep_loop Re.caps (Re.run Re.caps Re.dot) false 0 (0 + String.length s) None s []
            (fun p' s' cs' => Re.run Re.caps r p' s' ((1, Re.consumed s s') :: cs') k)).
  rewrite lazy_dot_scan.
  - destruct (sign_split s) as [[a b] | ] eqn:Hsplit; [ | reflexivity].
    destruct (sign_split_app s a b Hsplit) as [-> Hstart].
    rewrite consumed_app. apply signed_group_matches; [exact Hstart | ].
    unfold free_of in *. rewrite all_chars_app in Hfree.
    apply andb_prop in Hfree. apply Hfree.
  - exact Hfree.
  - apply le_n.
  - intros p u Hu. apply signed_group_fails, Hu.
  - intros p u Hu Hfu. rewrite (signed_group_matches p u _ Hu Hfu). discriminate.
Qed.

Lemma replace_comma_newline_free (s : string) :
  free_of newline s = true -> free_of newline (Str.replace_char "," " " s) = true.
Proof.
  unfold free_of. induction s as [ | c s IH]; [reflexivity | ].
  cbn [all_chars Str.replace_char]. intros H. apply andb_prop in H.
  destruct H as [Hc Hs]. rewrite (IH Hs).
  destruct (Ascii.eqb c ","); [reflexivity | rewrite Hc; reflexivity].
Qed.

(** X10: under [hmsdms], [split_ra_dec] cuts the stripped input, its commas
    read as blanks, before the first sign that a digit follows, and strips
    both parts; an input without such a sign is split exactly when it is two
    texts without white space and a run of white space between them.  The
    input is taken without a newline inside. *)
Theorem split_ra_dec_at_first_sign (input_str : string) :
  free_of newline (Str.strip input_str) = true ->
  match sign_split (Str.replace_char "," " " (Str.strip input_str)) with
  | Some (a, b) =>
      Split.split_ra_dec input_str "hmsdms" = Ok (Str.strip a, Str.strip b)
  | None =>
      forall a b,
        Split.split_ra_dec input_str "hmsdms" = Ok (a, b)
        <-> exists g, Str.strip input_str = a ++ g ++ b /\ g <> ""
                      /\ all_chars Str.is_space g = true
                      /\ free_of Str.is_space a = true
                      /\ free_of Str.is_space b = true
  end.
Proof.
  intros Hfree. unfold Split.split_ra_dec.
  change (String.eqb "hmsdms" "casa") with false.
  change (String.eqb "hmsdms" "hmsdms") with true. cbv iota.
  rewrite (match_signed_tail _ (replace_comma_newline_free _ Hfree)).
  destruct (sign_split _) as [[a b] | ]; [reflexivity | ].
  intros a b. unfold Re.space.
  rewrite <- (re_split_two Str.is_space (Str.strip input_str) a b). split.
  - destruct (Re.re_split _ _) as [ | p0 [ | p1 [ | p2 ps]]]; intros H;
      try discriminate H. injection H as -> ->. reflexivity.
  - intros ->. reflexivity.
Qed.

Lemma split_ra_dec_at_first_sign_witness :
  free_of newline (Str.strip " 12:30:45.5, -45:30:15 ") = true
  /\ free_of newline (Str.strip "2h-5m +3") = true
  /\ Split.split_ra_dec " 12:30:45.5, -45:30:15 " "hmsdms"
     = Ok ("12:30:45.5", "-45:30:15")
  /\ Split.split_ra_dec "2h-5m +3" "hmsdms" = Ok ("2h", "-5m +3").
Proof.
  split; [reflexivity | split; [reflexivity | ]].
  split.
  - exact (split_ra_dec_at_first_sign " 12:30:45.5, -45:30:15 " eq_refl).
  - exact (split_ra_dec_at_first_sign "2h-5m +3" eq_refl).
Defined.

(** ** The characters of a match *)

Section Alphabet.

Variable A : ascii -> bool.

(** What a match consumes lies in the alphabet of the pattern. *)
Lemma rep_loop_drawn (B : Type) (step : Re.matcher B) (greedy : bool) :
  (forall (k : Re.cont B) (R : string -> B -> Prop),
     (forall p s cs b, k p s cs = Some b -> R s b) ->
     forall p s cs b, step p s cs k = Some b ->
       exists t s', s = t ++ s' /\ all_chars A t = true /\ R s' b) ->
  forall n lo (k : Re.cont B) (R : string -> B -> Prop),
    (forall p s cs b, k p s cs = Some b -> R s b) ->
    forall p s cs b, Re.rep_loop B step greedy lo n p s cs k = Some b ->
      exists t s', s = t ++ s' /\ all_chars A t = true /\ R s' b.
Proof.
  intros Hstep. induction n as [ | n IH]; intros lo k R Hk p s cs b.
  - cbn [Re.rep_loop]. destruct lo; [ | discriminate].
    intros H. exists "", s. split; [reflexivity | split; [reflexivity | ]].
    exact (Hk _ _ _ _ H).
  - assert (Hhere : k p s cs = Some b ->
                    exists t s', s = t ++ s' /\ all_chars A t = true /\ R s' b).
    { intros H. exists "", s. split; [reflexivity | split; [reflexivity | ]].
      exact (Hk _ _ _ _ H). }
    assert (Hmore :
      step p s cs (fun prev' s' cs' =>
        if Nat.eqb lo 0 && Nat.eqb (String.length s') (String.length s)
        then None
        else Re.rep_loop B step greedy (Nat.pred lo) n prev' s' cs' k) = Some b ->
      exists t s', s = t ++ s' /\ all_chars A t = true /\ R s' b).
    { intros H.
      apply (Hstep _ (fun s1 b1 =>
               exists t s', s1 = t ++ s' /\ all_chars A t = true /\ R s' b1)) in H.
      - destruct H as (t1 & s1 & -> & Ht1 & t2 & s2 & -> & Ht2 & HR).
        exists (t1 ++ t2), s2. split; [symmetry; apply app_assoc_s | ].
        split; [rewrite all_chars_app, Ht1, Ht2; reflexivity | exact HR].
      - intros p1 s1 cs1 b1. destruct (_ && _); [discriminate | ].
        apply (IH (Nat.pred lo) k R Hk). }
    cbn [Re.rep_loop]. destruct lo as [ | lo]; [ | exact Hmore].
    destruct greedy.
    + match goal with
      | |- match ?m with _ => _ end = _ -> _ => destruct m as [b' | ] eqn:Hm
      end.
      * exact Hmore.
      * exact Hhere.
    + destruct (k p s cs) as [b' | ] eqn:Hkk.
      * intros H. injection H as <-. apply Hhere. reflexivity.
      * exact Hmore.
Qed.

Lemma run_drawn (B : Type) (r : Re.regex) :
  drawn_from A r ->
  forall (k : Re.cont B) (R : string -> B -> Prop),
    (forall p s cs b, k p s cs = Some b -> R s b) ->
    forall p s cs b, Re.run B r p s cs k = Some b ->
      exists t s', s = t ++ s' /\ all_chars A t = true /\ R s' b.
Proof.
  assert (Hpass : forall (k : Re.cont B) (R : string -> B -> Prop),
             (forall p s cs b, k p s cs = Some b -> R s b) ->
             forall p s cs b, k p s cs = Some b ->
               exists t s', s = t ++ s' /\ all_chars A t = true /\ R s' b).
  { intros k R Hk p s cs b H. exists "", s.
    split; [reflexivity | split; [reflexivity | exact (Hk _ _ _ _ H)]]. }
  induction r as [ | f | r1 IH1 r2 IH2 | r1 IH1 r2 IH2 | greedy lo hi r1 IH1
                 | i r1 IH1 | | | ]; intros Hr k R Hk p s cs b; cbn [Re.run].
  - apply (Hpass k R Hk).
  - cbn [drawn_from] in Hr. destruct s as [ | c s]; [discriminate | ].
    destruct (f c) eqn:Hc; [ | discriminate]. intros H.
    exists (String c ""), s. split; [reflexivity | ].
    split; [cbn [all_chars]; rewrite (Hr c Hc); reflexivity | exact (Hk _ _ _ _ H)].
  - destruct Hr as [Hr1 Hr2]. intros H.
    apply (IH1 Hr1 _ (fun s1 b1 =>
             exists t s', s1 = t ++ s' /\ all_chars A t = true /\ R s' b1)) in H.
    + destruct H as (t1 & s1 & -> & Ht1 & t2 & s2 & -> & Ht2 & HR).
      exists (t1 ++ t2), s2. split; [symmetry; apply app_assoc_s | ].
      split; [rewrite all_chars_app, Ht1, Ht2; reflexivity | exact HR].
    + intros p1 s1 cs1 b1. apply (IH2 Hr2 k R Hk).
  - destruct Hr as [Hr1 Hr2].
    destruct (Re.run B r1 p s cs k) as [b' | ] eqn:H1.
    + intros H. injection H as <-. exact (IH1 Hr1 k R Hk _ _ _ _ H1).
    + apply (IH2 Hr2 k R Hk).
  - apply (rep_loop_drawn B (Re.run B r1) greedy); [ | exact Hk].
    intros k' R' Hk'. apply (IH1 Hr k' R' Hk').
  - apply (IH1 Hr _ R). intros p1 s1 cs1 b1. apply Hk.
  - destruct p; [discriminate | ]. apply (Hpass k R Hk).
  - destruct (Re.at_end s); [ | discriminate]. apply (Hpass k R Hk).
  - destruct (xorb _ _); [ | discriminate]. apply (Hpass k R Hk).
Qed.

Hypothesis newline_in : A (Str.chr 10) = true.

Lemma at_end_drawn (s : string) : Re.at_end s = true -> all_chars A s = true.
Proof.
  destruct s as [ | c [ | d s]]; try discriminate; [reflexivity | ].
  cbn [Re.at_end]. intros H. apply Ascii.eqb_eq in H. subst c.
  cbn [all_chars]. rewrite newline_in. reflexivity.
Qed.

Lemma run_to_end_drawn (B : Type) (r : Re.regex) :
  drawn_from A r -> ends_input r = true ->
  forall (k : Re.cont B) p s cs b,
    Re.run B r p s cs k = Some b -> all_chars A s = true.
Proof.
  induction r as [ | f | r1 IH1 r2 IH2 | r1 IH1 r2 IH2 | greedy lo hi r1 IH1
                 | i r1 IH1 | | | ]; intros Hr Hend k p s cs b;
    try discriminate Hend.
  - destruct Hr as [Hr1 Hr2]. cbn [ends_input] in Hend. cbn [Re.run]. intros H.
    apply (run_drawn B r1 Hr1 _ (fun s1 _ => all_chars A s1 = true)) in H.
    + destruct H as (t & s' & -> & Ht & Hs'). rewrite all_chars_app, Ht, Hs'.
      reflexivity.
    + intros p1 s1 cs1 b1. apply (IH2 Hr2 Hend k).
  - cbn [Re.run]. destruct (Re.at_end s) eqn:He; [ | discriminate].
    intros _. apply at_end_drawn, He.
Qed.

Lemma no_match_outside (r : Re.regex) (s : string) :
  drawn_from A r -> ends_input r = true ->
  all_chars A s = false -> Re.re_match r s = None.
Proof.
  intros Hr Hend Hs. unfold Re.re_match.
  destruct (Re.run _ r None s [] _) as [c | ] eqn:H; [ | reflexivity].
  rewrite (run_to_end_drawn _ r Hr Hend _ _ _ _ _ H) in Hs. discriminate Hs.
Qed.

End Alphabet.

Ltac by_cases_on_char c H :=
  destruct c as [[ | ] [ | ] [ | ] [ | ] [ | ] [ | ] [ | ] [ | ]];
  first [reflexivity | discriminate H].

Ltac class_inclusions :=
  repeat match goal with
    | |- _ /\ _ => split
    | |- True => exact I
    | |- forall c : ascii, _ = true -> _ = true =>
        let c := fresh "c" in let H := fresh "H" in
        intros c H; by_cases_on_char c H
    end.

Lemma patterns_drawn_from_known :
  Forall (fun pattern => drawn_from known (fst pattern)
                         /\ ends_input (fst pattern) = true) Regex.patterns.
Proof.
  repeat (constructor; [split; [cbn; class_inclusions | reflexivity] | ]).
  constructor.
Qed.

Section Foreign.

Variable A : ascii -> bool.
Hypothesis spaces_in : forall c, Str.is_space c = true -> A c = true.

Lemma lstrip_drawn (s : string) : all_chars A (Str.lstrip s) = all_chars A s.
Proof.
  induction s as [ | c s IH]; [reflexivity | ].
  cbn [Str.lstrip]. destruct (Str.is_space c) eqn:Hc; [ | reflexivity].
  cbn [all_chars]. rewrite (spaces_in c Hc). exact IH.
Qed.

Lemma rstrip_drawn (s : string) : all_chars A (Str.rstrip s) = all_chars A s.
Proof.
  induction s as [ | c s IH]; [reflexivity | ].
  cbn [Str.rstrip all_chars]. rewrite <- IH.
  destruct (Str.rstrip s) as [ | d t]; [ | reflexivity].
  destruct (Str.is_space c) eqn:Hc.
  - rewrite (spaces_in c Hc). reflexivity.
  - reflexivity.
Qed.

Lemma strip_drawn (s : string) : all_chars A (Str.strip s) = all_chars A s.
Proof. unfold Str.strip. rewrite rstrip_drawn. apply lstrip_drawn. Qed.

Lemma sub_loop_keeps_foreign (r : Re.regex) (fuel : nat) :
  drawn_from A r ->
  forall prev s,
    all_chars A s = false -> all_chars A (Re.sub_loop r "" fuel prev s) = false.
Proof.
  intros Hr. induction fuel as [ | fuel IH]; intros prev s Hs; [exact Hs | ].
  cbn [Re.sub_loop].
  assert (Hskip : all_chars A
                    match s with
                    | "" => ""
                    | String c s' => String c (Re.sub_loop r "" fuel (Some c) s')
                    end = false).
  { destruct s as [ | c s]; [discriminate Hs | ].
    cbn [all_chars] in Hs |- *. destruct (A c); [ | reflexivity].
    cbn [andb] in Hs |- *. apply IH, Hs. }
  destruct (Re.match_here r prev s) as [[p' s'] | ] eqn:Hm; [ | exact Hskip].
  destruct (Nat.ltb _ _); [ | exact Hskip].
  cbn [append]. apply IH.
  unfold Re.match_here in Hm.
  apply (run_drawn A _ r Hr _ (fun s1 b1 => s1 = snd b1)) in Hm.
  - destruct Hm as (t & s'' & -> & Ht & ->). cbn [snd] in Hs.
    rewrite all_chars_app, Ht in Hs. exact Hs.
  - intros p1 s1 cs1 b1 H. injection H as <-. reflexivity.
Qed.

End Foreign.

Lemma spaces_known (c : ascii) : Str.is_space c = true -> known c = true.
Proof. intros H. by_cases_on_char c H. Qed.

Lemma epoch_marker_known : drawn_from known epoch_marker.
Proof. cbn. class_inclusions. Qed.

Lemma clean_keeps_foreign (input : string) :
  all_chars known input = false -> all_chars known (clean input) = false.
Proof.
  intros H. unfold clean. rewrite (strip_drawn known spaces_known).
  apply (sub_loop_keeps_foreign known _ _ epoch_marker_known).
  rewrite (strip_drawn known spaces_known). exact H.
Qed.

Lemma try_patterns_none ps (o : options) (p q : Z) (s : string) :
  Forall (fun pattern => Re.re_match (fst pattern) s = None) ps ->
  Regex.try_patterns ps o p q s = Raise NotRecognized.
Proof.
  induction 1 as [ | [pattern groups] ps Hnone _ IH]; [reflexivity | ].
  cbn [Regex.try_patterns]. cbn [fst] in Hnone. rewrite Hnone. exact IH.
Qed.

Lemma regex_converter_patterns (input : string) (o : options) :
  In (input_format o) ["hmsdms"; "degrees"] ->
  In (output_format o) ["degrees"; "hmsdms"] ->
  exists p q,
    Regex.ra_dec_converter input o
    = Regex.try_patterns Regex.patterns o p q (clean input).
Proof.
  intros Hin Hout. unfold Regex.ra_dec_converter. fold (clean input).
  destruct Hin as [<- | [<- | []]]; destruct Hout as [<- | [<- | []]];
    cbn [String.eqb Ascii.eqb Bool.eqb orb negb bind]; eexists _, _; reflexivity.
Qed.

(** X11: the pattern driven converter recognises no input that holds a
    character other than a digit, white space, a sign, the point, the comma,
    the colon, a unit marker and the letters J and E: called with format
    names that it accepts, it raises the error of an input that is not
    recognised. *)
Theorem regex_rejects_foreign_characters (input : string) (o : options) :
  In (input_format o) ["hmsdms"; "degrees"] ->
  In (output_format o) ["degrees"; "hmsdms"] ->
  all_chars known input = false ->
  Regex.ra_dec_converter input o = Raise NotRecognized.
Proof.
  intros Hin Hout Hforeign.
  destruct (regex_converter_patterns input o Hin Hout) as (p & q & ->).
  apply try_patterns_none.
  apply clean_keeps_foreign in Hforeign.
  pose proof patterns_drawn_from_known as Hall.
  induction Hall as [ | pattern ps [Hdrawn Hend] _ IH]; constructor; [ | exact IH].
  apply (no_match_outside known eq_refl _ _ Hdrawn Hend Hforeign).
Qed.

Lemma regex_rejects_foreign_characters_witness :
  all_chars known "12h30m45s +45deg30m15s" = false
  /\ Regex.ra_dec_converter "12h30m45s +45deg30m15s" Regex.defaults
     = Raise NotRecognized.
Proof.
  split; [reflexivity | ].
  apply regex_rejects_foreign_characters.
  - left; reflexivity.
  - left; reflexivity.
  - reflexivity.
Defined.

(** ** Sexagesimal input without white space *)

Lemma colon_free_patterns :
  Forall (fun pattern => drawn_from known_but_colon pattern
                         /\ ends_input pattern = true)
    [Regex.decimal_pattern; Regex.marker_pattern; Regex.compact_pattern].
Proof.
  repeat (constructor; [split; [cbn; class_inclusions | reflexivity] | ]).
  constructor.
Qed.

Lemma colon_is_foreign (s : string) :
  Str.mem ":" s = true -> all_chars known_but_colon s = false.
Proof.
  induction s as [ | c s IH]; [discriminate | ].
  cbn [Str.mem all_chars]. destruct (Ascii.eqb_spec ":" c) as [<- | Hc].
  - intros _. reflexivity.
  - cbn [orb]. intros H. rewrite (IH H). apply andb_false_r.
Qed.

Lemma colon_free_no_match (s : string) :
  Str.mem ":" s = true ->
  Re.re_match Regex.decimal_pattern s = None
  /\ Re.re_match Regex.marker_pattern s = None
  /\ Re.re_match Regex.compact_pattern s = None.
Proof.
  intros H. apply colon_is_foreign in H.
  pose proof colon_free_patterns as Hall.
  apply Forall_cons_iff in Hall. destruct Hall as [[Hd1 Hd2] Hall].
  apply Forall_cons_iff in Hall. destruct Hall as [[Hm1 Hm2] Hall].
  apply Forall_cons_iff in Hall. destruct Hall as [[Hc1 Hc2] _].
  split; [ | split];
    apply (no_match_outside known_but_colon eq_refl); assumption.
Qed.

Lemma split_ws_one (s : string) :
  free_of Str.is_space s = true ->
  match Str.split_ws s with
  | _ :: _ :: _ => False
  | _ => True
  end.
Proof.
  unfold free_of. induction s as [ | c s IH]; [intros _; exact I | ].
  cbn [all_chars]. intros H. apply andb_prop in H. destruct H as [Hc Hs].
  apply negb_true_iff in Hc. specialize (IH Hs).
  cbn [Str.split_ws]. rewrite Hc. destruct s as [ | d s]; [exact I | ].
  cbn [all_chars] in Hs. apply andb_prop in Hs. destruct Hs as [Hd _].
  apply negb_true_iff in Hd. rewrite Hd.
  destruct (Str.split_ws (String d s)) as [ | p0 [ | p1 ps]];
    [exact I | exact I | contradiction].
Qed.

Lemma six_groups_index_error (s fmt : string) (g : nat -> string) :
  free_of Str.is_space s = true -> Regex.six_groups s fmt g = Raise IndexError.
Proof.
  intros H. apply split_ws_one in H. unfold Regex.six_groups.
  destruct (Str.split_ws s) as [ | p0 [ | p1 ps]];
    [reflexivity | reflexivity | contradiction].
Qed.

(** X12: in the pattern driven converter, sexagesimal input with colons needs
    white space between RA and Dec.  When the cleaned input holds a colon and
    no white space, no result is returned: the call ends in an IndexError,
    raised where a pattern with six groups has matched, or in the error of
    an input that is not recognised. *)
Theorem regex_colons_need_white_space (input : string) (o : options) :
  In (input_format o) ["hmsdms"; "degrees"] ->
  In (output_format o) ["degrees"; "hmsdms"] ->
  Str.mem ":" (clean input) = true ->
  free_of Str.is_space (clean input) = true ->
  Regex.ra_dec_converter input o = Raise IndexError
  \/ Regex.ra_dec_converter input o = Raise NotRecognized.
Proof.
  intros Hin Hout Hcolon Hfree.
  destruct (regex_converter_patterns input o Hin Hout) as (p & q & ->).
  destruct (colon_free_no_match _ Hcolon) as (Hd & Hm & Hc).
  unfold Regex.patterns. cbn [Regex.try_patterns]. rewrite Hd, Hm, Hc.
  cbn [Nat.eqb].
  destruct (Re.re_match Regex.colon_pattern _);
    [rewrite (six_groups_index_error _ _ _ Hfree); left; reflexivity | ].
  destruct (Re.re_match Regex.space_pattern _);
    [rewrite (six_groups_index_error _ _ _ Hfree); left; reflexivity | ].
  destruct (Re.re_match Regex.casa_pattern _);
    [rewrite (six_groups_index_error _ _ _ Hfree); left; reflexivity | ].
  right; reflexivity.
Qed.

Lemma regex_colons_need_white_space_witness :
  Str.mem ":" (clean "12:30:45,+45:30:15") = true
  /\ free_of Str.is_space (clean "12:30:45,+45:30:15") = true
  /\ (Regex.ra_dec_converter "12:30:45,+45:30:15" Regex.defaults = Raise IndexError
      \/ Regex.ra_dec_converter "12:30:45,+45:30:15" Regex.defaults
         = Raise NotRecognized)
  /\ Regex.ra_dec_converter "12:30:45,+45:30:15" Regex.defaults = Raise IndexError
  /\ Split.ra_dec_converter "12:30:45,+45:30:15" Split.defaults
     = Ok ("188" ++ tab ++ "+46").
Proof.
  split; [vm_compute; reflexivity | ].
  split; [vm_compute; reflexivity | ].
  split.
  - apply regex_colons_need_white_space.
    + left; reflexivity.
    + left; reflexivity.
    + vm_compute; reflexivity.
    + vm_compute; reflexivity.
  - split; vm_compute; reflexivity.
Defined.

(** ** The dotted declination of CASA *)

(** A greedy repetition of a class reads a run of the class that something
    else follows, when the rest of the pattern matches from there. *)
Lemma rep_class_stop (A : Type) (f : ascii -> bool) (k : Re.cont A) (a : A) cs
    (rest : string) (t : string) : forall n lo prev,
  all_chars f t = true ->
  match rest with String c _ => f c = false | EmptyString => True end ->
  lo <= String.length t -> String.length t <= n ->
  k (prev_after prev t) rest cs = Some a ->
  Re.rep_loop A (Re.run A (Re.Cls f)) true lo n prev (t ++ rest) cs k = Some a.
Proof.
  induction t as [ | c t IH]; intros n lo prev Ht Hrest Hlo Hn Hk.
  - cbn [String.length] in Hlo. assert (lo = 0) by lia. subst lo.
    cbn [append prev_after] in *. destruct n as [ | n]; [exact Hk | ].
    cbn [Re.rep_loop].
    destruct rest as [ | c u]; [rewrite run_class_end; exact Hk | ].
    rewrite run_class, Hrest. exact Hk.
  - destruct n as [ | n]; [cbn [String.length] in Hn; lia | ].
    cbn [all_chars] in Ht. apply andb_prop in Ht. destruct Ht as [Hc Ht].
    cbn [String.length] in Hlo, Hn. cbn [prev_after] in Hk.
    assert (Hmore : Re.rep_loop A (Re.run A (Re.Cls f)) true (Nat.pred lo) n (Some c)
                      (t ++ rest) cs k = Some a).
    { apply IH; try assumption; lia. }
    assert (Hlen : Nat.eqb (String.length (t ++ rest)) (S (String.length (t ++ rest)))
                   = false) by (apply Nat.eqb_neq; lia).
    cbn [append Re.rep_loop]. rewrite run_class, Hc.
    cbn [String.length]. rewrite Hlen, andb_false_r, Hmore.
    destruct lo; reflexivity.
Qed.

Lemma digit_run_inv (lo hi : nat) (s : string) :
  digit_run lo hi s = true ->
  all_digits s = true /\ lo <= String.length s /\ String.length s <= hi.
Proof.
  unfold digit_run. intros H. apply andb_prop in H. destruct H as [H H2].
  apply andb_prop in H. destruct H as [H0 H1].
  apply Nat.leb_le in H1. apply Nat.leb_le in H2. repeat split; assumption.
Qed.

Lemma all_digits_chars (s : string) : all_digits s = all_chars Str.is_digit s.
Proof. induction s as [ | c s IH]; [reflexivity | cbn; rewrite IH; reflexivity]. Qed.

Lemma rep_class_all (A : Type) (f : ascii -> bool) (k : Re.cont A) (a : A) cs
    (t : string) (n lo : nat) prev :
  all_chars f t = true ->
  lo <= String.length t -> String.length t <= n ->
  k (prev_after prev t) "" cs = Some a ->
  Re.rep_loop A (Re.run A (Re.Cls f)) true lo n prev t cs k = Some a.
Proof.
  intros Ht Hlo Hn Hk.
  pose proof (rep_class_stop A f k a cs "" t n lo prev Ht I Hlo Hn Hk) as H.
  rewrite app_nil_r_s in H. exact H.
Qed.

Lemma match_casa_dec (sg : ascii) (d mm ss fd : string) :
  Str.one_of "+-" sg = true ->
  digit_run 1 3 d = true -> digit_run 1 2 mm = true -> digit_run 1 2 ss = true ->
  all_digits fd = true ->
  exists m,
    Re.re_match Split.casa_dec_pattern
      (String sg (d ++ "." ++ mm ++ "." ++ with_fraction ss fd)) = Some m
    /\ grp m 1 = String sg "" /\ grp m 2 = d /\ grp m 3 = mm
    /\ grp m 4 = with_fraction ss fd.
Proof.
  intros Hsg Hd Hmm Hss Hfd.
  apply digit_run_inv in Hd. destruct Hd as (Hd & Hd1 & Hd3).
  apply digit_run_inv in Hmm. destruct Hmm as (Hmm & Hm1 & Hm2).
  apply digit_run_inv in Hss. destruct Hss as (Hss & Hs1 & Hs2).
  rewrite all_digits_chars in Hd, Hmm, Hss, Hfd.
  unfold Re.re_match, Split.casa_dec_pattern.
  unfold Re.cat, Re.times, Re.opt, Re.plus, Re.lit, Re.sign, Re.set, Re.digit.
  cbn [Re.run]. rewrite Hsg.
  destruct fd as [ | c fd]; cbn [with_fraction]; eexists; split.
  - apply rep_class_stop; [exact Hd | reflexivity | exact Hd1 | exact Hd3 | ].
    cbn [append]. rewrite Ascii.eqb_refl.
    apply rep_class_stop; [exact Hmm | reflexivity | exact Hm1 | exact Hm2 | ].
    cbn [append]. rewrite Ascii.eqb_refl.
    apply rep_class_all; [exact Hss | exact Hs1 | exact Hs2 | ].
    cbn [Re.rep_loop Re.at_end]. reflexivity.
  - unfold grp. cbn [Re.group Nat.eqb].
    split; [exact (consumed_app (String sg "") _) | ].
    split; [apply consumed_app | split; [apply consumed_app | apply consumed_all]].
  - apply rep_class_stop; [exact Hd | reflexivity | exact Hd1 | exact Hd3 | ].
    cbn [append]. rewrite Ascii.eqb_refl.
    apply rep_class_stop; [exact Hmm | reflexivity | exact Hm1 | exact Hm2 | ].
    cbn [append]. rewrite Ascii.eqb_refl.
    apply rep_class_stop; [exact Hss | reflexivity | exact Hs1 | exact Hs2 | ].
    cbn [append Re.rep_loop]. rewrite Ascii.eqb_refl.
    cbn [Nat.eqb andb Nat.pred].
    match goal with
    | |- match ?m with _ => _ end = _ => eassert (Hm : m = Some _)
    end.
    { apply rep_class_all; [exact Hfd | | | ].
      - cbn [String.length]. lia.
      - cbn [String.length Nat.add]. lia.
      - cbn [String.length Nat.eqb Re.at_end]. reflexivity. }
    rewrite Hm. reflexivity.
  - unfold grp. cbn [Re.group Nat.eqb].
    split; [exact (consumed_app (String sg "") _) | ].
    split; [apply consumed_app | split; [apply consumed_app | apply consumed_all]].
Qed.

Lemma digits_numeric (s : string) : all_digits s = true -> all_chars numeric s = true.
Proof.
  rewrite all_digits_chars. apply all_chars_weaken.
  intros c H. unfold numeric. rewrite H. reflexivity.
Qed.

Lemma with_fraction_numeric (ss fd : string) :
  all_digits ss = true -> all_digits fd = true ->
  all_chars numeric (with_fraction ss fd) = true.
Proof.
  intros Hs Hf. destruct fd as [ | c fd]; cbn [with_fraction];
    [apply digits_numeric, Hs | ].
  rewrite all_chars_app, (digits_numeric ss Hs).
  cbn [append all_chars andb]. change (numeric "."%char) with true.
  cbn [andb]. apply (digits_numeric _ Hf).
Qed.

Lemma precision_with_fraction (ss fd : string) :
  all_digits ss = true -> all_digits fd = true ->
  Split.determine_precision (with_fraction ss fd) = Z.of_nat (String.length fd).
Proof.
  intros Hs Hf. destruct fd as [ | c fd]; cbn [with_fraction].
  - apply precision_without_dot, digits_have_no_dot, Hs.
  - apply precision_after_dot, digits_have_no_dot, Hf.
Qed.

Lemma casa_dec_no_space (sg : ascii) (d mm ss fd : string) :
  Str.one_of "+-" sg = true ->
  all_digits d = true -> all_digits mm = true -> all_digits ss = true ->
  all_digits fd = true ->
  all_chars (fun c => negb (Str.is_space c))
    (String sg (d ++ "." ++ mm ++ "." ++ with_fraction ss fd)) = true.
Proof.
  intros Hsg Hd Hmm Hss Hfd. cbn [all_chars].
  assert (Hs : negb (Str.is_space sg) = true) by (by_cases_on_char sg Hsg).
  rewrite Hs. cbn [andb].
  apply (all_chars_weaken numeric _ _ numeric_no_space).
  rewrite all_chars_app, (digits_numeric d Hd). cbn [append all_chars andb].
  change (numeric "."%char) with true. cbn [andb].
  rewrite all_chars_app, (digits_numeric mm Hmm). cbn [append all_chars andb].
  change (numeric "."%char) with true. cbn [andb].
  apply with_fraction_numeric; assumption.
Qed.

(** X13: [parse_casa_dotted_dec] reads a sign, one to three digits of degrees,
    one or two digits of minutes and one or two digits of seconds with an
    optional fraction, separated by points, and checks no range: the value is
    the sign times d + m/60 + s/3600 whatever the minutes and the seconds
    are, and the precision is the number of digits of the fraction. *)
Theorem casa_dec_fields_are_not_range_checked (sgn d mm ss fd : string)
    (dd mmf ssf : float) :
  In sgn ["+"; "-"] ->
  digit_run 1 3 d = true -> digit_run 1 2 mm = true -> digit_run 1 2 ss = true ->
  all_digits fd = true ->
  Py.float_of_string d = Ok dd ->
  Py.float_of_string mm = Ok mmf ->
  Py.float_of_string (with_fraction ss fd) = Ok ssf ->
  Split.parse_casa_dotted_dec (sgn ++ d ++ "." ++ mm ++ "." ++ with_fraction ss fd)
  = Ok ((Py.of_sign (String.eqb sgn "-") * (dd + mmf / 60 + ssf / 3600))%float,
        Z.of_nat (String.length fd)).
Proof.
  intros Hsgn Hd Hmm Hss Hfd Hdd Hmmf Hssf.
  assert (Hsg : exists sg, sgn = String sg "" /\ Str.one_of "+-" sg = true).
  { destruct Hsgn as [<- | [<- | []]]; eexists; split; reflexivity. }
  destruct Hsg as (sg & -> & Hsg).
  destruct (match_casa_dec sg d mm ss fd Hsg Hd Hmm Hss Hfd)
    as (m & Hm & G1 & G2 & G3 & G4).
  destruct (digit_run_inv _ _ _ Hd) as (Hd' & _).
  destruct (digit_run_inv _ _ _ Hmm) as (Hmm' & _).
  destruct (digit_run_inv _ _ _ Hss) as (Hss' & _).
  unfold Split.parse_casa_dotted_dec.
  change (String sg "" ++ d ++ "." ++ mm ++ "." ++ with_fraction ss fd)
    with (String sg (d ++ "." ++ mm ++ "." ++ with_fraction ss fd)).
  rewrite (strip_no_space _ (casa_dec_no_space sg d mm ss fd Hsg Hd' Hmm' Hss' Hfd)).
  rewrite Hm. cbv beta iota zeta.
  rewrite G1, G2, G3, G4, Hdd, Hmmf, Hssf. cbn [bind].
  rewrite (precision_with_fraction ss fd Hss' Hfd). reflexivity.
Qed.

Lemma casa_dec_fields_are_not_range_checked_witness :
  In "+" ["+"; "-"]
  /\ digit_run 1 3 "45" = true /\ digit_run 1 2 "99" = true
  /\ all_digits "5" = true
  /\ Split.parse_casa_dotted_dec "+45.99.99.5"
     = Ok ((1 * (read "45" + read "99" / 60 + read "99.5" / 3600))%float, 1%Z)
  /\ Split.parse_to_degrees "12.3.4" false "casa" = Raise (InvalidCasaDec "12.3.4").
Proof.
  split; [left; reflexivity | ].
  split; [reflexivity | split; [reflexivity | split; [reflexivity | ]]].
  split.
  - exact (casa_dec_fields_are_not_range_checked "+" "45" "99" "99" "5"
             (read "45") (read "99") (read "99.5")
             (or_introl eq_refl) eq_refl eq_refl eq_refl eq_refl
             eq_refl eq_refl eq_refl).
  - vm_compute. reflexivity.
Defined.

(** ** Further facts on signs, widths and precisions *)

(** X14: [dms_to_degrees] of the tokenising converter takes the sign from the
    text of the degrees field, not from its value: a field made of an
    optional sign and a numeral gives the magnitude d + m/60 + s/3600 with
    that sign, so that a declination of minus zero degrees stays negative. *)
Theorem split_dms_takes_sign_from_text (sgn ds m s : string) (dd mm ss : float) :
  In sgn [""; "+"; "-"] ->
  ds <> "" ->
  all_chars numeric ds = true ->
  Py.float_of_string ds = Ok dd ->
  Py.float_of_string m = Ok mm ->
  Py.float_of_string s = Ok ss ->
  within mm 60 = true ->
  within ss 60 = true ->
  Split.dms_to_degrees (sgn ++ ds) m s
  = Ok (Py.of_sign (String.eqb sgn "-") * (dd + mm / 60 + ss / 3600))%float.
Proof. exact (split_dms_keeps_sign sgn ds m s dd mm ss). Qed.

Lemma split_dms_takes_sign_from_text_witness :
  In "-" [""; "+"; "-"]
  /\ all_chars numeric "0" = true
  /\ within (read "30") 60 = true
  /\ within (read "0") 60 = true
  /\ Split.dms_to_degrees "-0" "30" "0"
     = Ok (-1 * (read "0" + read "30" / 60 + read "0" / 3600))%float
  /\ Split.dms_to_degrees "-0" "30" "0" = Ok (-0.5)%float.
Proof.
  split; [right; right; left; reflexivity | ].
  split; [reflexivity | split; [reflexivity | split; [reflexivity | ]]].
  split.
  - apply (split_dms_takes_sign_from_text "-" "0" "30" "0"
             (read "0") (read "30") (read "0")).
    + right; right; left; reflexivity.
    + discriminate.
    + reflexivity.
    + reflexivity.
    + reflexivity.
    + reflexivity.
    + reflexivity.
    + reflexivity.
  - vm_compute. reflexivity.
Defined.

(** X15: [two_digit_left] at a positive precision p returns a numeral with at
    least two characters before the point and exactly p digits after it. *)
Theorem two_digit_left_pads_to_two_digits (value r : float) (p : Z) (s : string) :
  (0 < p)%Z ->
  Py.round_digits value p = Ok r -> finite r = true ->
  Split.two_digit_left value p = Ok s ->
  exists int_part frac,
    s = int_part ++ "." ++ frac
    /\ Str.mem "." int_part = false
    /\ 2 <= String.length int_part
    /\ String.length frac = Z.to_nat p
    /\ all_digits frac = true.
Proof. exact (two_digit_left_shape value r p s). Qed.

Lemma two_digit_left_pads_to_two_digits_witness :
  (0 < 2)%Z
  /\ Py.round_digits (read "8.9") 2 = Ok (read "8.9")
  /\ finite (read "8.9") = true
  /\ Split.two_digit_left (read "8.9") 2 = Ok "08.90"
  /\ exists int_part frac,
      "08.90" = int_part ++ "." ++ frac
      /\ Str.mem "." int_part = false
      /\ 2 <= String.length int_part
      /\ String.length frac = Z.to_nat 2
      /\ all_digits frac = true.
Proof.
  assert (Hr : Py.round_digits (read "8.9") 2 = Ok (read "8.9"))
    by (vm_compute; reflexivity).
  assert (Hs : Split.two_digit_left (read "8.9") 2 = Ok "08.90")
    by (vm_compute; reflexivity).
  split; [lia | split; [exact Hr | split; [reflexivity | split; [exact Hs | ]]]].
  exact (two_digit_left_pads_to_two_digits (read "8.9") (read "8.9") 2 "08.90"
           eq_refl Hr eq_refl Hs).
Defined.

(** X16: in the tokenising converter, decimal output without precisions given
    takes the precision of each axis from the input: every result is made of
    an RA string and a Dec string that, at a positive inferred precision,
    have exactly that many digits after the point. *)
Theorem split_default_precision_is_inferred (input : string) (o : options)
    (out : string) :
  output_format o = "degrees" ->
  ra_precision o = None ->
  dec_precision o = None ->
  Split.ra_dec_converter input o = Ok out ->
  exists ra_part dec_part ra_val p dec_val q ra_str dec_str,
    Split.split_ra_dec (clean input) (input_format o) = Ok (ra_part, dec_part)
    /\ Split.parse_to_degrees ra_part true (input_format o) = Ok (ra_val, p)
    /\ Split.parse_to_degrees dec_part false (input_format o) = Ok (dec_val, q)
    /\ ((0 < p)%Z -> fixed_point (Z.to_nat p) ra_str)
    /\ ((0 < q)%Z -> fixed_point (Z.to_nat q) dec_str)
    /\ out = selected o ra_str dec_str.
Proof. exact (split_decimal_precision_inferred input o out). Qed.

Lemma split_default_precision_is_inferred_witness :
  let o := Split.defaults in
  output_format o = "degrees"
  /\ ra_precision o = None
  /\ dec_precision o = None
  /\ Split.ra_dec_converter "12:34:56.789 +45:23:45.6" o
     = Ok ("188.737" ++ tab ++ "+45.4")
  /\ exists ra_part dec_part ra_val p dec_val q ra_str dec_str,
      Split.split_ra_dec (clean "12:34:56.789 +45:23:45.6") (input_format o)
      = Ok (ra_part, dec_part)
      /\ Split.parse_to_degrees ra_part true (input_format o) = Ok (ra_val, p)
      /\ Split.parse_to_degrees dec_part false (input_format o) = Ok (dec_val, q)
      /\ ((0 < p)%Z -> fixed_point (Z.to_nat p) ra_str)
      /\ ((0 < q)%Z -> fixed_point (Z.to_nat q) dec_str)
      /\ "188.737" ++ tab ++ "+45.4" = selected o ra_str dec_str.
Proof.
  intros o.
  assert (H : Split.ra_dec_converter "12:34:56.789 +45:23:45.6" o
              = Ok ("188.737" ++ tab ++ "+45.4")) by (vm_compute; reflexivity).
  split; [reflexivity | split; [reflexivity | split; [reflexivity | ]]].
  split; [exact H | ].
  exact (split_default_precision_is_inferred _ o _ eq_refl eq_refl eq_refl H).
Defined.

(** ** The epoch marker *)

Lemma no_epoch_here (prev : option ascii) (s : string) :
  match s with String c _ => Str.one_of "Jj" c = false | EmptyString => True end ->
  Re.match_here epoch_marker prev s = None.
Proof.
  intros H. unfold Re.match_here, epoch_marker.
  unfold Re.cat, Re.set. cbn [Re.run].
  destruct (xorb _ _); [ | reflexivity].
  destruct s as [ | c s]; [reflexivity | ]. rewrite H. reflexivity.
Qed.

Lemma sub_loop_no_epoch (s : string) : forall fuel prev,
  free_of (Str.one_of "Jj") s = true ->
  Re.sub_loop epoch_marker "" fuel prev s = s.
Proof.
  unfold free_of. induction s as [ | c s IH]; intros fuel prev H.
  - destruct fuel as [ | fuel]; [reflexivity | ].
    cbn [Re.sub_loop]. rewrite (no_epoch_here prev "" I). reflexivity.
  - destruct fuel as [ | fuel]; [reflexivity | ].
    cbn [all_chars] in H. apply andb_prop in H. destruct H as [Hc Hs].
    apply negb_true_iff in Hc.
    cbn [Re.sub_loop]. rewrite (no_epoch_here prev (String c s) Hc).
    rewrite (IH fuel (Some c) Hs). reflexivity.
Qed.

Lemma lstrip_idem (s : string) : Str.lstrip (Str.lstrip s) = Str.lstrip s.
Proof.
  induction s as [ | c s IH]; [reflexivity | ].
  cbn [Str.lstrip]. destruct (Str.is_space c) eqn:Hc; [exact IH | ].
  cbn [Str.lstrip]. rewrite Hc. reflexivity.
Qed.

Lemma rstrip_cons (c : ascii) (s : string) :
  Str.is_space c = false -> Str.rstrip (String c s) = String c (Str.rstrip s).
Proof.
  intros Hc. cbn [Str.rstrip]. rewrite Hc. destruct (Str.rstrip s); reflexivity.
Qed.

Lemma rstrip_step (c : ascii) (s : string) :
  Str.rstrip (String c s)
  = match Str.rstrip s with
    | EmptyString => if Str.is_space c then EmptyString else String c EmptyString
    | t => String c t
    end.
Proof. reflexivity. Qed.

Lemma rstrip_idem (s : string) : Str.rstrip (Str.rstrip s) = Str.rstrip s.
Proof.
  induction s as [ | c s IH]; [reflexivity | ].
  rewrite (rstrip_step c s). destruct (Str.rstrip s) as [ | d t] eqn:Hr.
  - destruct (Str.is_space c) eqn:Hc; [reflexivity | ].
    cbn [Str.rstrip]. rewrite Hc. reflexivity.
  - rewrite (rstrip_step c (String d t)), IH. reflexivity.
Qed.

Lemma lstrip_rstrip (s : string) :
  Str.lstrip (Str.rstrip s) = Str.rstrip (Str.lstrip s).
Proof.
  induction s as [ | c s IH]; [reflexivity | ].
  destruct (Str.is_space c) eqn:Hc.
  - cbn [Str.lstrip Str.rstrip]. rewrite Hc, <- IH.
    destruct (Str.rstrip s) as [ | d t]; [reflexivity | ].
    cbn [Str.lstrip]. rewrite Hc. reflexivity.
  - rewrite (rstrip_cons c s Hc). cbn [Str.lstrip]. rewrite Hc.
    symmetry. apply rstrip_cons, Hc.
Qed.

Lemma strip_idem (s : string) : Str.strip (Str.strip s) = Str.strip s.
Proof.
  unfold Str.strip. rewrite lstrip_rstrip, lstrip_idem, rstrip_idem. reflexivity.
Qed.

Lemma free_of_strip (f : ascii -> bool) (s : string) :
  free_of f s = true -> free_of f (Str.strip s) = true.
Proof. apply all_chars_strip. Qed.

Lemma clean_without_epoch (s : string) :
  free_of (Str.one_of "Jj") s = true -> clean s = Str.strip s.
Proof.
  intros H. unfold clean, Re.re_sub.
  rewrite (sub_loop_no_epoch _ _ _ (free_of_strip _ _ H)). apply strip_idem.
Qed.

Lemma rep_loop_skip (A : Type) (step : Re.matcher A) (k : Re.cont A) (a : A)
    (n : nat) prev s cs :
  (forall k', step prev s cs k' = None) ->
  k prev s cs = Some a ->
  Re.rep_loop A step true 0 n prev s cs k = Some a.
Proof.
  intros Hstep Hk. destruct n as [ | n]; cbn [Re.rep_loop]; [exact Hk | ].
  rewrite Hstep. exact Hk.
Qed.

Lemma rep_loop_take (A : Type) (f : ascii -> bool) (k : Re.cont A) (a : A)
    prev c s cs :
  f c = true ->
  k (Some c) s cs = Some a ->
  Re.rep_loop A (Re.run A (Re.Cls f)) true 0 1 prev (String c s) cs k = Some a.
Proof.
  intros Hc Hk. cbn [Re.rep_loop]. rewrite run_class, Hc.
  assert (Hlen : Nat.eqb (String.length s) (String.length (String c s)) = false)
    by (apply Nat.eqb_neq; cbn [String.length]; lia).
  rewrite Hlen, andb_false_r, Hk. reflexivity.
Qed.

Lemma lstrip_drop_while (s : string) : Str.lstrip s = drop_while Str.is_space s.
Proof.
  induction s as [ | c s IH]; [reflexivity | ].
  cbn [Str.lstrip drop_while]. rewrite IH. reflexivity.
Qed.

Lemma epoch_prefix_match (e w : string) :
  In e ["J2000"; "j2000"; "J2000.0"; "j2000.0"] ->
  exists p,
    Re.match_here epoch_marker None (e ++ String " " w)
    = Some (p, Str.lstrip w).
Proof.
  intros He. rewrite lstrip_drop_while.
  destruct (rep_class_greedy _ Str.is_space
              (fun prev' s' (_ : Re.caps) => Some (prev', s'))
              (String " " w) (S (String.length w)) (Some "0"%char) [])
    as [p Hp].
  { intros p t c. eexists. reflexivity. }
  { apply le_n. }
  exists p.
  unfold Re.match_here, epoch_marker.
  unfold Re.cat, Re.set, Re.star, Re.opt, Re.lit, Re.space.
  destruct He as [<- | [<- | [<- | [<- | []]]]];
    cbn -[Re.rep_loop];
    (apply rep_loop_skip; [intros; reflexivity | ]);
    cbn -[Re.rep_loop];
    first [ apply rep_loop_skip; [intros; reflexivity | ]
          | apply rep_loop_take; [reflexivity | ] ];
    first [ apply rep_loop_skip; [intros; reflexivity | ]
          | apply rep_loop_take; [reflexivity | ] ];
    cbn -[Re.rep_loop]; exact Hp.
Qed.

Lemma rstrip_app_no_space (e u : string) :
  free_of Str.is_space e = true -> Str.rstrip (e ++ u) = e ++ Str.rstrip u.
Proof.
  unfold free_of. induction e as [ | c e IH]; [reflexivity | ].
  cbn [all_chars append]. intros H. apply andb_prop in H. destruct H as [Hc He].
  apply negb_true_iff in Hc. rewrite (rstrip_cons c _ Hc), (IH He). reflexivity.
Qed.

Lemma epoch_names (e : string) :
  In e ["J2000"; "j2000"; "J2000.0"; "j2000.0"] ->
  free_of Str.is_space e = true
  /\ Str.lstrip e = e
  /\ (forall u, Str.lstrip (e ++ u) = e ++ u)
  /\ Re.re_sub epoch_marker "" e = "".
Proof.
  intros [<- | [<- | [<- | [<- | []]]]];
    (split; [reflexivity | split; [reflexivity | split; [reflexivity | ]]]);
    vm_compute; reflexivity.
Qed.

Lemma clean_epoch_prefix (e s : string) :
  In e ["J2000"; "j2000"; "J2000.0"; "j2000.0"] ->
  free_of (Str.one_of "Jj") s = true ->
  clean (e ++ " " ++ s) = clean s.
Proof.
  intros He Hs. rewrite (clean_without_epoch s Hs).
  destruct (epoch_names e He) as (Hfree & _ & Hl & Hsub).
  assert (Hstrip : Str.strip (e ++ " " ++ s) = e ++ Str.rstrip (String " " s)).
  { unfold Str.strip. rewrite Hl. apply rstrip_app_no_space, Hfree. }
  unfold clean. rewrite Hstrip, (rstrip_step " " s).
  assert (Hrfree : free_of (Str.one_of "Jj") (Str.rstrip s) = true)
    by (apply all_chars_rstrip, Hs).
  destruct (Str.rstrip s) as [ | d t] eqn:Hr.
  - change (if Str.is_space " " then "" else String " " "") with "".
    rewrite app_nil_r_s, Hsub.
    unfold Str.strip. rewrite <- (lstrip_rstrip s), Hr. reflexivity.
  - unfold Re.re_sub. cbn [Re.sub_loop].
    destruct (epoch_prefix_match e (String d t) He) as [p ->].
    assert (Hlt : Nat.ltb (String.length (Str.lstrip (String d t)))
                    (String.length (e ++ String " " (String d t))) = true).
    { apply Nat.ltb_lt. rewrite lstrip_drop_while, length_app_s.
      pose proof (length_drop_while Str.is_space (String d t)).
      cbn [String.length] in *. lia. }
    rewrite Hlt. cbn [append].
    rewrite sub_loop_no_epoch; [ | apply all_chars_lstrip, Hrfree].
    unfold Str.strip. rewrite lstrip_idem, <- Hr, (lstrip_rstrip s), rstrip_idem.
    reflexivity.
Qed.

(** X17: an epoch marker before the coordinates is dropped by both converters:
    an input without the letter J gives the same result, or the same error,
    when J2000, j2000, J2000.0 or j2000.0 and a blank are written before it. *)
Theorem epoch_prefix_is_dropped (e input : string) (o : options) :
  In e ["J2000"; "j2000"; "J2000.0"; "j2000.0"] ->
  free_of (Str.one_of "Jj") input = true ->
  Split.ra_dec_converter (e ++ " " ++ input) o = Split.ra_dec_converter input o
  /\ Regex.ra_dec_converter (e ++ " " ++ input) o = Regex.ra_dec_converter input o.
Proof.
  intros He Hs. pose proof (clean_epoch_prefix e input He Hs) as H.
  unfold Split.ra_dec_converter, Regex.ra_dec_converter.
  fold (clean (e ++ " " ++ input)). fold (clean input). rewrite H.
  split; reflexivity.
Qed.

Lemma epoch_prefix_is_dropped_witness :
  In "J2000.0" ["J2000"; "j2000"; "J2000.0"; "j2000.0"]
  /\ free_of (Str.one_of "Jj") "12:34:56.7 +45:23:45" = true
  /\ Split.ra_dec_converter "J2000.0 12:34:56.7 +45:23:45" Split.defaults
     = Split.ra_dec_converter "12:34:56.7 +45:23:45" Split.defaults
  /\ Regex.ra_dec_converter "J2000.0 12:34:56.7 +45:23:45" Regex.defaults
     = Regex.ra_dec_converter "12:34:56.7 +45:23:45" Regex.defaults
  /\ Regex.ra_dec_converter "J2000.0 12:34:56.7 +45:23:45" Regex.defaults
     = Ok "188.7362500, +45.395833".
Proof.
  assert (He : In "J2000.0" ["J2000"; "j2000"; "J2000.0"; "j2000.0"])
    by (right; right; left; reflexivity).
  split; [exact He | split; [reflexivity | ]].
  split; [exact (proj1 (epoch_prefix_is_dropped "J2000.0" "12:34:56.7 +45:23:45"
                          Split.defaults He eq_refl)) | ].
  split; [exact (proj2 (epoch_prefix_is_dropped "J2000.0" "12:34:56.7 +45:23:45"
                          Regex.defaults He eq_refl)) | ].
  vm_compute. reflexivity.
Defined.

(** ** Reading a rendering back *)

Lemma digit_is_plain (c : ascii) : Str.is_digit c = true -> plain c = true.
Proof. intros H. by_cases_on_char c H. Qed.

Lemma digits_plain (s : string) : all_digits s = true -> all_chars plain s = true.
Proof. rewrite all_digits_chars. apply all_chars_weaken, digit_is_plain. Qed.

Lemma zeros_plain (n : nat) : all_chars plain (Str.repeat_char "0" n) = true.
Proof. induction n as [ | n IH]; [reflexivity | exact IH]. Qed.

Lemma zfill_plain (width : nat) (s : string) :
  all_chars plain s = true -> all_chars plain (Str.zfill width s) = true.
Proof.
  intros H. unfold Str.zfill. rewrite all_chars_app, zeros_plain, H. reflexivity.
Qed.

Lemma decimal_plain (v : Z) : all_chars plain (Py.decimal v) = true.
Proof. apply digits_plain. unfold Py.decimal. apply all_digits_low_digits. Qed.

Lemma not_empty_length (s : string) : 1 <= String.length s -> s <> "".
Proof. destruct s; [cbn; lia | discriminate]. Qed.

Lemma field_app_l (a b : string) :
  all_chars plain a = true -> field b -> field (a ++ b).
Proof.
  intros Ha [Hne Hb]. split.
  - destruct a; [exact Hne | discriminate].
  - rewrite all_chars_app, Ha, Hb. reflexivity.
Qed.

Lemma field_app_r (a b : string) :
  field a -> all_chars plain b = true -> field (a ++ b).
Proof.
  intros [Hne Ha] Hb. split.
  - destruct a; [contradiction Hne; reflexivity | discriminate].
  - rewrite all_chars_app, Ha, Hb. reflexivity.
Qed.

Lemma zfill_field (width : nat) (s : string) : field s -> field (Str.zfill width s).
Proof. intros H. unfold Str.zfill. apply field_app_l; [apply zeros_plain | exact H]. Qed.

Lemma decimal_field (v : Z) : field (Py.decimal v).
Proof.
  split; [apply not_empty_length, decimal_not_empty | apply decimal_plain].
Qed.

Lemma format_d_field (width : nat) (n : Z) : field (Py.format_d width n).
Proof.
  unfold Py.format_d. apply field_app_l.
  - destruct (n <? 0)%Z; reflexivity.
  - apply zfill_field, decimal_field.
Qed.

Lemma format_f_field (plus : bool) (width : nat) (p : Z) (x : float) (s : string) :
  Py.format_f plus width p x = Ok s -> field s.
Proof.
  unfold Py.format_f. destruct (p <? 0)%Z; [discriminate | ].
  assert (Hsign : forall neg : bool,
             all_chars plain (if neg then "-" else if plus then "+" else "") = true).
  { intros neg. destruct neg; [reflexivity | destruct plus; reflexivity]. }
  assert (Hfixed : forall (neg : bool) (n : Z) (sgn body : string),
             (sgn, body) =
               (if neg then "-" else if plus then "+" else "",
                Py.decimal (n / 10 ^ p) ++
                  (if (p =? 0)%Z then ""
                   else "." ++ Py.low_digits (Z.to_nat p) (n mod 10 ^ p))) ->
             field (sgn ++ Str.zfill (width - String.length sgn) body)).
  { intros neg n sgn body E. injection E as -> ->.
    apply field_app_l; [apply Hsign | ].
    apply zfill_field, field_app_r; [apply decimal_field | ].
    destruct (p =? 0)%Z; [reflexivity | ].
    cbn [append all_chars]. change (plain "."%char) with true. cbn [andb].
    apply digits_plain, all_digits_low_digits. }
  destruct (Prim2SF x) as [neg | neg | | neg m e].
  - intros H. injection H as <-. apply (Hfixed neg 0%Z). reflexivity.
  - intros H. injection H as <-.
    apply field_app_l; [apply Hsign | ].
    apply zfill_field. split; [discriminate | reflexivity].
  - intros H. injection H as <-.
    apply field_app_l; [destruct plus; reflexivity | ].
    apply zfill_field. split; [discriminate | reflexivity].
  - destruct (Py.scale10 (Py.fraction m e) p) as [num den].
    intros H. injection H as <-.
    apply (Hfixed neg (Py.round_half_even num den)). reflexivity.
Qed.

Lemma two_digit_left_field (value : float) (p : Z) (s : string) :
  Split.two_digit_left value p = Ok s -> field s.
Proof.
  unfold Split.two_digit_left. intros H.
  apply bind_ok_inv in H. destruct H as (r & _ & H).
  apply bind_ok_inv in H. destruct H as (base_str & Hbase & H).
  apply format_f_field in Hbase.
  destruct (Str.mem "." base_str).
  - pose proof (join_split_on "." base_str) as Hjoin.
    destruct (Str.split_on "." base_str) as [ | int_part [ | frac_part [ | x xs]]];
      try discriminate H.
    destruct (Nat.eqb (String.length int_part) 1); injection H as <-;
      [ | exact Hbase].
    cbn [Str.join] in Hjoin. rewrite <- Hjoin in Hbase.
    apply (field_app_l "0"); [reflexivity | exact Hbase].
  - destruct (Nat.eqb (String.length base_str) 1); injection H as <-;
      [ | exact Hbase].
    apply (field_app_l "0"); [reflexivity | exact Hbase].
Qed.

Lemma seconds_field_field (ss : float) (p : Z) (s : string) :
  Split.seconds_field ss p = Ok s -> field s.
Proof.
  unfold Split.seconds_field. destruct (0 <? p)%Z; [apply two_digit_left_field | ].
  intros H. apply bind_ok_inv in H. destruct H as (n & _ & H).
  injection H as <-. apply format_d_field.
Qed.

Lemma three_fields_read_back (d m sec delim : string) :
  field d -> field m -> field sec ->
  delim <> "" -> all_chars breaks delim = true ->
  Split.parse_hms_or_dms (d ++ delim ++ m ++ delim ++ sec) = (d, m, sec).
Proof.
  intros Hd Hm Hs Hne Hdelim.
  pose proof (three_fields_laid_out "" d delim m delim sec "" Hd Hm Hs
                eq_refl Hdelim Hdelim eq_refl Hne Hne) as H.
  cbn [append] in H. rewrite app_nil_r_s in H. exact H.
Qed.

(** X18: what [degrees_to_hms] and [degrees_to_dms] of either implementation
    render can be read back field by field: with a non empty delimiter made
    of colons, white space or unit markers, the result is three fields
    joined by the delimiter, and [parse_hms_or_dms] returns exactly these
    three fields. *)
Theorem rendered_fields_read_back (render : float -> Z -> string -> result string)
    (v : float) (p : Z) (delim s : string) :
  In render [Split.degrees_to_hms; Split.degrees_to_dms;
             Regex.degrees_to_hms; Regex.degrees_to_dms] ->
  delim <> "" -> all_chars breaks delim = true ->
  render v p delim = Ok s ->
  exists d m sec,
    s = d ++ delim ++ m ++ delim ++ sec
    /\ Split.parse_hms_or_dms s = (d, m, sec).
Proof.
  intros Hrender Hne Hdelim H.
  assert (Hsign : forall b : bool, all_chars plain (if b then "-" else "+") = true)
    by (intros b; destruct b; reflexivity).
  assert (Hregex : forall w q x t,
             (if (q =? 0)%Z then Py.format_f false w 0 x
              else Py.format_f false 5 q x) = Ok t -> field t).
  { intros w q x t. destruct (q =? 0)%Z; apply format_f_field. }
  destruct Hrender as [<- | [<- | [<- | [<- | []]]]].
  - unfold Split.degrees_to_hms in H.
    apply bind_ok_inv in H. destruct H as (hh & _ & H).
    apply bind_ok_inv in H. destruct H as (mm & _ & H).
    apply bind_ok_inv in H. destruct H as (sec & Hsec & H).
    injection H as <-. eexists _, _, _. split; [reflexivity | ].
    apply three_fields_read_back; try assumption;
      [apply format_d_field | apply format_d_field | ].
    exact (seconds_field_field _ _ _ Hsec).
  - unfold Split.degrees_to_dms in H.
    apply bind_ok_inv in H. destruct H as (dd & _ & H).
    apply bind_ok_inv in H. destruct H as (mm & _ & H).
    apply bind_ok_inv in H. destruct H as (sec & Hsec & H).
    injection H as <-.
    rewrite <- (app_assoc_s (if (v <? 0)%float then "-" else "+") (Py.format_d 2 dd)).
    eexists _, _, _. split; [reflexivity | ].
    apply three_fields_read_back; try assumption.
    + apply field_app_l; [apply Hsign | apply format_d_field].
    + apply format_d_field.
    + exact (seconds_field_field _ _ _ Hsec).
  - unfold Regex.degrees_to_hms in H.
    apply bind_ok_inv in H. destruct H as (hh & _ & H).
    apply bind_ok_inv in H. destruct H as (mm & _ & H).
    apply bind_ok_inv in H. destruct H as (sec & Hsec & H).
    injection H as <-. eexists _, _, _. split; [reflexivity | ].
    apply three_fields_read_back; try assumption;
      [apply format_d_field | apply format_d_field | ].
    exact (Hregex _ _ _ _ Hsec).
  - unfold Regex.degrees_to_dms in H.
    apply bind_ok_inv in H. destruct H as (dd & _ & H).
    apply bind_ok_inv in H. destruct H as (mm & _ & H).
    apply bind_ok_inv in H. destruct H as (sec & Hsec & H).
    injection H as <-.
    rewrite <- (app_assoc_s (if (v <? 0)%float then "-" else "+") (Py.format_d 2 dd)).
    eexists _, _, _. split; [reflexivity | ].
    apply three_fields_read_back; try assumption.
    + apply field_app_l; [apply Hsign | apply format_d_field].
    + apply format_d_field.
    + exact (Hregex _ _ _ _ Hsec).
Qed.

Lemma rendered_fields_read_back_witness :
  In Split.degrees_to_dms [Split.degrees_to_hms; Split.degrees_to_dms;
                           Regex.degrees_to_hms; Regex.degrees_to_dms]
  /\ all_chars breaks ":" = true
  /\ Split.degrees_to_dms (read "-45.5125") 1 ":" = Ok "-45:30:45.0"
  /\ exists d m sec,
      "-45:30:45.0" = d ++ ":" ++ m ++ ":" ++ sec
      /\ Split.parse_hms_or_dms "-45:30:45.0" = (d, m, sec).
Proof.
  assert (H : Split.degrees_to_dms (read "-45.5125") 1 ":" = Ok "-45:30:45.0")
    by (vm_compute; reflexivity).
  split; [right; left; reflexivity | split; [reflexivity | split; [exact H | ]]].
  apply (rendered_fields_read_back Split.degrees_to_dms (read "-45.5125") 1 ":").
  - right; left; reflexivity.
  - discriminate.
  - reflexivity.
  - exact H.
Defined.

(** ** Errors that the tokenising converter never raises *)

Lemma sound_ok {A : Type} (a : A) : sound (Ok a).
Proof. intros e H. discriminate H. Qed.

Lemma sound_raise {A : Type} (e : exn) : is_crash e = false -> sound (@Raise A e).
Proof. intros He e' H. injection H as <-. exact He. Qed.

Lemma sound_bind {A B : Type} (r : result A) (f : A -> result B) :
  sound r -> (forall a, sound (f a)) -> sound (bind r f).
Proof.
  intros Hr Hf e. destruct r as [a | e0]; simpl.
  - apply Hf.
  - intros H. injection H as <-. apply Hr. reflexivity.
Qed.

Create HintDb sound discriminated.
#[local] Hint Resolve sound_ok sound_raise sound_bind : sound.

Ltac sound_step :=
  match goal with
  | |- sound (bind _ _) => apply sound_bind; [ | intros ]
  | |- sound (Ok _) => apply sound_ok
  | |- sound (Raise _) => apply sound_raise; reflexivity
  | |- sound (if ?b then _ else _) => destruct b
  | |- sound (match ?x with _ => _ end) => destruct x
  end.

Ltac sound_tac := repeat (first [ solve [auto with sound] | sound_step ]).

Lemma sound_float_of_string s : sound (Py.float_of_string s).
Proof.
  unfold Py.float_of_string.
  match goal with
  | |- sound (match ?x with _ => _ end) => destruct x
  end; sound_tac.
Qed.

Lemma sound_format_f plus width p x : sound (Py.format_f plus width p x).
Proof. unfold Py.format_f. repeat sound_step. Qed.

Lemma sound_int_of_float x : sound (Py.int_of_float x).
Proof. unfold Py.int_of_float. repeat sound_step. Qed.

Lemma sound_round_to_int x : sound (Py.round_to_int x).
Proof. unfold Py.round_to_int. repeat sound_step. Qed.

Lemma sound_round_digits x p : sound (Py.round_digits x p).
Proof. unfold Py.round_digits. repeat sound_step. Qed.

#[local] Hint Resolve sound_float_of_string sound_format_f sound_int_of_float
  sound_round_to_int sound_round_digits : sound.

(** A numeral that [format_f] writes has one point at most. *)
Lemma format_f_one_dot (plus : bool) (width : nat) (p : Z) (x : float) (s : string) :
  Py.format_f plus width p x = Ok s ->
  Str.mem "." s = true ->
  exists int_part frac, Str.split_on "." s = [int_part; frac].
Proof.
  unfold Py.format_f. destruct (p <? 0)%Z; [discriminate | ].
  assert (Hsign : forall neg : bool,
             Str.mem "." (if neg then "-" else if plus then "+" else "") = false).
  { intros neg. destruct neg; [reflexivity | destruct plus; reflexivity]. }
  assert (Hdec : forall v, Str.mem "." (Py.decimal v) = false).
  { intros v. apply digits_have_no_dot. unfold Py.decimal.
    apply all_digits_low_digits. }
  assert (Hfixed : forall (neg : bool) (n : Z) (sgn body : string),
             (sgn, body) =
               (if neg then "-" else if plus then "+" else "",
                Py.decimal (n / 10 ^ p) ++
                  (if (p =? 0)%Z then ""
                   else "." ++ Py.low_digits (Z.to_nat p) (n mod 10 ^ p))) ->
             Str.mem "." (sgn ++ Str.zfill (width - String.length sgn) body) = true ->
             exists int_part frac,
               Str.split_on "." (sgn ++ Str.zfill (width - String.length sgn) body)
               = [int_part; frac]).
  { intros neg n sgn body E. injection E as -> ->. unfold Str.zfill.
    destruct (p =? 0)%Z.
    - rewrite !mem_app, Hsign, zeros_have_no_dot, Hdec. discriminate.
    - intros _. rewrite <- !app_assoc_s. rewrite split_on_app.
      + rewrite split_on_no_sep;
          [ | apply digits_have_no_dot, all_digits_low_digits].
        eexists _, _. reflexivity.
      + rewrite !mem_app, Hsign, zeros_have_no_dot, Hdec. reflexivity. }
  destruct (Prim2SF x) as [neg | neg | | neg m e].
  - intros H. injection H as <-. apply (Hfixed neg 0%Z). reflexivity.
  - intros H. injection H as <-. unfold Str.zfill.
    rewrite !mem_app, Hsign, zeros_have_no_dot. discriminate.
  - intros H. injection H as <-. unfold Str.zfill.
    rewrite !mem_app, zeros_have_no_dot. destruct plus; discriminate.
  - destruct (Py.scale10 (Py.fraction m e) p) as [num den].
    intros H. injection H as <-.
    apply (Hfixed neg (Py.round_half_even num den)). reflexivity.
Qed.

Lemma sound_two_digit_left v p : sound (Split.two_digit_left v p).
Proof.
  unfold Split.two_digit_left.
  apply sound_bind; [apply sound_round_digits | intros r].
  destruct (Py.format_f false 0 p r) as [base_str | e] eqn:Hbase;
    [ | apply sound_raise; exact (sound_format_f _ _ _ _ e Hbase)].
  cbn [bind]. destruct (Str.mem "." base_str) eqn:Hdot; [ | sound_tac].
  destruct (format_f_one_dot _ _ _ _ _ Hbase Hdot) as (int_part & frac & ->).
  sound_tac.
Qed.

#[local] Hint Resolve sound_two_digit_left : sound.

Lemma sound_seconds_field v p : sound (Split.seconds_field v p).
Proof. unfold Split.seconds_field. sound_tac. Qed.

#[local] Hint Resolve sound_seconds_field : sound.

Lemma sound_degrees_to_hms v p d : sound (Split.degrees_to_hms v p d).
Proof. unfold Split.degrees_to_hms. sound_tac. Qed.

Lemma sound_degrees_to_dms v p d : sound (Split.degrees_to_dms v p d).
Proof. unfold Split.degrees_to_dms. sound_tac. Qed.

Lemma sound_degrees_to_casa_dec v p : sound (Split.degrees_to_casa_dec v p).
Proof. unfold Split.degrees_to_casa_dec. sound_tac. Qed.

Lemma sound_format_degrees v p f : sound (Split.format_degrees v p f).
Proof. unfold Split.format_degrees. sound_tac. Qed.

Lemma sound_split_ra_dec s fmt : sound (Split.split_ra_dec s fmt).
Proof. unfold Split.split_ra_dec. sound_tac. Qed.

Lemma sound_hms_to_degrees h m s : sound (Split.hms_to_degrees h m s).
Proof. unfold Split.hms_to_degrees. sound_tac. Qed.

Lemma sound_dms_to_degrees d m s : sound (Split.dms_to_degrees d m s).
Proof.
  unfold Split.dms_to_degrees.
  destruct (Str.startswith "-" _); [ | destruct (Str.startswith "+" _)]; sound_tac.
Qed.

Lemma sound_parse_casa_dotted_dec s : sound (Split.parse_casa_dotted_dec s).
Proof. unfold Split.parse_casa_dotted_dec. sound_tac. Qed.

Lemma sound_parse_ra_colon_strict s : sound (Split.parse_ra_colon_strict s).
Proof. unfold Split.parse_ra_colon_strict. sound_tac. Qed.

#[local] Hint Resolve sound_degrees_to_hms sound_degrees_to_dms
  sound_degrees_to_casa_dec sound_format_degrees sound_split_ra_dec
  sound_hms_to_degrees sound_dms_to_degrees sound_parse_casa_dotted_dec
  sound_parse_ra_colon_strict : sound.

Lemma sound_parse_to_degrees c is_ra fmt : sound (Split.parse_to_degrees c is_ra fmt).
Proof.
  unfold Split.parse_to_degrees.
  destruct (String.eqb fmt "casa").
  - destruct is_ra; sound_tac.
  - destruct (String.eqb fmt "hmsdms").
    + destruct (Split.parse_hms_or_dms _) as [[h m] s]. sound_tac.
    + destruct (Str.mem ":" _).
      * destruct (Split.parse_hms_or_dms _) as [[h m] s]. sound_tac.
      * destruct (Py.float_of_string _); sound_tac.
Qed.

#[local] Hint Resolve sound_parse_to_degrees : sound.

(** X19: the tokenising converter raises neither the error of a tuple that
    does not unpack nor an IndexError: the texts that [two_digit_left] takes
    from a numeral with a point are always two, and no other step of the
    converter can raise one of these errors. *)
Theorem split_converter_raises_no_crash (input : string) (o : options) (e : exn) :
  Split.ra_dec_converter input o = Raise e ->
  e <> UnpackError /\ e <> IndexError.
Proof.
  intros H.
  assert (Hsound : sound (Split.ra_dec_converter input o)).
  { unfold Split.ra_dec_converter. sound_tac. }
  specialize (Hsound e H). split; intros ->; discriminate Hsound.
Qed.

Lemma split_converter_raises_no_crash_witness :
  Split.ra_dec_converter "12:30:45,+45:30:15x" Split.defaults
  = Raise (FloatOfString "15x")
  /\ FloatOfString "15x" <> UnpackError /\ FloatOfString "15x" <> IndexError.
Proof.
  assert (H : Split.ra_dec_converter "12:30:45,+45:30:15x" Split.defaults
              = Raise (FloatOfString "15x")) by (vm_compute; reflexivity).
  split; [exact H | ].
  exact (split_converter_raises_no_crash _ _ _ H).
Defined.

(** ** A decimal pair without a separator *)

Lemma re_split_free (f : ascii -> bool) (s : string) :
  free_of f s = true -> Re.re_split (Re.plus (Re.Cls f)) s = [s].
Proof.
  intros H. unfold Re.re_split.
  replace (S (String.length s)) with (String.length s + 1) by lia.
  rewrite <- (app_nil_r_s s) at 2.
  destruct (split_loop_free f s 1 None "" "" H) as [p ->].
  apply split_loop_end.
Qed.

Lemma free_of_weaken (f g : ascii -> bool) (s : string) :
  (forall c, g c = true -> f c = true) ->
  free_of f s = true -> free_of g s = true.
Proof.
  intros Hgf. unfold free_of. apply all_chars_weaken. intros c Hc.
  destruct (g c) eqn:Hg; [ | reflexivity].
  rewrite (Hgf c Hg) in Hc. discriminate Hc.
Qed.

Lemma newline_is_delimiter (c : ascii) : newline c = true -> delimiter c = true.
Proof. intros H. by_cases_on_char c H. Qed.

Lemma space_is_delimiter (c : ascii) : Str.is_space c = true -> delimiter c = true.
Proof. intros H. unfold delimiter. rewrite H. apply orb_true_r. Qed.

(** X20: under [degrees], an input without a comma and without white space
    inside is split before its first sign that a digit follows, and raises
    the error of [split_ra_dec] when it has no such sign. *)
Theorem split_ra_dec_degrees_without_separator (input_str : string) :
  free_of delimiter (Str.strip input_str) = true ->
  Split.split_ra_dec input_str "degrees"
  = match sign_split (Str.strip input_str) with
    | Some (a, b) => Ok (a, b)
    | None => Raise (CannotSplitDegrees (Str.strip input_str))
    end.
Proof.
  intros Hfree. unfold Split.split_ra_dec.
  change (String.eqb "degrees" "casa") with false.
  change (String.eqb "degrees" "hmsdms") with false. cbv iota.
  unfold comma_or_space. fold delimiter.
  rewrite (re_split_free delimiter _ Hfree).
  rewrite (match_signed_tail _ (free_of_weaken _ _ _ newline_is_delimiter Hfree)).
  destruct (sign_split _) as [[a b] | ] eqn:Hsplit; [ | reflexivity].
  destruct (sign_split_app _ a b Hsplit) as [Hs _].
  apply (free_of_weaken _ _ _ space_is_delimiter) in Hfree.
  unfold free_of in Hfree. rewrite Hs, all_chars_app in Hfree.
  apply andb_prop in Hfree. destruct Hfree as [Ha Hb].
  unfold grp. cbn [Re.group Nat.eqb].
  rewrite (strip_no_space a Ha), (strip_no_space b Hb). reflexivity.
Qed.

Lemma split_ra_dec_degrees_without_separator_witness :
  free_of delimiter (Str.strip " 12.5+45.25 ") = true
  /\ free_of delimiter (Str.strip "12.5") = true
  /\ Split.split_ra_dec " 12.5+45.25 " "degrees" = Ok ("12.5", "+45.25")
  /\ Split.split_ra_dec "12.5" "degrees" = Raise (CannotSplitDegrees "12.5").
Proof.
  split; [reflexivity | split; [reflexivity | ]].
  split.
  - exact (split_ra_dec_degrees_without_separator " 12.5+45.25 " eq_refl).
  - exact (split_ra_dec_degrees_without_separator "12.5" eq_refl).
Defined.
